(** * pyc-carbonnet: anomaly synthesis and spatial overlays

    A shallow embedding of the two anomaly synthesizers of the carbon-sensing
    front end and of the geometry helpers they use:

    - the layer module ([generateDummyAnomalies],
      [generateAnomaliesAroundPoint]), and
    - the verification step ([calculateForestGrowthPercentage],
      [getBoundingBox], [detectAnomalies] and the two GeoJSON overlays),
    - the composite map layer ([renderLayers] and its accessors), the
      panel, modal and list of the verification step, and the step
      handlers and layer controls of the widget.

    Number model.  A JavaScript [number] is a finite rational or one of
    [Infinity], [-Infinity] and [NaN] ([JS.num]).  The modules
    [AnomalyLayer] and [VerificationStep] compute on these in exact
    arithmetic: control flow, records, ids, strings, layers and state are
    those of the code, and a number is the one the code computes up to the
    rounding of binary64.  The modules [AnomalyLayer64] and
    [VerificationStep64] are the same code with every arithmetic operation
    rounded as binary64 rounds it ([Binary64]); what depends on rounding
    is stated and proved there: the distance of a generated position from
    its center and of the vertices of a square from its anomaly, the
    threshold of the growth rule in terms of the metrics, and the place of
    the vertex mean with respect to the bounding box.  The sign of zero is
    not modelled.  Coordinates and carbon metrics supplied by the caller
    are finite.  [Math.random] is an explicit stream of draws with a
    position that every call advances. *)

From Stdlib Require Import QArith Qround Qabs Qminmax Qpower Lqa Lia ZArith.
From Stdlib Require Import List SpecFloat.
From Stdlib Require Import Bool String Ascii DecimalString.
Import ListNotations.

Open Scope Q_scope.

(* ================================================================== *)
(** ** JavaScript values *)

Inductive Severity : Set := high | medium | low.

(** Outcome of evaluating code that may throw. *)
Inductive completion (A : Type) : Type :=
| Normal (a : A)
| Throw (e : string).
Arguments Normal {A} a.
Arguments Throw {A} e.

Module JS.

(** Numbers: finite rationals and the three non-finite values. *)
Inductive num : Type :=
| Fin (q : Q)
| PInf
| NInf
| NaN.

Definition Qltb (a b : Q) : bool := negb (Qle_bool b a).

Definition neg (x : num) : num :=
  match x with
  | Fin a => Fin (- a)
  | PInf => NInf
  | NInf => PInf
  | NaN => NaN
  end.

Definition add (x y : num) : num :=
  match x, y with
  | NaN, _ | _, NaN => NaN
  | PInf, NInf | NInf, PInf => NaN
  | PInf, _ | _, PInf => PInf
  | NInf, _ | _, NInf => NInf
  | Fin a, Fin b => Fin (a + b)
  end.

Definition sub (x y : num) : num := add x (neg y).

(** An infinity scaled by a finite factor: [NaN] for a zero factor. *)
Definition scale_inf (inf : num) (a : Q) : num :=
  if Qeq_bool a 0 then NaN
  else if Qle_bool 0 a then inf else neg inf.

Definition mul (x y : num) : num :=
  match x, y with
  | NaN, _ | _, NaN => NaN
  | Fin a, Fin b => Fin (a * b)
  | Fin a, inf => scale_inf inf a
  | inf, Fin a => scale_inf inf a
  | PInf, PInf | NInf, NInf => PInf
  | PInf, NInf | NInf, PInf => NInf
  end.

Definition div (x y : num) : num :=
  match x, y with
  | NaN, _ | _, NaN => NaN
  | Fin a, Fin b =>
      if Qeq_bool b 0
      then (if Qeq_bool a 0 then NaN
            else if Qle_bool 0 a then PInf else NInf)
      else Fin (a / b)
  | Fin _, _ => Fin 0
  | inf, Fin b => if Qle_bool 0 b then inf else neg inf
  | _, _ => NaN
  end.

(** [Math.min] and [Math.max] of two arguments. *)
Definition min (x y : num) : num :=
  match x, y with
  | NaN, _ | _, NaN => NaN
  | NInf, _ | _, NInf => NInf
  | PInf, z | z, PInf => z
  | Fin a, Fin b => Fin (Qmin a b)
  end.

Definition max (x y : num) : num :=
  match x, y with
  | NaN, _ | _, NaN => NaN
  | PInf, _ | _, PInf => PInf
  | NInf, z | z, NInf => z
  | Fin a, Fin b => Fin (Qmax a b)
  end.

(** [a <= b] on numbers; every comparison with [NaN] is false. *)
Definition le (x y : num) : Prop :=
  match x, y with
  | NaN, _ | _, NaN => False
  | NInf, _ | _, PInf => True
  | Fin a, Fin b => a <= b
  | _, _ => False
  end.

(** Numeric equality up to the representation of the rational. *)
Definition eqv (x y : num) : Prop :=
  match x, y with
  | Fin a, Fin b => a == b
  | PInf, PInf | NInf, NInf | NaN, NaN => True
  | _, _ => False
  end.

(** [arr.length] as a number. *)
Definition length {A : Type} (l : list A) : Q :=
  inject_Z (Z.of_nat (List.length l)).

(** [arr[i]] for an integer index: [None] stands for [undefined]. *)
Definition index {A : Type} (l : list A) (i : Z) : option A :=
  if (i <? 0)%Z then None else nth_error l (Z.to_nat i).

(** Decimal digits of a non-negative integer. *)
Definition digits (n : Z) : string :=
  NilEmpty.string_of_uint (N.to_uint (Z.to_N n)).

(** [x.toFixed(1)] for a finite [x]: the sign, then the integer [n] for
    which [n / 10] is closest to [|x|] (the larger one on a tie), printed
    with a point before its last digit.  Below [1e21] only: from there on
    the engine prints exponent notation, which the percentage computed by
    the verification step cannot reach in binary64. *)
Definition toFixed1 (x : Q) : string :=
  let s := if Qltb x 0 then "-"%string else EmptyString in
  let n := Qfloor (Qabs x * 10 + (1 # 2)) in
  (s ++ digits (n / 10) ++ "." ++ digits (n mod 10))%string.

End JS.

(** A polygon as the drawing subsystem hands it over: an array of
    [[longitude, latitude]] pairs. *)
Definition Polygon : Type := list (Q * Q).

(* ================================================================== *)
(** ** The random source *)

(** Computations that draw from [Math.random] and may throw.  The state is
    the position of the next draw in the stream. *)
Definition Rand (A : Type) : Type := nat -> completion A * nat.

Definition ret {A : Type} (a : A) : Rand A := fun k => (Normal a, k).

Definition throw {A : Type} (e : string) : Rand A := fun k => (Throw e, k).

Definition bind {A B : Type} (m : Rand A) (f : A -> Rand B) : Rand B :=
  fun k =>
    match m k with
    | (Normal a, k') => f a k'
    | (Throw e, k') => (Throw e, k')
    end.

Notation "x <- m ;; f" := (bind m (fun x => f))
  (at level 61, m at next level, right associativity).

(** The contract of [Math.random]: every draw is in [[0, 1)]. *)
Definition unit_draws (rnd : nat -> Q) : Prop :=
  forall k : nat, 0 <= rnd k /\ rnd k < 1.

(* ================================================================== *)
(** ** The anomaly layer module *)

Module AnomalyLayer.

Record AnomalyPoint : Type := {
  id : Z;
  position : Q * Q;
  severity : option Severity;
  type : string;
  description : string;
  radius : option Q
}.

Record AnomalyType : Type := {
  type_name : string;
  type_description : string
}.

Definition anomalyTypes : list AnomalyType := [
  {| type_name := "Deforestation";
     type_description := "Potential unauthorized clearing detected" |};
  {| type_name := "Carbon Stock Inconsistency";
     type_description := "Reported vs measured stock discrepancy" |};
  {| type_name := "Boundary Violation";
     type_description := "Project boundary overlap with restricted area" |};
  {| type_name := "Degradation";
     type_description := "Forest degradation above expected threshold" |};
  {| type_name := "Reporting Error";
     type_description :=
       "Measurement data inconsistent with satellite imagery" |};
  {| type_name := "Conversion Risk";
     type_description := "High risk of land-use conversion detected" |};
  {| type_name := "Illegal Activity";
     type_description := "Signs of unauthorized activity detected" |}
].

Definition severityLevels : list Severity := [
  high; high;
  medium; medium; medium; medium; medium;
  low; low; low
].

Definition scale : Q := 0.02.

Definition radiusMap (s : Severity) : Q :=
  match s with
  | high => 300
  | medium => 200
  | low => 150
  end.

Definition defaultCenter : Q * Q := (101.4383, 0.5104).

Section WithRandom.

Variable rnd : nat -> Q.

Definition Math_random : Rand Q := fun k => (Normal (rnd k), S k).

(** The body of the loop of [generateAnomaliesAroundPoint] for counter
    [i].  Reading [.type] of an [undefined] catalog entry throws.  The
    offsets and the position are exact here; [AnomalyLayer64.generateOne]
    rounds them. *)
Definition generateOne (center : Q * Q) (i : Z) : Rand AnomalyPoint :=
  let '(centerLng, centerLat) := center in
  r1 <- Math_random ;;
  let lngOffset := (r1 - 0.5) * scale * 2 in
  r2 <- Math_random ;;
  let latOffset := (r2 - 0.5) * scale * 2 in
  r3 <- Math_random ;;
  let typeIndex := Qfloor (r3 * JS.length anomalyTypes) in
  r4 <- Math_random ;;
  let severityIndex := Qfloor (r4 * JS.length severityLevels) in
  let severity := JS.index severityLevels severityIndex in
  match JS.index anomalyTypes typeIndex with
  | None => throw "TypeError"
  | Some entry =>
      ret {| id := i + 1;
             position := (centerLng + lngOffset, centerLat + latOffset);
             severity := severity;
             type := type_name entry;
             description := type_description entry;
             radius := option_map radiusMap severity |}
  end.

(** [for (let i = 0; i < count; i++) { ... anomalies.push(...) }] from
    counter [i], with the test of the loop evaluated before every trip and
    at most [fuel] trips. *)
Fixpoint forLoop (center : Q * Q) (count : Q) (fuel : nat) (i : Z)
    (anomalies : list AnomalyPoint) : Rand (list AnomalyPoint) :=
  match fuel with
  | O => ret anomalies
  | S fuel' =>
      if JS.Qltb (inject_Z i) count then
        a <- generateOne center i ;;
        forLoop center count fuel' (i + 1)%Z (anomalies ++ [a])
      else ret anomalies
  end.

(** Number of integers [i >= 0] with [i < count]: the trips the loop
    makes, and the fuel it is run with. *)
Definition tripCount (count : Q) : nat := Z.to_nat (Qceiling count).

Definition generateAnomaliesAroundPoint (center : Q * Q) (count : Q)
    : Rand (list AnomalyPoint) :=
  forLoop center count (tripCount count) 0%Z [].

(** [centerPolygon] is [null] ([None]) or an array; [count] defaults
    to 5 when the argument is left out. *)
Definition generateDummyAnomalies (centerPolygon : option Polygon)
    (count : option Q) : Rand (list AnomalyPoint) :=
  let count := match count with Some c => c | None => 5 end in
  match centerPolygon with
  | None => generateAnomaliesAroundPoint defaultCenter count
  | Some centerPolygon =>
      if JS.Qltb (JS.length centerPolygon) 3
      then generateAnomaliesAroundPoint defaultCenter count
      else
        let centerLng :=
          fold_left (fun sum point => sum + fst point) centerPolygon 0
          / JS.length centerPolygon in
        let centerLat :=
          fold_left (fun sum point => sum + snd point) centerPolygon 0
          / JS.length centerPolygon in
        generateAnomaliesAroundPoint (centerLng, centerLat) count
  end.

End WithRandom.

End AnomalyLayer.

(* ================================================================== *)
(** ** The verification step *)

Module VerificationStep.

Record AnomalyInfo : Type := {
  id : Z;
  severity : Severity;
  type : string;
  description : string;
  location : JS.num * JS.num
}.

(** Modelled from the spec: the declaration of the carbon metrics object
    of the drawing context, which supplies [carbonStocks], [forestGrowth]
    and [area].  [area] may be missing ([None]). *)
Record CarbonMetrics : Type := {
  carbonStocks : Q;
  forestGrowth : Q;
  area : option Q
}.

(** What [useDrawing()] hands to the component.  [getDrawnArea] may be
    missing ([None]); when called it returns the polygon or [null]. *)
Record DrawingContext : Type := {
  carbonMetrics : option CarbonMetrics;
  getDrawnArea : option (option Polygon)
}.

(** Truthiness of an optional number. *)
Definition truthy (x : option Q) : bool :=
  match x with
  | Some q => negb (Qeq_bool q 0)
  | None => false
  end.

(** *** GeoJSON overlays *)

Inductive Geometry : Type :=
| PointGeometry (coordinates : JS.num * JS.num)
| PolygonGeometry (coordinates : list (list (JS.num * JS.num))).

Inductive Properties : Type :=
| PointProperties (id : Z) (severity : Severity)
    (type : string) (description : string)
| AreaProperties (id : Z) (severity : Severity).

Record Feature : Type := {
  properties : Properties;
  geometry : Geometry
}.

Definition Color : Type := list Z.

(** A [GeoJsonLayer] by its id, the features of its collection, its colour
    accessors as functions of the severity of a feature, and its
    [pickable] flag.  Pixel sizes and the hover and click handlers are
    left out. *)
Record GeoJsonLayer : Type := {
  layer_id : string;
  features : list Feature;
  getFillColor : Severity -> Color;
  getLineColor : Severity -> Color;
  pickable : bool
}.

(** One call of [window.addAnomalyLayer]. *)
Record Registration : Type := {
  reg_id : string;
  reg_name : string;
  reg_color : Color;
  reg_visible : bool
}.

(** The mutable state [detectAnomalies] works on: the [anomalies] state
    of the component, the layers kept in [anomalyLayersRef], the calls
    received by the global layer control, and the position of the random
    source. *)
Record World : Type := {
  anomalies : list AnomalyInfo;
  anomalyLayersRef : list GeoJsonLayer;
  registered : list Registration;
  randomPos : nat
}.

(** State of a freshly mounted component. *)
Definition mounted : World :=
  {| anomalies := []; anomalyLayersRef := [];
     registered := []; randomPos := O |}.

(** The percentage in exact arithmetic;
    [VerificationStep64.calculateForestGrowthPercentage] rounds the
    difference, the quotient and the product. *)
Definition calculateForestGrowthPercentage
    (carbonMetrics : option CarbonMetrics) : Q :=
  match carbonMetrics with
  | None => 0
  | Some cm =>
      let baseline2017 := carbonStocks cm - forestGrowth cm in
      if Qeq_bool baseline2017 0 then 0
      else (forestGrowth cm / baseline2017) * 100
  end.

Record BoundingBox : Type := {
  minLon : JS.num;
  maxLon : JS.num;
  minLat : JS.num;
  maxLat : JS.num
}.

Definition getBoundingBox (polygon : Polygon) : BoundingBox :=
  fold_left
    (fun box point =>
       let '(lon, lat) := point in
       {| minLon := JS.min (minLon box) (JS.Fin lon);
          maxLon := JS.max (maxLon box) (JS.Fin lon);
          minLat := JS.min (minLat box) (JS.Fin lat);
          maxLat := JS.max (maxLat box) (JS.Fin lat) |})
    polygon
    {| minLon := JS.PInf; maxLon := JS.NInf;
       minLat := JS.PInf; maxLat := JS.NInf |}.

Definition growthDescription (forestGrowthPercentage : Q) : string :=
  ("Detected " ++ JS.toFixed1 forestGrowthPercentage
     ++ "% growth in carbon stocks between 2015-2020, which exceeds expected natural sequestration rates. This may indicate measurement error or unreported activities.")%string.

Definition pointFeature (anomaly : AnomalyInfo) : Feature :=
  {| properties :=
       PointProperties (id anomaly) (severity anomaly)
         (type anomaly) (description anomaly);
     geometry := PointGeometry (location anomaly) |}.

(** The square around an anomaly in exact arithmetic;
    [VerificationStep64.areaFeature] rounds its sides. *)
Definition areaFeature (anomaly : AnomalyInfo) : Feature :=
  let '(lon, lat) := location anomaly in
  let offset := JS.Fin 0.005 in
  {| properties := AreaProperties (id anomaly) (severity anomaly);
     geometry :=
       PolygonGeometry [[
         (JS.sub lon offset, JS.sub lat offset);
         (JS.add lon offset, JS.sub lat offset);
         (JS.add lon offset, JS.add lat offset);
         (JS.sub lon offset, JS.add lat offset);
         (JS.sub lon offset, JS.sub lat offset)
       ]] |}.

Definition severityColor (alpha : Z) (s : Severity) : Color :=
  match s with
  | high => [255; 0; 0; alpha]
  | medium => [255; 165; 0; alpha]
  | low => [255; 255; 0; alpha]
  end%Z.

Definition anomalyPointsLayer (detectedAnomalies : list AnomalyInfo)
    : GeoJsonLayer :=
  {| layer_id := "anomaly-points";
     features := map pointFeature detectedAnomalies;
     getFillColor := severityColor 200;
     getLineColor := fun _ => [0; 0; 0; 200]%Z;
     pickable := true |}.

Definition anomalyAreasLayer (detectedAnomalies : list AnomalyInfo)
    : GeoJsonLayer :=
  {| layer_id := "anomaly-areas";
     features := map areaFeature detectedAnomalies;
     getFillColor := severityColor 50;
     getLineColor := severityColor 200;
     pickable := false |}.

(** *** State updates *)

Definition setAnomalies (l : list AnomalyInfo) (w : World) : World :=
  {| anomalies := l; anomalyLayersRef := anomalyLayersRef w;
     registered := registered w; randomPos := randomPos w |}.

Definition setAnomalyLayers (l : list GeoJsonLayer) (w : World) : World :=
  {| anomalies := anomalies w; anomalyLayersRef := l;
     registered := registered w; randomPos := randomPos w |}.

Definition callAddAnomalyLayer (r : Registration) (w : World) : World :=
  {| anomalies := anomalies w; anomalyLayersRef := anomalyLayersRef w;
     registered := registered w ++ [r]; randomPos := randomPos w |}.

Definition setRandomPos (k : nat) (w : World) : World :=
  {| anomalies := anomalies w; anomalyLayersRef := anomalyLayersRef w;
     registered := registered w; randomPos := k |}.

Section WithRandom.

Variable rnd : nat -> Q.

(** The local helper of [detectAnomalies]; [k] is the position of the
    random source, returned advanced by the two draws. *)
Definition getRandomPointInPolygon (drawnArea : Polygon) (k : nat)
    : (JS.num * JS.num) * nat :=
  let bbox := getBoundingBox drawnArea in
  let randomLon :=
    JS.add (minLon bbox)
      (JS.mul (JS.Fin (rnd k)) (JS.sub (maxLon bbox) (minLon bbox))) in
  let randomLat :=
    JS.add (minLat bbox)
      (JS.mul (JS.Fin (rnd (S k)))
         (JS.sub (maxLat bbox) (minLat bbox))) in
  ((randomLon, randomLat), S (S k)).

(** The anomaly records of one run and the advanced position of the
    random source: lines 81 to 142 of the component.  The vertex mean and
    the sampled points are exact here;
    [VerificationStep64.detectedRecords] rounds them. *)
Definition detectedRecords (drawnArea : Polygon) (cm : CarbonMetrics)
    (k : nat) : list AnomalyInfo * nat :=
  let forestGrowthPercentage :=
    calculateForestGrowthPercentage (Some cm) in
  let hasHighGrowthAnomaly := JS.Qltb 20 forestGrowthPercentage in
  let detectedAnomalies : list AnomalyInfo := [] in
  let centerLon :=
    JS.div (JS.Fin (fold_left (fun sum point => sum + fst point)
                      drawnArea 0))
           (JS.Fin (JS.length drawnArea)) in
  let centerLat :=
    JS.div (JS.Fin (fold_left (fun sum point => sum + snd point)
                      drawnArea 0))
           (JS.Fin (JS.length drawnArea)) in
  let detectedAnomalies :=
    if hasHighGrowthAnomaly
    then detectedAnomalies ++ [
      {| id := 1;
         severity := high;
         type := "Unusual Carbon Growth";
         description := growthDescription forestGrowthPercentage;
         location := (centerLon, centerLat) |}]
    else detectedAnomalies in
  if truthy (area cm) then
    let '(boundaryPoint, k) := getRandomPointInPolygon drawnArea k in
    let detectedAnomalies := detectedAnomalies ++ [
      {| id := 2;
         severity := medium;
         type := "Boundary Inconsistency";
         description := "Project boundary overlaps with a protected area. Verify boundary coordinates and adjust if necessary.";
         location := boundaryPoint |}] in
    let '(lulcPoint, k) := getRandomPointInPolygon drawnArea k in
    let detectedAnomalies := detectedAnomalies ++ [
      {| id := 3;
         severity := medium;
         type := "LULC Classification Error";
         description := "Land use classification appears inconsistent with satellite imagery. Area classified as forest in 2020 appears as non-forest in high-resolution imagery.";
         location := lulcPoint |}] in
    let '(deforestationPoint, k) :=
      getRandomPointInPolygon drawnArea k in
    let detectedAnomalies := detectedAnomalies ++ [
      {| id := 4;
         severity := high;
         type := "Potential Deforestation";
         description := "Small area of forest loss detected in the northern section of the project area. Approximately 0.5 hectares affected.";
         location := deforestationPoint |}] in
    (detectedAnomalies, k)
  else (detectedAnomalies, k).

(** [detectAnomalies] as a transformer of the component's state.
    [window_addAnomalyLayer] tells whether the global hook is defined.
    No operation of the function can throw, so the result is a plain
    state. *)
Definition detectAnomalies (ctx : DrawingContext)
    (window_addAnomalyLayer : bool) (w : World) : World :=
  let drawnArea :=
    match getDrawnArea ctx with
    | Some result => result
    | None => None
    end in
  match drawnArea, carbonMetrics ctx with
  | Some drawnArea, Some cm =>
      let '(detectedAnomalies, k) :=
        detectedRecords drawnArea cm (randomPos w) in
      let w := setRandomPos k w in
      let w := setAnomalies detectedAnomalies w in
      if (0 <? List.length detectedAnomalies)%nat then
        let w :=
          setAnomalyLayers
            [anomalyAreasLayer detectedAnomalies;
             anomalyPointsLayer detectedAnomalies] w in
        if window_addAnomalyLayer then
          let w :=
            callAddAnomalyLayer
              {| reg_id := "anomaly-areas"; reg_name := "Anomaly Areas";
                 reg_color := [255; 0; 0]%Z; reg_visible := true |} w in
          callAddAnomalyLayer
            {| reg_id := "anomaly-points"; reg_name := "Anomaly Points";
               reg_color := [255; 0; 0]%Z; reg_visible := true |} w
        else w
      else w
  | _, _ => w
  end.

End WithRandom.

End VerificationStep.

(* ================================================================== *)
(** ** Reference definitions *)

(** Arithmetic mean of a non-empty sequence of numbers. *)
Definition mean (xs : list Q) : Q :=
  fold_right Qplus 0 xs / JS.length xs.

(** The centroid of a polygon in the words of the specification: the mean
    of the longitudes and the mean of the latitudes of its vertices. *)
Definition centroid (polygon : Polygon) : Q * Q :=
  (mean (map fst polygon), mean (map snd polygon)).

(** The centroid as a pair of numbers, defined for the empty sequence too,
    where the division of zero by zero gives [NaN]. *)
Definition centroidNum (polygon : Polygon) : JS.num * JS.num :=
  (JS.div (JS.Fin (fold_right Qplus 0 (map fst polygon)))
          (JS.Fin (JS.length polygon)),
   JS.div (JS.Fin (fold_right Qplus 0 (map snd polygon)))
          (JS.Fin (JS.length polygon))).

Inductive GeometryError : Set := InvalidGeometry.

(** The bounding box in the words of the specification: an explicit error
    for the empty sequence, otherwise the least and greatest longitude and
    latitude of the vertices. *)
Definition boundingBox (polygon : Polygon)
    : GeometryError + VerificationStep.BoundingBox :=
  match polygon with
  | [] => inl InvalidGeometry
  | (lon, lat) :: rest =>
      inr {| VerificationStep.minLon :=
               JS.Fin (fold_right Qmin lon (map fst rest));
             VerificationStep.maxLon :=
               JS.Fin (fold_right Qmax lon (map fst rest));
             VerificationStep.minLat :=
               JS.Fin (fold_right Qmin lat (map snd rest));
             VerificationStep.maxLat :=
               JS.Fin (fold_right Qmax lat (map snd rest)) |}
  end.

(** A point lies inside a box, borders included. *)
Definition insideBox (box : VerificationStep.BoundingBox)
    (pt : JS.num * JS.num) : Prop :=
  JS.le (VerificationStep.minLon box) (fst pt) /\
  JS.le (fst pt) (VerificationStep.maxLon box) /\
  JS.le (VerificationStep.minLat box) (snd pt) /\
  JS.le (snd pt) (VerificationStep.maxLat box).

(** Two points are within [d] of each other on each axis. *)
Definition within (d : Q) (a b : Q * Q) : Prop :=
  Qabs (fst a - fst b) <= d /\ Qabs (snd a - snd b) <= d.

(** What one iteration of the loop of [generateAnomaliesAroundPoint]
    guarantees about the record it pushes: a position within the spread of
    [center], a severity read from [severityLevels] at the slot chosen by
    one draw of the random source, the radius looked up from it, and a type
    and description taken from one entry of the catalog. *)
Definition drawn_around (rnd : nat -> Q) (center : Q * Q)
    (a : AnomalyLayer.AnomalyPoint) : Prop :=
  within 0.02 (AnomalyLayer.position a) center /\
  (exists j : nat,
     AnomalyLayer.severity a =
     JS.index AnomalyLayer.severityLevels
       (Qfloor (rnd j * JS.length AnomalyLayer.severityLevels))) /\
  (exists s, AnomalyLayer.severity a = Some s) /\
  AnomalyLayer.radius a =
    option_map AnomalyLayer.radiusMap (AnomalyLayer.severity a) /\
  (exists entry, In entry AnomalyLayer.anomalyTypes /\
     AnomalyLayer.type a = AnomalyLayer.type_name entry /\
     AnomalyLayer.description a = AnomalyLayer.type_description entry).

(** The count in effect when the argument may be left out. *)
Definition countOrDefault (count : option Q) : Q :=
  match count with Some c => c | None => 5 end.


(** [m] is a least element of [a :: l]. *)
Definition least_of (a : Q) (l : list Q) (m : Q) : Prop :=
  (m = a \/ In m l) /\ m <= a /\ (forall x, In x l -> m <= x).

(** [m] is a greatest element of [a :: l]. *)
Definition greatest_of (a : Q) (l : list Q) (m : Q) : Prop :=
  (m = a \/ In m l) /\ a <= m /\ (forall x, In x l -> x <= m).

(** The rectangle [a <= lon <= b], [c <= lat <= d] covers every vertex. *)
Definition covers (a b c d : Q) (polygon : Polygon) : Prop :=
  forall pt, In pt polygon ->
    a <= fst pt /\ fst pt <= b /\ c <= snd pt /\ snd pt <= d.

(** Two boxes with numerically equal sides. *)
Definition box_eqv (x y : VerificationStep.BoundingBox) : Prop :=
  JS.eqv (VerificationStep.minLon x) (VerificationStep.minLon y) /\
  JS.eqv (VerificationStep.maxLon x) (VerificationStep.maxLon y) /\
  JS.eqv (VerificationStep.minLat x) (VerificationStep.minLat y) /\
  JS.eqv (VerificationStep.maxLat x) (VerificationStep.maxLat y).

(** The fixed record of one of the demonstration rules. *)
Definition fixed_record (a : VerificationStep.AnomalyInfo) (n : Z)
    (s : Severity) (t : string) : Prop :=
  VerificationStep.id a = n /\
  VerificationStep.severity a = s /\
  VerificationStep.type a = t.

(* ================================================================== *)
(** ** Sample inputs *)

(** A random source that always draws one half. *)
Definition halfDraws : nat -> Q := fun _ => 1 # 2.

(** The square of the examples of the specification. *)
Definition unitSquare : Polygon := [(0, 0); (2, 0); (2, 2); (0, 2)].

(** Metrics whose growth percentage is one third above the baseline. *)
Definition sampleMetrics : VerificationStep.CarbonMetrics :=
  {| VerificationStep.carbonStocks := 120;
     VerificationStep.forestGrowth := 30;
     VerificationStep.area := Some 1 |}.

(** Metrics that fire no rule: growth of one tenth and no area. *)
Definition quietMetrics : VerificationStep.CarbonMetrics :=
  {| VerificationStep.carbonStocks := 110;
     VerificationStep.forestGrowth := 10;
     VerificationStep.area := Some 0 |}.

Definition contextOf (polygon : Polygon)
    (cm : VerificationStep.CarbonMetrics) : VerificationStep.DrawingContext :=
  {| VerificationStep.carbonMetrics := Some cm;
     VerificationStep.getDrawnArea := Some (Some polygon) |}.

(* ================================================================== *)
(** ** The composite map layer *)

Module AnomalyDetectionLayer.

(** The [data] prop of the layer: [anomalies] may be missing, [selectedId]
    is the id of an anomaly or missing. *)
Record LayerData : Type := {
  anomalies : option (list AnomalyLayer.AnomalyPoint);
  selectedId : option Z
}.

Record LayerProps : Type := {
  id : string;
  data : option LayerData
}.

(** [data.selectedId || null]: a missing id and the id 0 both give
    [null]. *)
Definition selectedOf (data : LayerData) : option Z :=
  match selectedId data with
  | Some z => if (z =? 0)%Z then None else Some z
  | None => None
  end.

(** [selectedId === d.id]. *)
Definition isSelected (selectedId : option Z)
    (d : AnomalyLayer.AnomalyPoint) : bool :=
  match selectedId with
  | Some z => (z =? AnomalyLayer.id d)%Z
  | None => false
  end.

Definition severityColors (s : Severity) : list Z :=
  match s with
  | high => [255; 59; 48; 200]
  | medium => [255; 149; 0; 200]
  | low => [255; 204; 0; 200]
  end%Z.

(** [d.radius || 200]. *)
Definition getRadius (d : AnomalyLayer.AnomalyPoint) : Q :=
  match AnomalyLayer.radius d with
  | Some r => if Qeq_bool r 0 then 200 else r
  | None => 200
  end.

(** The fill colour; [None] is the [undefined] the colour table gives for
    an [undefined] severity. *)
Definition getFillColor (selectedId : option Z)
    (d : AnomalyLayer.AnomalyPoint) : option (list Z) :=
  if isSelected selectedId d then Some [255; 255; 255; 220]%Z
  else option_map severityColors (AnomalyLayer.severity d).

Definition getLineColor (selectedId : option Z)
    (d : AnomalyLayer.AnomalyPoint) : list Z :=
  if isSelected selectedId d then [0; 0; 0; 255]%Z else [255; 255; 255]%Z.

Definition getLineWidth (selectedId : option Z)
    (d : AnomalyLayer.AnomalyPoint) : Z :=
  if isSelected selectedId d then 2%Z else 1%Z.

(** An integer printed by a template literal. *)
Definition showInt (z : Z) : string :=
  if (z <? 0)%Z then ("-" ++ JS.digits (- z))%string else JS.digits z.

Definition getText (d : AnomalyLayer.AnomalyPoint) : string :=
  showInt (AnomalyLayer.id d).

Definition getColor (selectedId : option Z)
    (d : AnomalyLayer.AnomalyPoint) : list Z :=
  if isSelected selectedId d then [0; 0; 0; 255]%Z else [255; 255; 255]%Z.

Definition getSize (selectedId : option Z)
    (d : AnomalyLayer.AnomalyPoint) : Z :=
  if isSelected selectedId d then 16%Z else 14%Z.

(** The two sublayers by their id, their data, their accessors and the
    values their accessors are recomputed on.  The constant styling props
    and the hover and click handlers passed through are left out. *)
Inductive SubLayer : Type :=
| ScatterplotLayer (id : string) (data : list AnomalyLayer.AnomalyPoint)
    (getPosition : AnomalyLayer.AnomalyPoint -> Q * Q)
    (getRadius : AnomalyLayer.AnomalyPoint -> Q)
    (getFillColor : AnomalyLayer.AnomalyPoint -> option (list Z))
    (getLineColor : AnomalyLayer.AnomalyPoint -> list Z)
    (getLineWidth : AnomalyLayer.AnomalyPoint -> Z)
    (updateTriggers : list (option Z))
| TextLayer (id : string) (data : list AnomalyLayer.AnomalyPoint)
    (getPosition : AnomalyLayer.AnomalyPoint -> Q * Q)
    (getText : AnomalyLayer.AnomalyPoint -> string)
    (getColor : AnomalyLayer.AnomalyPoint -> list Z)
    (getSize : AnomalyLayer.AnomalyPoint -> Z)
    (updateTriggers : list (option Z)).

Definition renderLayers (props : LayerProps) : list SubLayer :=
  match data props with
  | None => []
  | Some data =>
      match anomalies data with
      | None => []
      | Some [] => []
      | Some anomalies =>
          let selectedId := selectedOf data in
          [ScatterplotLayer (id props ++ "-points") anomalies
             AnomalyLayer.position getRadius
             (getFillColor selectedId) (getLineColor selectedId)
             (getLineWidth selectedId) [selectedId];
           TextLayer (id props ++ "-labels") anomalies
             AnomalyLayer.position getText
             (getColor selectedId) (getSize selectedId) [selectedId]]
      end
  end.

(** The data a sublayer draws. *)
Definition subLayerData (l : SubLayer) : list AnomalyLayer.AnomalyPoint :=
  match l with
  | ScatterplotLayer _ data _ _ _ _ _ _ => data
  | TextLayer _ data _ _ _ _ _ => data
  end.

Definition subLayerId (l : SubLayer) : string :=
  match l with
  | ScatterplotLayer id _ _ _ _ _ _ _ => id
  | TextLayer id _ _ _ _ _ _ => id
  end.

End AnomalyDetectionLayer.

(* ================================================================== *)
(** ** The verification step: panel, modal and list *)

Module VerificationView.

(** [x.toFixed(f)] following the steps of the language definition: the
    non-finite values print by name; otherwise the sign, then the integer
    [n] for which [n / 10^f] is closest to [|x|] (the larger one on a
    tie), its digits padded with zeros on the left to [f + 1] characters,
    and a point before the last [f] of them.  Below [1e21] only, as for
    [JS.toFixed1]. *)
Fixpoint zeros (n : nat) : string :=
  match n with
  | O => EmptyString
  | S n' => String "0" (zeros n')
  end.

Definition toFixed (f : nat) (x : JS.num) : string :=
  match x with
  | JS.NaN => "NaN"
  | JS.PInf => "Infinity"
  | JS.NInf => "-Infinity"
  | JS.Fin q =>
      let s := if JS.Qltb q 0 then "-" else EmptyString in
      let n := Qfloor (Qabs q * inject_Z (10 ^ Z.of_nat f) + (1 # 2)) in
      let m := JS.digits n in
      match f with
      | O => s ++ m
      | _ =>
          let k := String.length m in
          let m := if (k <=? f)%nat then zeros (f + 1 - k) ++ m else m in
          let k := String.length m in
          s ++ substring 0 (k - f) m ++ "." ++ substring (k - f) f m
      end
  end%string.

(** The part of the component state the panel works on. *)
Record Panel : Type := {
  selectedAnomaly : option VerificationStep.AnomalyInfo;
  showAnomalyDetails : bool
}.

Definition initialPanel : Panel :=
  {| selectedAnomaly := None; showAnomalyDetails := false |}.

Definition setSelectedAnomaly (a : option VerificationStep.AnomalyInfo)
    (p : Panel) : Panel :=
  {| selectedAnomaly := a; showAnomalyDetails := showAnomalyDetails p |}.

Definition setShowAnomalyDetails (b : bool) (p : Panel) : Panel :=
  {| selectedAnomaly := selectedAnomaly p; showAnomalyDetails := b |}.

(** The record [onHover] builds from the properties and the coordinates
    of the hovered feature.  The handler belongs to the points layer,
    whose features all have point properties and a point geometry; for a
    feature of another shape, which that layer never holds, there is no
    record ([None]). *)
Definition hoveredAnomaly (object : VerificationStep.Feature)
    : option VerificationStep.AnomalyInfo :=
  match VerificationStep.properties object,
        VerificationStep.geometry object with
  | VerificationStep.PointProperties id severity type description,
    VerificationStep.PointGeometry coordinates =>
      Some {| VerificationStep.id := id;
              VerificationStep.severity := severity;
              VerificationStep.type := type;
              VerificationStep.description := description;
              VerificationStep.location := coordinates |}
  | _, _ => None
  end.

(** [onHover] of the points layer; [object] is [info.object], missing when
    the pointer is over no marker. *)
Definition onHover (object : option VerificationStep.Feature)
    (p : Panel) : Panel :=
  match object with
  | Some object =>
      match hoveredAnomaly object with
      | Some a => setSelectedAnomaly (Some a) p
      | None => p
      end
  | None => setSelectedAnomaly None p
  end.

(** [onClick] of the points layer. *)
Definition onClick (p : Panel) : Panel := setShowAnomalyDetails true p.

(** The View button of a row of the list. *)
Definition onView (anomaly : VerificationStep.AnomalyInfo) (p : Panel)
    : Panel :=
  setShowAnomalyDetails true (setSelectedAnomaly (Some anomaly) p).

(** The two closing buttons of the modal. *)
Definition onClose (p : Panel) : Panel := setShowAnomalyDetails false p.

Definition severityColors (s : Severity) : string :=
  match s with
  | high => "bg-red-500"
  | medium => "bg-amber-500"
  | low => "bg-yellow-500"
  end.

(** What the modal shows, top to bottom. *)
Record ModalContent : Type := {
  dotClass : string;
  title : string;
  body : string;
  idLabel : string;
  severityLabel : Severity;
  locationLabel : string;
  recommendedAction : string
}.

(** [AnomalyDetailsModal]: [None] is the [null] it returns when it shows
    nothing. *)
Definition AnomalyDetailsModal (p : Panel) : option ModalContent :=
  match selectedAnomaly p with
  | None => None
  | Some selectedAnomaly =>
      if negb (showAnomalyDetails p) then None
      else
        Some {|
          dotClass :=
            severityColors (VerificationStep.severity selectedAnomaly);
          title := VerificationStep.type selectedAnomaly;
          body := VerificationStep.description selectedAnomaly;
          idLabel :=
            "#" ++ AnomalyDetectionLayer.showInt
                     (VerificationStep.id selectedAnomaly);
          severityLabel := VerificationStep.severity selectedAnomaly;
          locationLabel :=
            toFixed 5 (snd (VerificationStep.location selectedAnomaly))
            ++ ", "
            ++ toFixed 5 (fst (VerificationStep.location selectedAnomaly));
          recommendedAction :=
            match VerificationStep.severity selectedAnomaly with
            | high => "Immediate field verification required. This anomaly must be addressed before proceeding to certification."
            | medium => "Field verification recommended. Document and explain this anomaly in your final report."
            | low => "Monitor this area in future assessments. No immediate action required."
            end
        |}
  end%string.



(** A row of the list of detected anomalies: its React key, its colour
    class and its label. *)
Record ListRow : Type := {
  key : Z;
  rowClass : string;
  rowLabel : string
}.

Definition listRows (anomalies : list VerificationStep.AnomalyInfo)
    : list ListRow :=
  map (fun anomaly =>
         {| key := VerificationStep.id anomaly;
            rowClass := severityColors (VerificationStep.severity anomaly);
            rowLabel :=
              ("#" ++ AnomalyDetectionLayer.showInt
                        (VerificationStep.id anomaly)
                 ++ ": " ++ VerificationStep.type anomaly)%string |})
      anomalies.

End VerificationView.

(* ================================================================== *)
(** ** The widget: steps and layer controls *)

Module Widget.

Inductive Step : Set := draw | measurement | report | verification.

(** The calls the widget makes on the drawing context. *)
Inductive DrawingCall : Set := EndDrawingMode | ClearDrawings.

(** The [step] state of [Content] and the calls made so far. *)
Record State : Type := {
  step : Step;
  calls : list DrawingCall
}.

Definition setStep (s : Step) (st : State) : State :=
  {| step := s; calls := calls st |}.

Definition call (c : DrawingCall) (st : State) : State :=
  {| step := step st; calls := calls st ++ [c] |}.

(** [handleBack]; [drawingMode] is the flag of the drawing context at the
    time of the press. *)
Definition handleBack (drawingMode : bool) (st : State) : State :=
  let st := if drawingMode then call EndDrawingMode st else st in
  match step st with
  | measurement => call ClearDrawings (setStep draw st)
  | report => setStep measurement st
  | verification => setStep report st
  | draw => st
  end.

Definition handleCompleteDraw (st : State) : State := setStep measurement st.

Definition handleCreateReport (st : State) : State := setStep report st.

Definition handleProceedToVerification (st : State) : State :=
  setStep verification st.

(** The handler for which a toggle or a set-all of the layer control is
    bound: the do-nothing default or the one of the GeoJSON context. *)
Inductive Handler : Set := DoNothing | FromContext.

(** What [useGeoJSON] returns: [geojsonLayers] may be missing. *)
Record GeoJSONContext : Type := {
  geojsonLayers : option (list string)
}.

(** What the guarded use of the GeoJSON context leaves in the three
    variables, and the warnings written to the console. *)
Record GeoBinding : Type := {
  boundLayers : list string;
  toggleGeojsonLayer : Handler;
  setAllGeojsonLayers : Handler;
  warnings : list string
}.

(** The [try] block around [useGeoJSON()]: the hook throws, returns
    nothing, or returns the context. *)
Definition bindGeoJSON (useGeoJSON : completion (option GeoJSONContext))
    : GeoBinding :=
  match useGeoJSON with
  | Normal (Some geoJSONContext) =>
      {| boundLayers :=
           match geojsonLayers geoJSONContext with
           | Some layers => layers
           | None => []
           end;
         toggleGeojsonLayer := FromContext;
         setAllGeojsonLayers := FromContext;
         warnings := [] |}
  | Normal None =>
      {| boundLayers := []; toggleGeojsonLayer := DoNothing;
         setAllGeojsonLayers := DoNothing; warnings := [] |}
  | Throw _ =>
      {| boundLayers := []; toggleGeojsonLayer := DoNothing;
         setAllGeojsonLayers := DoNothing;
         warnings := ["GeoJSON context not available in Widget"%string] |}
  end.

(** The components [Content] renders. *)
Inductive Component : Type :=
| BackButton
| GeoJSONLayerControl (layers : list string) (toggleLayer : Handler)
    (setAllLayers : Handler)
| MetricLayersControl
| DrawStep
| MeasurementStep
| ReportStep
| VerificationStep
| LULCLegend.

Definition when (b : bool) (c : Component) : list Component :=
  if b then [c] else [].

Definition isStep (a b : Step) : bool :=
  match a, b with
  | draw, draw | measurement, measurement
  | report, report | verification, verification => true
  | _, _ => false
  end.

(** [Content], as the list of components it renders in document order.
    [hasMetrics] tells whether [carbonMetrics] is set. *)
Definition Content (st : State) (drawingMode : bool) (hasMetrics : bool)
    (useGeoJSON : completion (option GeoJSONContext)) : list Component :=
  let geo := bindGeoJSON useGeoJSON in
  let showMetricsControl := hasMetrics && negb drawingMode in
  when (negb (isStep (step st) draw)) BackButton
  ++ [GeoJSONLayerControl (boundLayers geo) (toggleGeojsonLayer geo)
        (setAllGeojsonLayers geo)]
  ++ when showMetricsControl MetricLayersControl
  ++ when (isStep (step st) draw) DrawStep
  ++ when (isStep (step st) measurement) MeasurementStep
  ++ when (isStep (step st) report) ReportStep
  ++ when (isStep (step st) verification) VerificationStep
  ++ [LULCLegend].

(** The component a step stands for. *)
Definition componentOf (s : Step) : Component :=
  match s with
  | draw => DrawStep
  | measurement => MeasurementStep
  | report => ReportStep
  | verification => VerificationStep
  end.

Definition isStepComponent (c : Component) : bool :=
  match c with
  | DrawStep | MeasurementStep | ReportStep | VerificationStep => true
  | _ => false
  end.

(** The position of a step in the workflow. *)
Definition rank (s : Step) : nat :=
  match s with
  | draw => 0
  | measurement => 1
  | report => 2
  | verification => 3
  end.

(** Presses of the back button, one per flag of [modes]. *)
Definition pressBack (modes : list bool) (st : State) : State :=
  fold_left (fun st drawingMode => handleBack drawingMode st) modes st.

Definition DrawingCall_eq_dec (a b : DrawingCall) : {a = b} + {a <> b}.
Proof. decide equality. Defined.

End Widget.

(* ================================================================== *)
(** ** Reference definitions for the map layer, the panel and the widget *)

(** Everything of a generated record but its position. *)
Definition attributes (a : AnomalyLayer.AnomalyPoint)
    : Z * option Severity * string * string * option Q :=
  (AnomalyLayer.id a, AnomalyLayer.severity a, AnomalyLayer.type a,
   AnomalyLayer.description a, AnomalyLayer.radius a).

(** Two runs of the generator end the same way: both throw the same
    error, or both return records with the same attributes, and both leave
    the random source at the same position. *)
Definition same_outcome
    (r r' : completion (list AnomalyLayer.AnomalyPoint) * nat) : Prop :=
  snd r = snd r' /\
  match fst r, fst r' with
  | Normal l, Normal l' => map attributes l = map attributes l'
  | Throw e, Throw e' => e = e'
  | _, _ => False
  end.

(** [n] runs of [detectAnomalies] in a row on the same inputs. *)
Definition rerun (rnd : nat -> Q) (ctx : VerificationStep.DrawingContext)
    (hook : bool) (n : nat) (w : VerificationStep.World)
    : VerificationStep.World :=
  Nat.iter n (VerificationStep.detectAnomalies rnd ctx hook) w.

(** The things a user does to the panel of the verification step. *)
Inductive PanelEvent : Type :=
| Hover (object : option VerificationStep.Feature)
| ClickMarker
| View (anomaly : VerificationStep.AnomalyInfo)
| Close.

Definition panelStep (p : VerificationView.Panel) (e : PanelEvent)
    : VerificationView.Panel :=
  match e with
  | Hover object => VerificationView.onHover object p
  | ClickMarker => VerificationView.onClick p
  | View anomaly => VerificationView.onView anomaly p
  | Close => VerificationView.onClose p
  end.

(** The anomaly the modal shows, if it shows one. *)
Definition shownInModal (p : VerificationView.Panel)
    : option VerificationStep.AnomalyInfo :=
  match VerificationView.AnomalyDetailsModal p with
  | Some _ => VerificationView.selectedAnomaly p
  | None => None
  end.

(* ================================================================== *)
(** ** Binary64 arithmetic *)

(** The arithmetic of the engine.  A finite binary64 number is the
    rational it denotes; an operation computes the exact result on [num]
    and rounds it: to the nearest number with a significand of 53 bits
    and an exponent of at least -1074, the one with an even significand
    on a tie, and to an infinity from [2^1024] on.  The sign of zero is
    not kept. *)
Module Binary64.

Definition pow2 (e : Z) : Q := 2 ^ e.

(** The exponent [e] with [2^(e-1) <= |x| < 2^e], for [x] other than
    zero. *)
Definition mag (x : Q) : Z :=
  let k := (Z.log2 (Z.abs (Qnum x)) - Z.log2 (Z.pos (Qden x)))%Z in
  if Qle_bool (pow2 k) (Qabs x) then (k + 1)%Z else k.

(** The exponent of the last place of a number of magnitude [e]. *)
Definition fexp (e : Z) : Z := Z.max (e - 53) (-1074).

(** The integer nearest to [y], the even one on a tie. *)
Definition rne (y : Q) : Z :=
  let f := Qfloor y in
  match Qcompare (y - inject_Z f) (1 # 2) with
  | Lt => f
  | Gt => (f + 1)%Z
  | Eq => if Z.even f then f else (f + 1)%Z
  end.

(** Rounding with an unbounded exponent. *)
Definition round64 (x : Q) : Q :=
  if Qeq_bool x 0 then 0
  else
    let e := fexp (mag x) in
    Qred (inject_Z (rne (x / pow2 e)) * pow2 e).

(** The binary64 number a rational rounds to. *)
Definition fl (x : Q) : JS.num :=
  let y := round64 x in
  if Qle_bool (pow2 1024) y then JS.PInf
  else if Qle_bool y (- pow2 1024) then JS.NInf
  else JS.Fin y.

Definition round (x : JS.num) : JS.num :=
  match x with
  | JS.Fin q => fl q
  | _ => x
  end.

(** A decimal literal of the source text. *)
Definition literal (q : Q) : JS.num := fl q.

Definition add (x y : JS.num) : JS.num := round (JS.add x y).

Definition sub (x y : JS.num) : JS.num := round (JS.sub x y).

Definition mul (x y : JS.num) : JS.num := round (JS.mul x y).

Definition div (x y : JS.num) : JS.num := round (JS.div x y).

(** [x > y]; false when either side is [NaN]. *)
Definition gtb (x y : JS.num) : bool :=
  match x, y with
  | JS.Fin a, JS.Fin b => JS.Qltb b a
  | JS.PInf, JS.Fin _ | JS.PInf, JS.NInf | JS.Fin _, JS.NInf => true
  | _, _ => false
  end.

(** [x === y] on numbers. *)
Definition eqb (x y : JS.num) : bool :=
  match x, y with
  | JS.Fin a, JS.Fin b => Qeq_bool a b
  | JS.PInf, JS.PInf | JS.NInf, JS.NInf => true
  | _, _ => false
  end.

Definition abs (x : JS.num) : JS.num :=
  match x with
  | JS.Fin a => JS.Fin (Qabs a)
  | JS.NInf => JS.PInf
  | _ => x
  end.

(** [Math.floor]. *)
Definition floor (x : JS.num) : JS.num :=
  match x with
  | JS.Fin a => JS.Fin (inject_Z (Qfloor a))
  | _ => x
  end.

(** [arr[x]] for a number [x]: [undefined] unless [x] is an integer in
    range. *)
Definition item {A : Type} (l : list A) (x : JS.num) : option A :=
  match x with
  | JS.Fin a =>
      if Qeq_bool a (inject_Z (Qfloor a)) then JS.index l (Qfloor a)
      else None
  | _ => None
  end.

(** The contract of [Math.random] in binary64: every draw is a binary64
    number in [[0, 1)], hence at most [1 - 2^-53], the largest of them. *)
Definition unit_draws (rnd : nat -> Q) : Prop :=
  forall k : nat, 0 <= rnd k /\ rnd k <= 1 - pow2 (-53).

End Binary64.

(** The specification of IEEE 754 arithmetic of the Standard Library at
    the binary64 format, 53 bits of precision and values below [2^1024],
    to compare [Binary64] with. *)
Module IEEE754.

(** The number a floating-point datum denotes. *)
Definition ofSpec (f : spec_float) : JS.num :=
  match f with
  | S754_zero _ => JS.Fin 0
  | S754_infinity false => JS.PInf
  | S754_infinity true => JS.NInf
  | S754_nan => JS.NaN
  | S754_finite s m e =>
      JS.Fin ((if s then -1 else 1) * inject_Z (Z.pos m) * Binary64.pow2 e)
  end.

(** An integer below [2^53] in magnitude. *)
Definition ofInt (z : Z) : spec_float := binary_normalize 53 1024 z 0 false.

(** The decimal literal [n / d] for integers [n] and [d] below [2^53]:
    the correctly rounded quotient. *)
Definition decimal (n d : Z) : spec_float :=
  SFdiv 53 1024 (ofInt n) (ofInt d).

Definition add : spec_float -> spec_float -> spec_float := SFadd 53 1024.

Definition sub : spec_float -> spec_float -> spec_float := SFsub 53 1024.

Definition mul : spec_float -> spec_float -> spec_float := SFmul 53 1024.

Definition div : spec_float -> spec_float -> spec_float := SFdiv 53 1024.

End IEEE754.

(* ================================================================== *)
(** ** The anomaly layer module in binary64 *)

(** [generateDummyAnomalies] and [generateAnomaliesAroundPoint] with the
    arithmetic of the engine.  The loop counter and the ids are kept as
    integers, which binary64 holds exactly below [2^53]. *)
Module AnomalyLayer64.

Record AnomalyPoint : Type := {
  id : Z;
  position : JS.num * JS.num;
  severity : option Severity;
  type : string;
  description : string;
  radius : option Q
}.

Definition scale : JS.num := Binary64.literal 0.02.

Definition defaultCenter : JS.num * JS.num :=
  (Binary64.literal 101.4383, Binary64.literal 0.5104).

Section WithRandom.

Variable rnd : nat -> Q.

Definition Math_random : Rand JS.num :=
  fun k => (Normal (JS.Fin (rnd k)), S k).

Definition generateOne (center : JS.num * JS.num) (i : Z)
    : Rand AnomalyPoint :=
  let '(centerLng, centerLat) := center in
  r1 <- Math_random ;;
  let lngOffset :=
    Binary64.mul
      (Binary64.mul (Binary64.sub r1 (Binary64.literal 0.5)) scale)
      (JS.Fin 2) in
  r2 <- Math_random ;;
  let latOffset :=
    Binary64.mul
      (Binary64.mul (Binary64.sub r2 (Binary64.literal 0.5)) scale)
      (JS.Fin 2) in
  r3 <- Math_random ;;
  let typeIndex :=
    Binary64.floor
      (Binary64.mul r3 (JS.Fin (JS.length AnomalyLayer.anomalyTypes))) in
  r4 <- Math_random ;;
  let severityIndex :=
    Binary64.floor
      (Binary64.mul r4 (JS.Fin (JS.length AnomalyLayer.severityLevels))) in
  let severity := Binary64.item AnomalyLayer.severityLevels severityIndex in
  match Binary64.item AnomalyLayer.anomalyTypes typeIndex with
  | None => throw "TypeError"
  | Some entry =>
      ret {| id := i + 1;
             position := (Binary64.add centerLng lngOffset,
                          Binary64.add centerLat latOffset);
             severity := severity;
             type := AnomalyLayer.type_name entry;
             description := AnomalyLayer.type_description entry;
             radius := option_map AnomalyLayer.radiusMap severity |}
  end.

Fixpoint forLoop (center : JS.num * JS.num) (count : Q) (fuel : nat)
    (i : Z) (anomalies : list AnomalyPoint) : Rand (list AnomalyPoint) :=
  match fuel with
  | O => ret anomalies
  | S fuel' =>
      if JS.Qltb (inject_Z i) count then
        a <- generateOne center i ;;
        forLoop center count fuel' (i + 1)%Z (anomalies ++ [a])
      else ret anomalies
  end.

Definition generateAnomaliesAroundPoint (center : JS.num * JS.num)
    (count : Q) : Rand (list AnomalyPoint) :=
  forLoop center count (AnomalyLayer.tripCount count) 0%Z [].

Definition generateDummyAnomalies (centerPolygon : option Polygon)
    (count : option Q) : Rand (list AnomalyPoint) :=
  let count := match count with Some c => c | None => 5 end in
  match centerPolygon with
  | None => generateAnomaliesAroundPoint defaultCenter count
  | Some centerPolygon =>
      if JS.Qltb (JS.length centerPolygon) 3
      then generateAnomaliesAroundPoint defaultCenter count
      else
        let centerLng :=
          Binary64.div
            (fold_left (fun sum point => Binary64.add sum (JS.Fin (fst point)))
               centerPolygon (JS.Fin 0))
            (JS.Fin (JS.length centerPolygon)) in
        let centerLat :=
          Binary64.div
            (fold_left (fun sum point => Binary64.add sum (JS.Fin (snd point)))
               centerPolygon (JS.Fin 0))
            (JS.Fin (JS.length centerPolygon)) in
        generateAnomaliesAroundPoint (centerLng, centerLat) count
  end.

End WithRandom.

End AnomalyLayer64.

(* ================================================================== *)
(** ** The verification step in binary64 *)

(** The numeric parts of [detectAnomalies] with the arithmetic of the
    engine.  [Math.min] and [Math.max] are exact, so the bounding box is
    the one of [VerificationStep]; the records, the layers and the state
    are those of [VerificationStep] too. *)
Module VerificationStep64.

Import VerificationStep.

Definition calculateForestGrowthPercentage
    (carbonMetrics : option CarbonMetrics) : JS.num :=
  match carbonMetrics with
  | None => JS.Fin 0
  | Some cm =>
      let baseline2017 :=
        Binary64.sub (JS.Fin (carbonStocks cm)) (JS.Fin (forestGrowth cm)) in
      if Binary64.eqb baseline2017 (JS.Fin 0) then JS.Fin 0
      else
        Binary64.mul
          (Binary64.div (JS.Fin (forestGrowth cm)) baseline2017)
          (JS.Fin 100)
  end.

Definition growthDescription (forestGrowthPercentage : JS.num) : string :=
  ("Detected " ++ VerificationView.toFixed 1 forestGrowthPercentage
     ++ "% growth in carbon stocks between 2015-2020, which exceeds expected natural sequestration rates. This may indicate measurement error or unreported activities.")%string.

Definition areaFeature (anomaly : AnomalyInfo) : Feature :=
  let '(lon, lat) := location anomaly in
  let offset := Binary64.literal 0.005 in
  {| properties := AreaProperties (id anomaly) (severity anomaly);
     geometry :=
       PolygonGeometry [[
         (Binary64.sub lon offset, Binary64.sub lat offset);
         (Binary64.add lon offset, Binary64.sub lat offset);
         (Binary64.add lon offset, Binary64.add lat offset);
         (Binary64.sub lon offset, Binary64.add lat offset);
         (Binary64.sub lon offset, Binary64.sub lat offset)
       ]] |}.

Definition anomalyAreasLayer (detectedAnomalies : list AnomalyInfo)
    : GeoJsonLayer :=
  {| layer_id := "anomaly-areas";
     features := map areaFeature detectedAnomalies;
     getFillColor := severityColor 50;
     getLineColor := severityColor 200;
     pickable := false |}.

Section WithRandom.

Variable rnd : nat -> Q.

Definition getRandomPointInPolygon (drawnArea : Polygon) (k : nat)
    : (JS.num * JS.num) * nat :=
  let bbox := getBoundingBox drawnArea in
  let randomLon :=
    Binary64.add (minLon bbox)
      (Binary64.mul (JS.Fin (rnd k))
         (Binary64.sub (maxLon bbox) (minLon bbox))) in
  let randomLat :=
    Binary64.add (minLat bbox)
      (Binary64.mul (JS.Fin (rnd (S k)))
         (Binary64.sub (maxLat bbox) (minLat bbox))) in
  ((randomLon, randomLat), S (S k)).

Definition detectedRecords (drawnArea : Polygon) (cm : CarbonMetrics)
    (k : nat) : list AnomalyInfo * nat :=
  let forestGrowthPercentage :=
    calculateForestGrowthPercentage (Some cm) in
  let hasHighGrowthAnomaly :=
    Binary64.gtb forestGrowthPercentage (JS.Fin 20) in
  let detectedAnomalies : list AnomalyInfo := [] in
  let centerLon :=
    Binary64.div
      (fold_left (fun sum point => Binary64.add sum (JS.Fin (fst point)))
         drawnArea (JS.Fin 0))
      (JS.Fin (JS.length drawnArea)) in
  let centerLat :=
    Binary64.div
      (fold_left (fun sum point => Binary64.add sum (JS.Fin (snd point)))
         drawnArea (JS.Fin 0))
      (JS.Fin (JS.length drawnArea)) in
  let detectedAnomalies :=
    if hasHighGrowthAnomaly
    then detectedAnomalies ++ [
      {| id := 1;
         severity := high;
         type := "Unusual Carbon Growth";
         description := growthDescription forestGrowthPercentage;
         location := (centerLon, centerLat) |}]
    else detectedAnomalies in
  if truthy (area cm) then
    let '(boundaryPoint, k) := getRandomPointInPolygon drawnArea k in
    let detectedAnomalies := detectedAnomalies ++ [
      {| id := 2;
         severity := medium;
         type := "Boundary Inconsistency";
         description := "Project boundary overlaps with a protected area. Verify boundary coordinates and adjust if necessary.";
         location := boundaryPoint |}] in
    let '(lulcPoint, k) := getRandomPointInPolygon drawnArea k in
    let detectedAnomalies := detectedAnomalies ++ [
      {| id := 3;
         severity := medium;
         type := "LULC Classification Error";
         description := "Land use classification appears inconsistent with satellite imagery. Area classified as forest in 2020 appears as non-forest in high-resolution imagery.";
         location := lulcPoint |}] in
    let '(deforestationPoint, k) :=
      getRandomPointInPolygon drawnArea k in
    let detectedAnomalies := detectedAnomalies ++ [
      {| id := 4;
         severity := high;
         type := "Potential Deforestation";
         description := "Small area of forest loss detected in the northern section of the project area. Approximately 0.5 hectares affected.";
         location := deforestationPoint |}] in
    (detectedAnomalies, k)
  else (detectedAnomalies, k).

Definition detectAnomalies (ctx : DrawingContext)
    (window_addAnomalyLayer : bool) (w : World) : World :=
  let drawnArea :=
    match getDrawnArea ctx with
    | Some result => result
    | None => None
    end in
  match drawnArea, carbonMetrics ctx with
  | Some drawnArea, Some cm =>
      let '(detectedAnomalies, k) :=
        detectedRecords drawnArea cm (randomPos w) in
      let w := setRandomPos k w in
      let w := setAnomalies detectedAnomalies w in
      if (0 <? List.length detectedAnomalies)%nat then
        let w :=
          setAnomalyLayers
            [anomalyAreasLayer detectedAnomalies;
             anomalyPointsLayer detectedAnomalies] w in
        if window_addAnomalyLayer then
          let w :=
            callAddAnomalyLayer
              {| reg_id := "anomaly-areas"; reg_name := "Anomaly Areas";
                 reg_color := [255; 0; 0]%Z; reg_visible := true |} w in
          callAddAnomalyLayer
            {| reg_id := "anomaly-points"; reg_name := "Anomaly Points";
               reg_color := [255; 0; 0]%Z; reg_visible := true |} w
        else w
      else w
  | _, _ => w
  end.

End WithRandom.

End VerificationStep64.

(* ================================================================== *)
(** ** Reference definitions for binary64 *)

(** [x] is within [d] of [c] up to the rounding of one binary64 sum:
    the distance exceeds [d] by at most [2^-53] times [|c| + 1]. *)
Definition rounded_within (d c x : Q) : Prop :=
  Qabs (x - c) <= d + (Qabs c + 1) * Binary64.pow2 (-53).

(** A position is a pair of finite numbers, each within [d] of the
    coordinate of [c] up to rounding. *)
Definition rounded_around (d : Q) (c : Q * Q) (pos : JS.num * JS.num)
    : Prop :=
  exists x y,
    pos = (JS.Fin x, JS.Fin y) /\
    rounded_within d (fst c) x /\ rounded_within d (snd c) y.

(** The centroid of the vertices as the two [reduce] calls compute it in
    binary64: the coordinates summed from the left, each sum rounded,
    then the division by the number of vertices. *)
Definition centroid64 (polygon : Polygon) : JS.num * JS.num :=
  (Binary64.div
     (fold_left (fun sum point => Binary64.add sum (JS.Fin (fst point)))
        polygon (JS.Fin 0))
     (JS.Fin (JS.length polygon)),
   Binary64.div
     (fold_left (fun sum point => Binary64.add sum (JS.Fin (snd point)))
        polygon (JS.Fin 0))
     (JS.Fin (JS.length polygon))).

(** The two sides [lo] and [hi] of a square drawn around coordinate [c]
    with half-width [d]: finite and within [d] of [c] up to rounding when
    [c] is finite and at most [2^1023] in magnitude, and [c] itself when
    [c] is not finite. *)
Definition sides_around (d : Q) (c lo hi : JS.num) : Prop :=
  match c with
  | JS.Fin x =>
      Qabs x <= Binary64.pow2 1023 ->
      exists l h,
        lo = JS.Fin l /\ hi = JS.Fin h /\
        rounded_within d x l /\ rounded_within d x h
  | _ => lo = c /\ hi = c
  end.

(** Feature [f] of the area overlay carries the id and severity of
    anomaly [a], and its ring is a closed rectangle of five vertices, the
    first repeated last, whose sides lie around the location of [a] with
    half-width 0.005: west and east around the longitude, south and north
    around the latitude. *)
Definition square_around64 (a : VerificationStep.AnomalyInfo)
    (f : VerificationStep.Feature) : Prop :=
  VerificationStep.properties f
    = VerificationStep.AreaProperties
        (VerificationStep.id a) (VerificationStep.severity a) /\
  exists west east south north : JS.num,
    VerificationStep.geometry f
      = VerificationStep.PolygonGeometry
          [[(west, south); (east, south); (east, north);
            (west, north); (west, south)]] /\
    west = Binary64.sub (fst (VerificationStep.location a))
             (Binary64.literal 0.005) /\
    east = Binary64.add (fst (VerificationStep.location a))
             (Binary64.literal 0.005) /\
    south = Binary64.sub (snd (VerificationStep.location a))
              (Binary64.literal 0.005) /\
    north = Binary64.add (snd (VerificationStep.location a))
              (Binary64.literal 0.005) /\
    sides_around 0.005 (fst (VerificationStep.location a)) west east /\
    sides_around 0.005 (snd (VerificationStep.location a)) south north.

(** A random source that always draws zero. *)
Definition zeroDraws : nat -> Q := fun _ => 0.

(** A polygon of at most [2^50] vertices whose coordinates are at most
    [2^900] in magnitude. *)
Definition moderate (polygon : Polygon) : Prop :=
  (Z.of_nat (List.length polygon) <= 2 ^ 50)%Z /\
  forall pt, In pt polygon ->
    Qabs (fst pt) <= Binary64.pow2 900 /\ Qabs (snd pt) <= Binary64.pow2 900.

(** A pair of finite numbers of magnitude at most [2^1023]. *)
Definition finite_point (pt : JS.num * JS.num) : Prop :=
  exists x y,
    pt = (JS.Fin x, JS.Fin y) /\
    Qabs x <= Binary64.pow2 1023 /\ Qabs y <= Binary64.pow2 1023.

(** Metrics on the edge of the growth rule: the binary64 numbers nearest
    to 1611.6 and 268.6. *)
Definition edgeMetrics : VerificationStep.CarbonMetrics :=
  {| VerificationStep.carbonStocks := Binary64.round64 1611.6;
     VerificationStep.forestGrowth := Binary64.round64 268.6;
     VerificationStep.area := Some 1 |}.

(** The growth rule fires in binary64. *)
Definition fires64 (cm : VerificationStep.CarbonMetrics) : Prop :=
  Binary64.gtb
    (VerificationStep64.calculateForestGrowthPercentage (Some cm))
    (JS.Fin 20) = true.

(** A number that is zero, negative or [-Infinity]. *)
Definition nonpos (x : JS.num) : Prop :=
  match x with
  | JS.Fin q => q <= 0
  | JS.NInf => True
  | _ => False
  end.

(** A number that is zero, positive or [Infinity]. *)
Definition nonneg (x : JS.num) : Prop :=
  match x with
  | JS.Fin q => 0 <= q
  | JS.PInf => True
  | _ => False
  end.

(** Three vertices on the meridian of the binary64 number nearest to
    0.1. *)
Definition meridianPolygon : Polygon :=
  [(Binary64.round64 0.1, 0); (Binary64.round64 0.1, 1);
   (Binary64.round64 0.1, 2)].

(* ================================================================== *)
(** ** Tactics *)

(** Linear arithmetic with the powers of two kept abstract. *)
Ltac hide_pow2 :=
  repeat match goal with
  | H : context [Binary64.pow2 ?e] |- _ =>
      let v := fresh "p" in set (v := Binary64.pow2 e) in *; clearbody v
  | |- context [Binary64.pow2 ?e] =>
      let v := fresh "p" in set (v := Binary64.pow2 e) in *; clearbody v
  end.

Ltac lra64 := hide_pow2; lra.

(* ================================================================== *)
(** ** Numbers and arrays *)

Lemma Qltb_true (a b : Q) : JS.Qltb a b = true <-> a < b.
Proof.
  unfold JS.Qltb. rewrite negb_true_iff.
  destruct (Qle_bool b a) eqn:E.
  - apply Qle_bool_iff in E. split; [discriminate | intro; lra].
  - split; [intros _ | reflexivity].
    apply Qnot_le_lt. intro H. apply Qle_bool_iff in H. congruence.
Qed.

Lemma Qltb_false (a b : Q) : JS.Qltb a b = false <-> b <= a.
Proof.
  unfold JS.Qltb. rewrite negb_false_iff. apply Qle_bool_iff.
Qed.

Lemma Qfloor_scaled_range (r : Q) (n : Z) :
  (0 < n)%Z -> 0 <= r -> r < 1 ->
  (0 <= Qfloor (r * inject_Z n) < n)%Z.
Proof.
  intros Hn H0 H1.
  assert (Hq : inject_Z 0 < inject_Z n) by (rewrite <- Zlt_Qlt; exact Hn).
  change (inject_Z 0) with 0 in Hq.
  split.
  - change 0%Z with (Qfloor 0). apply Qfloor_resp_le. nra.
  - rewrite Zlt_Qlt.
    apply Qle_lt_trans with (r * inject_Z n); [apply Qfloor_le | nra].
Qed.

Lemma index_in_range {A : Type} (l : list A) (i : Z) :
  (0 <= i < Z.of_nat (List.length l))%Z ->
  exists x, JS.index l i = Some x /\ In x l.
Proof.
  intros [Hlo Hhi]. unfold JS.index.
  destruct (Z.ltb_spec i 0); [lia |].
  destruct (nth_error l (Z.to_nat i)) eqn:E.
  - exists a. split; [reflexivity | eapply nth_error_In; eassumption].
  - apply nth_error_None in E. lia.
Qed.

Lemma fold_left_sum {A : Type} (f : A -> Q) (l : list A) (a : Q) :
  fold_left (fun sum point => sum + f point) l a
  == a + fold_right Qplus 0 (map f l).
Proof.
  revert a. induction l as [| x l IH]; intro a; simpl.
  - lra.
  - rewrite IH. lra.
Qed.

Lemma length_pos {A : Type} (l : list A) : l <> [] -> 0 < JS.length l.
Proof.
  intro H. unfold JS.length. destruct l; [congruence |].
  change 0 with (inject_Z 0). rewrite <- Zlt_Qlt. simpl List.length. lia.
Qed.




Example toFixed1_third : JS.toFixed1 (30 / 90 * 100) = "33.3"%string.
Proof. reflexivity. Qed.

Example toFixed1_tie : JS.toFixed1 0.25 = "0.3"%string.
Proof. reflexivity. Qed.

(* ================================================================== *)
(** ** The layer module: reference point, count, spread, severity *)

Section LayerModule.

Import AnomalyLayer.

Variable rnd : nat -> Q.

Lemma short_polygon (p : Polygon) :
  JS.Qltb (JS.length p) 3 = true <-> (List.length p < 3)%nat.
Proof.
  rewrite Qltb_true. unfold JS.length.
  change 3 with (inject_Z 3). rewrite <- Zlt_Qlt. lia.
Qed.

(** The two [reduce] calls compute the centroid. *)
Lemma centroid_of_reduce (p : Polygon) :
  fold_left (fun sum point => sum + fst point) p 0 / JS.length p
    == fst (centroid p) /\
  fold_left (fun sum point => sum + snd point) p 0 / JS.length p
    == snd (centroid p).
Proof.
  unfold centroid, mean; simpl. unfold JS.length. rewrite !length_map.
  split; rewrite fold_left_sum, Qplus_0_l; reflexivity.
Qed.

(** Every call goes through [generateAnomaliesAroundPoint] at one
    reference point. *)
Lemma generateDummyAnomalies_center (centerPolygon : option Polygon)
    (count : option Q) :
  exists c,
    (forall k, generateDummyAnomalies rnd centerPolygon count k
       = generateAnomaliesAroundPoint rnd c (countOrDefault count) k) /\
    match centerPolygon with
    | None => c = defaultCenter
    | Some p =>
        ((List.length p < 3)%nat -> c = defaultCenter) /\
        ((3 <= List.length p)%nat ->
           fst c == fst (centroid p) /\ snd c == snd (centroid p))
    end.
Proof.
  unfold generateDummyAnomalies. fold (countOrDefault count).
  destruct centerPolygon as [p |].
  - destruct (JS.Qltb (JS.length p) 3) eqn:E.
    + exists defaultCenter. split; [reflexivity |].
      apply short_polygon in E. split; [reflexivity | lia].
    + eexists. split; [reflexivity |].
      assert (~ (List.length p < 3)%nat)
        by (rewrite <- short_polygon; congruence).
      split; [lia | intros _; apply centroid_of_reduce].
  - exists defaultCenter. split; reflexivity.
Qed.



(** The fuel [generateAnomaliesAroundPoint] runs the loop with is enough:
    when it is used up the test of the loop fails, so more fuel gives the
    same outcome, whatever the draws. *)
Lemma forLoop_fuel (center : Q * Q) (count : Q) (extra : nat) (n : nat) :
  forall (i : Z) (acc : list AnomalyPoint) (k : nat),
  (Qceiling count <= i + Z.of_nat n)%Z ->
  forLoop rnd center count (n + extra) i acc k
  = forLoop rnd center count n i acc k.
Proof.
  induction n as [| n IH]; intros i acc k Hn.
  - assert (Hi : JS.Qltb (inject_Z i) count = false).
    { apply Qltb_false.
      apply Qle_trans with (inject_Z (Qceiling count));
        [apply Qle_ceiling | rewrite <- Zle_Qle; lia]. }
    destruct extra as [| extra]; [reflexivity |].
    cbn [Nat.add forLoop]. rewrite Hi. reflexivity.
  - cbn [Nat.add forLoop].
    destruct (JS.Qltb (inject_Z i) count); [| reflexivity].
    unfold bind.
    destruct (generateOne rnd center i k) as [[a | e] k'];
      [apply IH; lia | reflexivity].
Qed.

Lemma generateAnomaliesAroundPoint_fuel (center : Q * Q) (count : Q)
    (extra : nat) (k : nat) :
  forLoop rnd center count (tripCount count + extra) 0%Z [] k
  = generateAnomaliesAroundPoint rnd center count k.
Proof.
  unfold generateAnomaliesAroundPoint. apply forLoop_fuel.
  unfold tripCount. lia.
Qed.

Hypothesis rnd_unit : unit_draws rnd.

Lemma generateOne_unit (center : Q * Q) (i : Z) (k : nat) :
  exists a,
    generateOne rnd center i k = (Normal a, (k + 4)%nat) /\
    id a = (i + 1)%Z /\ drawn_around rnd center a.
Proof.
  destruct center as [centerLng centerLat].
  destruct (rnd_unit k) as [A0 A1].
  destruct (rnd_unit (S k)) as [B0 B1].
  destruct (rnd_unit (S (S k))) as [C0 C1].
  destruct (rnd_unit (S (S (S k)))) as [D0 D1].
  unfold generateOne, bind, Math_random.
  change (JS.length anomalyTypes) with (inject_Z 7).
  change (JS.length severityLevels) with (inject_Z 10).
  destruct (index_in_range anomalyTypes
              (Qfloor (rnd (S (S k)) * inject_Z 7)))
    as (entry & Hentry & Hin).
  { apply Qfloor_scaled_range; [reflexivity | assumption | assumption]. }
  destruct (index_in_range severityLevels
              (Qfloor (rnd (S (S (S k))) * inject_Z 10)))
    as (s & Hs & _).
  { apply Qfloor_scaled_range; [reflexivity | assumption | assumption]. }
  rewrite Hentry. unfold ret.
  eexists. split; [f_equal; lia | split; [reflexivity |]].
  unfold drawn_around, within.
  cbn [position severity radius type description fst snd].
  repeat split.
  - apply Qabs_Qle_condition. unfold scale. split; lra.
  - apply Qabs_Qle_condition. unfold scale. split; lra.
  - exists (S (S (S k))). reflexivity.
  - exists s. exact Hs.
  - exists entry. repeat split; assumption.
Qed.

Lemma forLoop_unit (center : Q * Q) (count : Q) (n : nat) :
  forall (i : Z) (acc : list AnomalyPoint) (k : nat),
  (forall j, (0 <= j < Z.of_nat n)%Z -> inject_Z (i + j) < count) ->
  exists new,
    forLoop rnd center count n i acc k
      = (Normal (acc ++ new), (k + 4 * n)%nat) /\
    List.length new = n /\
    map id new = map (fun j => (i + 1 + Z.of_nat j)%Z) (seq 0 n) /\
    Forall (drawn_around rnd center) new.
Proof.
  induction n as [| n IH]; intros i acc k Htest.
  - exists []. simpl. unfold ret. rewrite app_nil_r.
    repeat split; [f_equal; lia | constructor].
  - assert (Hi : JS.Qltb (inject_Z i) count = true).
    { apply Qltb_true. rewrite <- (Z.add_0_r i). apply Htest. lia. }
    destruct (generateOne_unit center i k) as (a & Ha & Hid & Hok).
    destruct (IH (i + 1)%Z (acc ++ [a]) (k + 4)%nat)
      as (new & Hrun & Hlen & Hids & Hall).
    { intros j Hj. rewrite <- Z.add_assoc. apply Htest. lia. }
    exists (a :: new). cbn [forLoop]. rewrite Hi.
    unfold bind at 1. rewrite Ha, Hrun.
    repeat split.
    + rewrite <- app_assoc. simpl. f_equal. lia.
    + simpl. congruence.
    + cbn [map seq]. rewrite Hid, Hids. f_equal; [lia |].
      rewrite <- seq_shift, map_map. apply map_ext. intro j. lia.
    + constructor; assumption.
Qed.

(** The loop returns, with one record per trip, ids counting from 1. *)
Lemma generateAnomaliesAroundPoint_unit (center : Q * Q) (count : Q)
    (k : nat) :
  exists l,
    generateAnomaliesAroundPoint rnd center count k
      = (Normal l, (k + 4 * tripCount count)%nat) /\
    List.length l = tripCount count /\
    map id l
      = map (fun j => (1 + Z.of_nat j)%Z) (seq 0 (tripCount count)) /\
    Forall (drawn_around rnd center) l.
Proof.
  unfold generateAnomaliesAroundPoint.
  destruct (forLoop_unit center count (tripCount count) 0%Z [] k)
    as (new & Hrun & Hlen & Hids & Hall).
  { intros j Hj. unfold tripCount in Hj.
    apply Qle_lt_trans with (inject_Z (Qceiling count - 1));
      [rewrite <- Zle_Qle; lia | apply Qceiling_lt]. }
  exists new. simpl in Hrun. repeat split; assumption.
Qed.



End LayerModule.

Section LayerModuleInstances.

Import AnomalyLayer.




(** The default count and the default center at work: five records of
    medium severity around [[101.4383, 0.5104]]. *)
Example generate_default_run :
  exists l,
    generateDummyAnomalies halfDraws None None 0%nat = (Normal l, 20%nat) /\
    map id l = [1; 2; 3; 4; 5]%Z /\
    map severity l = repeat (Some medium) 5 /\
    map radius l = repeat (Some 200) 5 /\
    Forall (fun a => fst (position a) == 101.4383 /\
                     snd (position a) == 0.5104) l.
Proof.
  eexists. split; [vm_compute; reflexivity |].
  repeat split; repeat constructor.
Qed.

End LayerModuleInstances.

(* ================================================================== *)
(** ** Least and greatest elements *)

Lemma Qmin_cases (a b : Q) : (Qmin a b = a /\ a <= b) \/ (Qmin a b = b /\ b <= a).
Proof.
  unfold Qmin, GenericMinMax.gmin.
  destruct (a ?= b) eqn:E.
  - left. split; [reflexivity |]. apply Qeq_alt in E. lra.
  - left. split; [reflexivity |]. apply Qlt_alt in E. lra.
  - right. split; [reflexivity |]. apply Qgt_alt in E. lra.
Qed.

Lemma Qmax_cases (a b : Q) : (Qmax a b = a /\ b <= a) \/ (Qmax a b = b /\ a <= b).
Proof.
  unfold Qmax, GenericMinMax.gmax.
  destruct (a ?= b) eqn:E.
  - left. split; [reflexivity |]. apply Qeq_alt in E. lra.
  - right. split; [reflexivity |]. apply Qlt_alt in E. lra.
  - left. split; [reflexivity |]. apply Qgt_alt in E. lra.
Qed.

Lemma least_of_cons (a x : Q) (l : list Q) (m : Q) :
  least_of (Qmin a x) l m -> least_of a (x :: l) m.
Proof.
  intros (Hin & Hle & Hall).
  destruct (Qmin_cases a x) as [[E Hax] | [E Hax]]; rewrite E in *;
    (split; [| split]).
  - destruct Hin; [now left | right; now right].
  - exact Hle.
  - intros y [<- | Hy]; [lra | now apply Hall].
  - destruct Hin as [-> | Hin]; right; [now left | now right].
  - lra.
  - intros y [<- | Hy]; [lra | now apply Hall].
Qed.

Lemma greatest_of_cons (a x : Q) (l : list Q) (m : Q) :
  greatest_of (Qmax a x) l m -> greatest_of a (x :: l) m.
Proof.
  intros (Hin & Hle & Hall).
  destruct (Qmax_cases a x) as [[E Hax] | [E Hax]]; rewrite E in *;
    (split; [| split]).
  - destruct Hin; [now left | right; now right].
  - exact Hle.
  - intros y [<- | Hy]; [lra | now apply Hall].
  - destruct Hin as [-> | Hin]; right; [now left | now right].
  - lra.
  - intros y [<- | Hy]; [lra | now apply Hall].
Qed.

Lemma fold_min_from (l : list Q) :
  forall a, exists m,
    fold_left (fun m x => JS.min m (JS.Fin x)) l (JS.Fin a) = JS.Fin m /\
    least_of a l m.
Proof.
  induction l as [| x l IH]; intro a.
  - exists a. simpl. split; [reflexivity |].
    split; [now left | split; [lra | intros x []]].
  - cbn [fold_left JS.min].
    destruct (IH (Qmin a x)) as (m & Hrun & Hm).
    exists m. split; [exact Hrun | now apply least_of_cons].
Qed.

Lemma fold_max_from (l : list Q) :
  forall a, exists m,
    fold_left (fun m x => JS.max m (JS.Fin x)) l (JS.Fin a) = JS.Fin m /\
    greatest_of a l m.
Proof.
  induction l as [| x l IH]; intro a.
  - exists a. simpl. split; [reflexivity |].
    split; [now left | split; [lra | intros x []]].
  - cbn [fold_left JS.max].
    destruct (IH (Qmax a x)) as (m & Hrun & Hm).
    exists m. split; [exact Hrun | now apply greatest_of_cons].
Qed.

Lemma fold_right_min_least (l : list Q) (a : Q) :
  least_of a l (fold_right Qmin a l).
Proof.
  induction l as [| x l (Hin & Hle & Hall)]; simpl.
  - split; [now left | split; [lra | intros x []]].
  - destruct (Qmin_cases x (fold_right Qmin a l)) as [[E H] | [E H]];
      rewrite E; (split; [| split]).
    + right. now left.
    + lra.
    + intros y [<- | Hy]; [lra | specialize (Hall y Hy); lra].
    + destruct Hin; [now left | right; now right].
    + exact Hle.
    + intros y [<- | Hy]; [lra | now apply Hall].
Qed.

Lemma fold_right_max_greatest (l : list Q) (a : Q) :
  greatest_of a l (fold_right Qmax a l).
Proof.
  induction l as [| x l (Hin & Hle & Hall)]; simpl.
  - split; [now left | split; [lra | intros x []]].
  - destruct (Qmax_cases x (fold_right Qmax a l)) as [[E H] | [E H]];
      rewrite E; (split; [| split]).
    + right. now left.
    + lra.
    + intros y [<- | Hy]; [lra | specialize (Hall y Hy); lra].
    + destruct Hin; [now left | right; now right].
    + exact Hle.
    + intros y [<- | Hy]; [lra | now apply Hall].
Qed.

Lemma least_unique (a : Q) (l : list Q) (m m' : Q) :
  least_of a l m -> least_of a l m' -> m == m'.
Proof.
  intros (Hin & Hle & Hall) (Hin' & Hle' & Hall').
  apply Qle_antisym.
  - destruct Hin' as [-> | H]; [exact Hle | now apply Hall].
  - destruct Hin as [-> | H]; [exact Hle' | now apply Hall'].
Qed.

Lemma greatest_unique (a : Q) (l : list Q) (m m' : Q) :
  greatest_of a l m -> greatest_of a l m' -> m == m'.
Proof.
  intros (Hin & Hle & Hall) (Hin' & Hle' & Hall').
  apply Qle_antisym.
  - destruct Hin as [-> | H]; [exact Hle' | now apply Hall'].
  - destruct Hin' as [-> | H]; [exact Hle | now apply Hall].
Qed.

(* ================================================================== *)
(** ** The verification step *)

Section VerificationStepProofs.

Import VerificationStep.

(** ** Bounding boxes *)

Lemma getBoundingBox_components (p : Polygon) (box : BoundingBox) :
  fold_left
    (fun box point =>
       let '(lon, lat) := point in
       {| minLon := JS.min (minLon box) (JS.Fin lon);
          maxLon := JS.max (maxLon box) (JS.Fin lon);
          minLat := JS.min (minLat box) (JS.Fin lat);
          maxLat := JS.max (maxLat box) (JS.Fin lat) |})
    p box
  = {| minLon := fold_left (fun m x => JS.min m (JS.Fin x))
                   (map fst p) (minLon box);
       maxLon := fold_left (fun m x => JS.max m (JS.Fin x))
                   (map fst p) (maxLon box);
       minLat := fold_left (fun m x => JS.min m (JS.Fin x))
                   (map snd p) (minLat box);
       maxLat := fold_left (fun m x => JS.max m (JS.Fin x))
                   (map snd p) (maxLat box) |}.
Proof.
  revert box. induction p as [| [lon lat] p IH]; intro box.
  - destruct box; reflexivity.
  - cbn [fold_left map]. rewrite IH. reflexivity.
Qed.

(** The finite box of a non-empty polygon. *)
Lemma getBoundingBox_nonempty (p : Polygon) :
  p <> [] ->
  exists a b c d,
    getBoundingBox p
    = {| minLon := JS.Fin a; maxLon := JS.Fin b;
         minLat := JS.Fin c; maxLat := JS.Fin d |} /\
    In a (map fst p) /\ In b (map fst p) /\
    In c (map snd p) /\ In d (map snd p) /\
    (forall pt, In pt p ->
       a <= fst pt /\ fst pt <= b /\ c <= snd pt /\ snd pt <= d).
Proof.
  destruct p as [| [lon lat] p]; [congruence | intros _].
  unfold getBoundingBox. rewrite getBoundingBox_components.
  cbn [map fst snd fold_left minLon maxLon minLat maxLat JS.min JS.max].
  destruct (fold_min_from (map fst p) lon) as (a & -> & Ha1 & Ha2 & Ha3).
  destruct (fold_max_from (map fst p) lon) as (b & -> & Hb1 & Hb2 & Hb3).
  destruct (fold_min_from (map snd p) lat) as (c & -> & Hc1 & Hc2 & Hc3).
  destruct (fold_max_from (map snd p) lat) as (d & -> & Hd1 & Hd2 & Hd3).
  exists a, b, c, d. split; [reflexivity |].
  split; [destruct Ha1 as [-> | ?]; simpl; auto |].
  split; [destruct Hb1 as [-> | ?]; simpl; auto |].
  split; [destruct Hc1 as [-> | ?]; simpl; auto |].
  split; [destruct Hd1 as [-> | ?]; simpl; auto |].
  intros pt [<- | H]; cbn [fst snd].
  - repeat split; assumption.
  - repeat split;
      [apply Ha3 | apply Hb3 | apply Hc3 | apply Hd3]; apply in_map, H.
Qed.

Lemma getRandomPointInPolygon_inside (rnd : nat -> Q) (p : Polygon) (k : nat) :
  unit_draws rnd -> p <> [] ->
  exists x y,
    getRandomPointInPolygon rnd p k = ((JS.Fin x, JS.Fin y), S (S k)) /\
    insideBox (getBoundingBox p) (JS.Fin x, JS.Fin y).
Proof.
  intros Hrnd Hp.
  destruct (getBoundingBox_nonempty p Hp)
    as (a & b & c & d & Hbox & _ & _ & _ & _ & Hcover).
  destruct p as [| pt p]; [congruence |].
  destruct (Hcover pt (or_introl eq_refl)) as (A1 & A2 & A3 & A4).
  destruct (Hrnd k) as [R0 R1]. destruct (Hrnd (S k)) as [S0 S1].
  unfold getRandomPointInPolygon, insideBox. rewrite Hbox.
  cbn [minLon maxLon minLat maxLat JS.sub JS.neg JS.add JS.mul fst snd JS.le].
  eexists. eexists. split; [reflexivity |].
  repeat split; nra.
Qed.

Lemma getRandomPointInPolygon_pos (rnd : nat -> Q) (p : Polygon) (k : nat) :
  snd (getRandomPointInPolygon rnd p k) = S (S k).
Proof. reflexivity. Qed.

(** The records of one run, one rule after the other. *)
Lemma detectedRecords_eq (rnd : nat -> Q) (p : Polygon) (cm : CarbonMetrics)
    (k : nat) :
  let pct := calculateForestGrowthPercentage (Some cm) in
  detectedRecords rnd p cm k =
  ((if JS.Qltb 20 pct
    then [{| id := 1; severity := high; type := "Unusual Carbon Growth";
             description := growthDescription pct;
             location :=
               (JS.div (JS.Fin (fold_left (fun sum point => sum + fst point)
                                  p 0)) (JS.Fin (JS.length p)),
                JS.div (JS.Fin (fold_left (fun sum point => sum + snd point)
                                  p 0)) (JS.Fin (JS.length p))) |}]
    else [])
   ++
   (if truthy (area cm)
    then [{| id := 2; severity := medium; type := "Boundary Inconsistency";
             description := "Project boundary overlaps with a protected area. Verify boundary coordinates and adjust if necessary.";
             location := fst (getRandomPointInPolygon rnd p k) |};
          {| id := 3; severity := medium;
             type := "LULC Classification Error";
             description := "Land use classification appears inconsistent with satellite imagery. Area classified as forest in 2020 appears as non-forest in high-resolution imagery.";
             location := fst (getRandomPointInPolygon rnd p (S (S k))) |};
          {| id := 4; severity := high; type := "Potential Deforestation";
             description := "Small area of forest loss detected in the northern section of the project area. Approximately 0.5 hectares affected.";
             location :=
               fst (getRandomPointInPolygon rnd p (S (S (S (S k))))) |}]
    else []),
   if truthy (area cm) then (k + 6)%nat else k).
Proof.
  intro pct. unfold detectedRecords. fold pct.
  destruct (JS.Qltb 20 pct), (truthy (area cm)); cbn;
    f_equal; lia.
Qed.


Section Detection.

Variable rnd : nat -> Q.

(** What a run on present inputs leaves in the state. *)
Lemma detectAnomalies_present (p : Polygon) (cm : CarbonMetrics)
    (hook : bool) (w : World) :
  let recs := fst (detectedRecords rnd p cm (randomPos w)) in
  let w' := detectAnomalies rnd
              (contextOf p cm)
              hook w in
  anomalies w' = recs /\
  (recs = [] ->
     anomalyLayersRef w' = anomalyLayersRef w /\
     registered w' = registered w) /\
  (recs <> [] ->
     anomalyLayersRef w'
       = [anomalyAreasLayer recs; anomalyPointsLayer recs] /\
     registered w' =
       registered w ++
       (if hook
        then [{| reg_id := "anomaly-areas"; reg_name := "Anomaly Areas";
                 reg_color := [255; 0; 0]%Z; reg_visible := true |};
              {| reg_id := "anomaly-points"; reg_name := "Anomaly Points";
                 reg_color := [255; 0; 0]%Z; reg_visible := true |}]
        else [])).
Proof.
  unfold detectAnomalies, contextOf.
  cbn [carbonMetrics getDrawnArea].
  destruct (detectedRecords rnd p cm (randomPos w)) as [recs k].
  cbn [fst].
  destruct recs as [| r recs].
  - cbn. repeat split; congruence.
  - cbn [List.length Nat.ltb Nat.leb].
    destruct hook; cbn;
      (split; [reflexivity |]);
      (split; [intro H; discriminate H | intros _]);
      (split; [reflexivity |]).
    + rewrite <- app_assoc. reflexivity.
    + rewrite app_nil_r. reflexivity.
Qed.

(** A run with a missing polygon or missing metrics leaves the state as
    it was. *)
Lemma detectAnomalies_absent (ctx : DrawingContext) (hook : bool)
    (w : World) :
  getDrawnArea ctx = None \/ getDrawnArea ctx = Some None \/
  carbonMetrics ctx = None ->
  detectAnomalies rnd ctx hook w = w.
Proof.
  unfold detectAnomalies.
  intros [-> | [-> | ->]]; try reflexivity.
  destruct (getDrawnArea ctx) as [[p |] |]; reflexivity.
Qed.

End Detection.


(** The records of a run are the growth record, when the rule fires,
    followed by the three fixed records, when [area] is truthy. *)
Lemma detectedRecords_rules (rnd : nat -> Q) (p : Polygon)
    (cm : CarbonMetrics) (k : nat) :
  let pct := calculateForestGrowthPercentage (Some cm) in
  exists growth fixed,
    fst (detectedRecords rnd p cm k) = growth ++ fixed /\
    growth =
      (if JS.Qltb 20 pct
       then [{| id := 1; severity := high; type := "Unusual Carbon Growth";
                description := growthDescription pct;
                location :=
                  (JS.div (JS.Fin (fold_left (fun sum point => sum + fst point)
                                     p 0)) (JS.Fin (JS.length p)),
                   JS.div (JS.Fin (fold_left (fun sum point => sum + snd point)
                                     p 0)) (JS.Fin (JS.length p))) |}]
       else []) /\
    (forall a, In a fixed -> type a <> "Unusual Carbon Growth"%string) /\
    (truthy (area cm) = false -> fixed = []) /\
    (truthy (area cm) = true ->
     exists b l d,
       fixed = [b; l; d] /\
       fixed_record b 2 medium "Boundary Inconsistency" /\
       fixed_record l 3 medium "LULC Classification Error" /\
       fixed_record d 4 high "Potential Deforestation" /\
       location b = fst (getRandomPointInPolygon rnd p k) /\
       location l = fst (getRandomPointInPolygon rnd p (S (S k))) /\
       location d = fst (getRandomPointInPolygon rnd p (S (S (S (S k)))))).
Proof.
  intro pct. rewrite detectedRecords_eq. fold pct. cbn [fst].
  eexists. eexists. split; [reflexivity |]. split; [reflexivity |].
  destruct (truthy (area cm)).
  - split; [| split; [discriminate |]].
    + intros a [<- | [<- | [<- | []]]]; cbn [type]; discriminate.
    + intros _. eexists. eexists. eexists. split; [reflexivity |].
      unfold fixed_record; cbn [id severity type location].
      repeat split.
  - split; [intros a [] | split; [reflexivity | discriminate]].
Qed.

Lemma centroid_division_finite (s : Q) (p : Polygon) :
  p <> [] ->
  JS.div (JS.Fin s) (JS.Fin (JS.length p)) = JS.Fin (s / JS.length p).
Proof.
  intro Hp. unfold JS.div.
  destruct (Qeq_bool (JS.length p) 0) eqn:E; [| reflexivity].
  apply Qeq_bool_iff in E. pose proof (length_pos p Hp). lra.
Qed.

Section DetectionClaims.

Variable rnd : nat -> Q.


(** C10.  When the polygon and the metrics are present, the growth
    percentage is at most 20 and [area] is falsy, the run sets the
    anomaly list to the empty list, leaves the layers stored in
    [anomalyLayersRef] as they were and does not call
    [window.addAnomalyLayer]. *)
Theorem no_records_skips_overlays (P : Polygon) (cm : CarbonMetrics)
    (hook : bool) (w : World) :
  calculateForestGrowthPercentage (Some cm) <= 20 ->
  truthy (area cm) = false ->
  let w' := detectAnomalies rnd
              (contextOf P cm)
              hook w in
  anomalies w' = [] /\
  anomalyLayersRef w' = anomalyLayersRef w /\
  registered w' = registered w.
Proof.
  intros Hpct Harea w'.
  destruct (detectAnomalies_present rnd P cm hook w) as (Hrecs & Hnone & _).
  fold w' in Hrecs, Hnone.
  assert (E : fst (detectedRecords rnd P cm (randomPos w)) = []).
  { rewrite detectedRecords_eq, Harea. cbn [fst].
    apply Qltb_false in Hpct. rewrite Hpct. reflexivity. }
  rewrite Hrecs. split; [exact E | exact (Hnone E)].
Qed.


End DetectionClaims.

(** The guard of [detectAnomalies] does not stop an empty array: with a
    truthy [area] the run stores records, whatever the draws, the other
    metrics and the previous state. *)
Lemma detect_empty_polygon_not_guarded (rnd : nat -> Q) (cm : CarbonMetrics)
    (hook : bool) (w : World) :
  truthy (area cm) = true ->
  anomalies (detectAnomalies rnd (contextOf [] cm) hook w) <> [].
Proof.
  intro Harea.
  destruct (detectAnomalies_present rnd [] cm hook w) as (-> & _).
  destruct (detectedRecords_rules rnd [] cm (randomPos w))
    as (growth & fixed & -> & _ & _ & _ & Hthree).
  destruct (Hthree Harea) as (b & l & d & -> & _).
  intro H. apply app_eq_nil in H. destruct H as [_ H]. discriminate H.
Qed.

(** C4.  The run on an empty polygon: with the array [[]] as drawn area
    and the sample metrics, the guard of [detectAnomalies] lets the run
    through; it stores four records, all located at [(NaN, NaN)], and
    builds both overlay layers. *)
Theorem detect_empty_polygon_emits_records :
  let w' := detectAnomalies halfDraws (contextOf [] sampleMetrics)
              false mounted in
  map id (anomalies w') = [1; 2; 3; 4]%Z /\
  map location (anomalies w')
    = [(JS.NaN, JS.NaN); (JS.NaN, JS.NaN); (JS.NaN, JS.NaN); (JS.NaN, JS.NaN)]
  /\ map layer_id (anomalyLayersRef w')
     = ["anomaly-areas"%string; "anomaly-points"%string].
Proof. vm_compute. repeat split. Qed.

(** C5, as stated, fails on the empty sequence: [getBoundingBox] returns
    the sentinel infinities where the specification asks for the
    [InvalidGeometry] error. *)
Lemma getBoundingBox_empty_returns_sentinels :
  getBoundingBox []
  = {| minLon := JS.PInf; maxLon := JS.NInf;
       minLat := JS.PInf; maxLat := JS.NInf |} /\
  boundingBox [] = inl InvalidGeometry /\
  boundingBox [] <> inr (getBoundingBox []).
Proof. repeat split. discriminate. Qed.

(** C5, amended.  On the empty sequence [getBoundingBox] returns the
    sentinel box [(Infinity, -Infinity, Infinity, -Infinity)] without an
    error; on every non-empty polygon it returns a finite rectangle that
    covers all vertices, is contained in every rectangle that covers them,
    and agrees with the bounding box of the specification. *)
Theorem getBoundingBox_minimal_when_nonempty :
  getBoundingBox []
  = {| minLon := JS.PInf; maxLon := JS.NInf;
       minLat := JS.PInf; maxLat := JS.NInf |} /\
  forall p : Polygon, p <> [] ->
    exists a b c d,
      getBoundingBox p
      = {| minLon := JS.Fin a; maxLon := JS.Fin b;
           minLat := JS.Fin c; maxLat := JS.Fin d |} /\
      covers a b c d p /\
      (forall a' b' c' d', covers a' b' c' d' p ->
         a' <= a /\ b <= b' /\ c' <= c /\ d <= d') /\
      exists box, boundingBox p = inr box /\ box_eqv (getBoundingBox p) box.
Proof.
  split; [reflexivity |].
  intros p Hp.
  destruct (getBoundingBox_nonempty p Hp)
    as (a & b & c & d & Hbox & Ha & Hb & Hc & Hd & Hcover).
  exists a, b, c, d. split; [exact Hbox |]. split; [exact Hcover |].
  split.
  - intros a' b' c' d' Hc'.
    apply in_map_iff in Ha, Hb, Hc, Hd.
    destruct Ha as (pa & <- & Ia), Hb as (pb & <- & Ib),
             Hc as (pc & <- & Ic), Hd as (pd & <- & Id).
    repeat split.
    + apply (Hc' pa Ia).
    + apply (Hc' pb Ib).
    + apply (Hc' pc Ic).
    + apply (Hc' pd Id).
  - destruct p as [| [lon lat] rest]; [congruence |].
    eexists. split; [reflexivity |].
    unfold getBoundingBox. rewrite getBoundingBox_components.
    cbn [map fst snd fold_left minLon maxLon minLat maxLat JS.min JS.max].
    destruct (fold_min_from (map fst rest) lon) as (ma & -> & Hma).
    destruct (fold_max_from (map fst rest) lon) as (mb & -> & Hmb).
    destruct (fold_min_from (map snd rest) lat) as (mc & -> & Hmc).
    destruct (fold_max_from (map snd rest) lat) as (md & -> & Hmd).
    unfold box_eqv; cbn [minLon maxLon minLat maxLat JS.eqv].
    repeat split.
    + eapply least_unique; [exact Hma | apply fold_right_min_least].
    + eapply greatest_unique; [exact Hmb | apply fold_right_max_greatest].
    + eapply least_unique; [exact Hmc | apply fold_right_min_least].
    + eapply greatest_unique; [exact Hmd | apply fold_right_max_greatest].
Qed.


Lemma no_records_skips_overlays_witness :
  calculateForestGrowthPercentage (Some quietMetrics) <= 20 /\
  truthy (area quietMetrics) = false /\
  let w' := detectAnomalies halfDraws (contextOf unitSquare quietMetrics)
              true mounted in
  anomalies w' = [] /\
  anomalyLayersRef w' = anomalyLayersRef mounted /\
  registered w' = registered mounted.
Proof.
  split; [unfold Qle; simpl; lia |]. split; [reflexivity |].
  apply (no_records_skips_overlays halfDraws unitSquare quietMetrics
           true mounted); [unfold Qle; simpl; lia | reflexivity].
Defined.


Lemma getBoundingBox_minimal_when_nonempty_witness :
  unitSquare <> [] /\
  exists a b c d,
    getBoundingBox unitSquare
    = {| minLon := JS.Fin a; maxLon := JS.Fin b;
         minLat := JS.Fin c; maxLat := JS.Fin d |} /\
    covers a b c d unitSquare /\
    (forall a' b' c' d', covers a' b' c' d' unitSquare ->
       a' <= a /\ b <= b' /\ c' <= c /\ d <= d') /\
    exists box,
      boundingBox unitSquare = inr box /\
      box_eqv (getBoundingBox unitSquare) box.
Proof.
  split; [discriminate |].
  apply (proj2 getBoundingBox_minimal_when_nonempty unitSquare).
  discriminate.
Defined.

(** The examples of the specification. *)

Example boundingBox_of_square :
  getBoundingBox unitSquare
  = {| minLon := JS.Fin 0; maxLon := JS.Fin 2;
       minLat := JS.Fin 0; maxLat := JS.Fin 2 |}.
Proof. reflexivity. Qed.

Example growth_of_sample :
  let w' := detectAnomalies halfDraws (contextOf unitSquare sampleMetrics)
              true mounted in
  map id (anomalies w') = [1; 2; 3; 4]%Z /\
  map description (firstn 1 (anomalies w'))
  = [growthDescription (30 / 90 * 100)] /\
  JS.toFixed1 (calculateForestGrowthPercentage (Some sampleMetrics))
  = "33.3"%string /\
  List.length (registered w') = 2%nat.
Proof. vm_compute. repeat split. Qed.

End VerificationStepProofs.

(* ================================================================== *)
(** ** The generator: count, ids, draws and catalog *)

Section GeneratorExtras.

Import AnomalyLayer.

Variable rnd : nat -> Q.

(** X1.  A count that is zero or negative gives the empty list, whatever
    the polygon and whatever the random source yields, and draws
    nothing. *)
Theorem generate_nothing_for_nonpositive_count
    (centerPolygon : option Polygon) (count : Q) (k : nat) :
  count <= 0 ->
  generateDummyAnomalies rnd centerPolygon (Some count) k = (Normal [], k).
Proof.
  intro Hc.
  destruct (generateDummyAnomalies_center rnd centerPolygon (Some count))
    as (c & -> & _).
  unfold generateAnomaliesAroundPoint, countOrDefault, tripCount.
  pose proof (Qceiling_resp_le count 0 Hc) as H.
  change (Qceiling 0) with 0%Z in H.
  replace (Z.to_nat (Qceiling count)) with 0%nat by lia.
  reflexivity.
Qed.

Lemma generateOne_attributes (c c' : Q * Q) (i : Z) (k : nat) :
  snd (generateOne rnd c i k) = snd (generateOne rnd c' i k) /\
  match fst (generateOne rnd c i k), fst (generateOne rnd c' i k) with
  | Normal a, Normal a' => attributes a = attributes a'
  | Throw e, Throw e' => e = e'
  | _, _ => False
  end.
Proof.
  destruct c as [x y], c' as [x' y'].
  unfold generateOne, bind, Math_random.
  destruct (JS.index anomalyTypes _); simpl; split; reflexivity.
Qed.

Lemma forLoop_attributes (c c' : Q * Q) (count : Q) (fuel : nat) :
  forall (i : Z) (acc acc' : list AnomalyPoint) (k : nat),
  map attributes acc = map attributes acc' ->
  same_outcome (forLoop rnd c count fuel i acc k)
               (forLoop rnd c' count fuel i acc' k).
Proof.
  induction fuel as [| fuel IH]; intros i acc acc' k Hacc.
  - split; [reflexivity | exact Hacc].
  - cbn [forLoop].
    destruct (JS.Qltb (inject_Z i) count);
      [| split; [reflexivity | exact Hacc]].
    unfold bind.
    destruct (generateOne_attributes c c' i k) as [Hk Ha].
    destruct (generateOne rnd c i k) as [[a | e] k1],
             (generateOne rnd c' i k) as [[a' | e'] k2];
      cbn [fst snd] in Hk, Ha; try contradiction; subst k2.
    + apply IH. rewrite !map_app. cbn [map]. congruence.
    + split; [reflexivity | exact Ha].
Qed.

(** X2.  The polygon argument reaches the records through their positions
    only: for any two polygon arguments and the same draws the two runs
    either throw the same error or return records that agree in id,
    severity, type, description and radius, and they leave the random
    source at the same position. *)
Theorem polygon_moves_positions_only (P P' : option Polygon)
    (count : option Q) (k : nat) :
  same_outcome (generateDummyAnomalies rnd P count k)
               (generateDummyAnomalies rnd P' count k).
Proof.
  destruct (generateDummyAnomalies_center rnd P count) as (c & -> & _).
  destruct (generateDummyAnomalies_center rnd P' count) as (c' & -> & _).
  unfold generateAnomaliesAroundPoint. apply forLoop_attributes. reflexivity.
Qed.

Hypothesis rnd_unit : unit_draws rnd.

Lemma ids_from_one (n : nat) :
  map (fun j => (1 + Z.of_nat j)%Z) (seq 0 n) = map Z.of_nat (seq 1 n).
Proof.
  rewrite <- seq_shift, map_map. apply map_ext. intro j. lia.
Qed.

(** X3.  For any count, integer or not, given or left out, the generator
    returns as many records as the least integer not below the count (5
    when the count is left out), numbered 1, 2, 3, ... in order, and it
    takes exactly four draws per record. *)
Theorem generate_ids_and_draws (centerPolygon : option Polygon)
    (count : option Q) (k : nat) :
  let n := Z.to_nat (Qceiling (countOrDefault count)) in
  exists l,
    generateDummyAnomalies rnd centerPolygon count k
      = (Normal l, (k + 4 * n)%nat) /\
    List.length l = n /\
    map id l = map Z.of_nat (seq 1 n).
Proof.
  intro n.
  destruct (generateDummyAnomalies_center rnd centerPolygon count)
    as (c & Hrun & _).
  destruct (generateAnomaliesAroundPoint_unit rnd rnd_unit c
              (countOrDefault count) k) as (l & Hgen & Hlen & Hids & _).
  exists l. split; [rewrite Hrun; exact Hgen |]. split; [exact Hlen |].
  rewrite Hids. apply ids_from_one.
Qed.

Lemma catalog_functional (e1 e2 : AnomalyType) :
  In e1 anomalyTypes -> In e2 anomalyTypes ->
  type_name e1 = type_name e2 -> type_description e1 = type_description e2.
Proof.
  intros H1 H2.
  simpl in H1, H2.
  repeat (destruct H1 as [<- | H1]); try contradiction;
    repeat (destruct H2 as [<- | H2]); try contradiction;
    cbn [type_name type_description]; intro E;
    (reflexivity || discriminate E).
Qed.

(** X4.  Type and description of every generated record are those of one
    entry of the catalog, so within a run, and across runs, records of
    the same type carry the same description. *)
Theorem description_follows_type (centerPolygon : option Polygon)
    (count : option Q) (k : nat) :
  exists l k',
    generateDummyAnomalies rnd centerPolygon count k = (Normal l, k') /\
    Forall (fun a =>
              In {| type_name := type a; type_description := description a |}
                 anomalyTypes) l /\
    (forall a b, In a l -> In b l -> type a = type b ->
       description a = description b).
Proof.
  destruct (generateDummyAnomalies_center rnd centerPolygon count)
    as (c & Hrun & _).
  destruct (generateAnomaliesAroundPoint_unit rnd rnd_unit c
              (countOrDefault count) k) as (l & Hgen & _ & _ & Hall).
  exists l. eexists. split; [rewrite Hrun; exact Hgen |].
  rewrite Forall_forall in Hall.
  split.
  - apply Forall_forall. intros a Ha.
    destruct (Hall a Ha) as (_ & _ & _ & _ & (e & He & -> & ->)).
    destruct e; exact He.
  - intros a b Ha Hb Hab.
    destruct (Hall a Ha) as (_ & _ & _ & _ & (ea & Hea & Ta & Da)).
    destruct (Hall b Hb) as (_ & _ & _ & _ & (eb & Heb & Tb & Db)).
    rewrite Da, Db. apply catalog_functional; congruence.
Qed.

End GeneratorExtras.

(* ================================================================== *)
(** ** The composite map layer *)

Section MapLayerExtras.

Import AnomalyLayer.
Import AnomalyDetectionLayer.

(** X5.  [renderLayers] returns no layer exactly when the data is
    missing, has no anomaly list or has an empty one; otherwise it returns
    the points layer and then the labels layer, named after the id of the
    layer, both over the whole anomaly list. *)
Theorem renderLayers_nothing_or_pair (props : LayerProps) :
  (renderLayers props = [] <->
   data props = None \/
   (exists d, data props = Some d /\
      (AnomalyDetectionLayer.anomalies d = None \/
       AnomalyDetectionLayer.anomalies d = Some []))) /\
  (forall d l,
     data props = Some d -> AnomalyDetectionLayer.anomalies d = Some l ->
     l <> [] ->
     map subLayerId (renderLayers props)
       = [(AnomalyDetectionLayer.id props ++ "-points")%string;
          (AnomalyDetectionLayer.id props ++ "-labels")%string] /\
     map subLayerData (renderLayers props) = [l; l]).
Proof.
  unfold renderLayers. split.
  - destruct (data props) as [d |]; [| split; [now left | reflexivity]].
    destruct (AnomalyDetectionLayer.anomalies d) as [[| a l] |] eqn:E.
    + split; [intros _ | reflexivity].
      right. exists d. split; [reflexivity | now right].
    + split; [discriminate |].
      intros [H | (d' & H & [H' | H'])]; try discriminate;
        injection H as <-; congruence.
    + split; [intros _ | reflexivity].
      right. exists d. split; [reflexivity | now left].
  - intros d l -> -> Hl. destruct l as [| a l]; [congruence |].
    split; reflexivity.
Qed.

(** X6.  Because the selected id is read as [data.selectedId || null],
    an anomaly whose id is 0 is never highlighted, whatever the selected
    id, 0 included: its outline has width 1 and its fill is the colour of
    its severity; and a selected id of 0 renders the very layers of no
    selection. *)
Theorem id_zero_never_highlighted (name : string) (d : AnomalyPoint)
    (l : option (list AnomalyPoint)) (s : option Z) :
  let sel := selectedOf {| AnomalyDetectionLayer.anomalies := l;
                           selectedId := s |} in
  (AnomalyLayer.id d = 0%Z ->
   getLineWidth sel d = 1%Z /\
   getFillColor sel d = option_map severityColors (severity d) /\
   getSize sel d = 14%Z) /\
  renderLayers
    {| AnomalyDetectionLayer.id := name;
       data := Some {| AnomalyDetectionLayer.anomalies := l;
                       selectedId := Some 0%Z |} |}
  = renderLayers
      {| AnomalyDetectionLayer.id := name;
         data := Some {| AnomalyDetectionLayer.anomalies := l;
                         selectedId := None |} |}.
Proof.
  cbv zeta. split; [| reflexivity].
  intro Hid.
  unfold selectedOf, getLineWidth, getFillColor, getSize, isSelected.
  cbn [selectedId]. rewrite Hid.
  destruct s as [z |]; [| repeat split].
  destruct (Z.eqb_spec z 0) as [-> | Hz]; [repeat split |].
  destruct (Z.eqb_spec z 0); [contradiction | repeat split].
Qed.

Lemma isSelected_iff (sel : option Z) (d : AnomalyPoint) :
  isSelected sel d = true <-> sel = Some (AnomalyLayer.id d).
Proof.
  unfold isSelected. destruct sel as [z |]; [| split; discriminate].
  rewrite Z.eqb_eq. split; congruence.
Qed.

(** X7.  Marker and label of an anomaly are highlighted together: the
    white fill, the black outline, the outline of width 2, the black label
    and the label of size 16 each appear exactly on the anomaly whose id
    is the selected one; no severity colour is the highlight colour. *)
Theorem highlight_is_consistent (sel : option Z) (d : AnomalyPoint) :
  (getFillColor sel d = Some [255; 255; 255; 220]%Z
     <-> sel = Some (AnomalyLayer.id d)) /\
  (getLineColor sel d = [0; 0; 0; 255]%Z
     <-> sel = Some (AnomalyLayer.id d)) /\
  (getLineWidth sel d = 2%Z <-> sel = Some (AnomalyLayer.id d)) /\
  (getColor sel d = [0; 0; 0; 255]%Z <-> sel = Some (AnomalyLayer.id d)) /\
  (getSize sel d = 16%Z <-> sel = Some (AnomalyLayer.id d)).
Proof.
  rewrite <- isSelected_iff.
  unfold getFillColor, getLineColor, getLineWidth, getColor, getSize.
  destruct (isSelected sel d).
  - repeat split; reflexivity.
  - repeat split; try discriminate.
    destruct (severity d) as [[] |]; discriminate.
Qed.

Lemma count_in_run (s : Z) (n : nat) :
  forall a : nat,
  List.length (filter (fun z => (s =? z)%Z) (map Z.of_nat (seq a n)))
  = if ((Z.of_nat a <=? s) && (s <? Z.of_nat (a + n)))%Z
    then 1%nat else 0%nat.
Proof.
  induction n as [| n IH]; intro a.
  - simpl.
    destruct (Z.leb_spec (Z.of_nat a) s),
             (Z.ltb_spec s (Z.of_nat (a + 0)));
      simpl; try reflexivity; lia.
  - cbn [seq map filter].
    specialize (IH (S a)).
    destruct (Z.eqb_spec s (Z.of_nat a)) as [-> | Hne].
    + cbn [List.length]. rewrite IH.
      destruct (Z.leb_spec (Z.of_nat (S a)) (Z.of_nat a)); [lia |].
      destruct (Z.leb_spec (Z.of_nat a) (Z.of_nat a)); [| lia].
      destruct (Z.ltb_spec (Z.of_nat a) (Z.of_nat (a + S n))); [| lia].
      reflexivity.
    + rewrite IH.
      destruct (Z.leb_spec (Z.of_nat (S a)) s), (Z.leb_spec (Z.of_nat a) s),
               (Z.ltb_spec s (Z.of_nat (S a + n))),
               (Z.ltb_spec s (Z.of_nat (a + S n)));
        simpl; try reflexivity; lia.
Qed.

Variable rnd : nat -> Q.
Hypothesis rnd_unit : unit_draws rnd.

(** X8.  Over the records of a run of the generator, the layer draws the
    bold outline on exactly one marker when the selected id is one of
    1, ..., n, and on none when it is missing, 0 or outside that range. *)
Theorem one_marker_highlighted (centerPolygon : option Polygon)
    (count : option Q) (k : nat) (s : option Z) :
  let n := Z.to_nat (Qceiling (countOrDefault count)) in
  exists l k',
    generateDummyAnomalies rnd centerPolygon count k = (Normal l, k') /\
    let sel := selectedOf {| AnomalyDetectionLayer.anomalies := Some l;
                             selectedId := s |} in
    List.length (filter (fun d => (getLineWidth sel d =? 2)%Z) l)
    = match s with
      | Some z =>
          if ((1 <=? z) && (z <=? Z.of_nat n))%Z then 1%nat else 0%nat
      | None => 0%nat
      end.
Proof.
  intro n.
  destruct (generateDummyAnomalies_center rnd centerPolygon count)
    as (c & Hrun & _).
  destruct (generateAnomaliesAroundPoint_unit rnd rnd_unit c
              (countOrDefault count) k) as (l & Hgen & _ & Hids & _).
  rewrite ids_from_one in Hids.
  fold (tripCount (countOrDefault count)) in n. fold n in Hids.
  exists l. eexists. split; [rewrite Hrun; exact Hgen |]. cbv zeta.
  unfold selectedOf; cbn [selectedId].
  assert (Hnone : List.length
            (filter (fun d => (getLineWidth None d =? 2)%Z) l) = 0%nat).
  { clear. induction l as [| d l IH]; [reflexivity | exact IH]. }
  destruct s as [z |]; [| exact Hnone].
  destruct (Z.eqb_spec z 0) as [-> | Hz]; [exact Hnone |].
  assert (E : forall l',
    List.length (filter (fun d => (getLineWidth (Some z) d =? 2)%Z) l')
    = List.length (filter (fun i => (z =? i)%Z) (map AnomalyLayer.id l'))).
  { induction l' as [| d l' IH]; [reflexivity |].
    cbn [map filter]. unfold getLineWidth at 1, isSelected.
    destruct (z =? AnomalyLayer.id d)%Z; cbn [Z.eqb Pos.eqb List.length];
      rewrite IH; reflexivity. }
  rewrite E, Hids, count_in_run.
  destruct (Z.leb_spec (Z.of_nat 1) z), (Z.ltb_spec z (Z.of_nat (1 + n))),
           (Z.leb_spec 1 z), (Z.leb_spec z (Z.of_nat n));
    simpl; try reflexivity; lia.
Qed.

(** X9.  The radius the layer draws a generated record with is the one of
    the lookup for its severity: the fallback of 200 for a missing radius
    never decides. *)
Theorem rendered_radius_is_lookup (centerPolygon : option Polygon)
    (count : option Q) (k : nat) :
  exists l k',
    generateDummyAnomalies rnd centerPolygon count k = (Normal l, k') /\
    Forall (fun d => exists s, severity d = Some s /\
                               getRadius d = radiusMap s) l.
Proof.
  destruct (generateDummyAnomalies_center rnd centerPolygon count)
    as (c & Hrun & _).
  destruct (generateAnomaliesAroundPoint_unit rnd rnd_unit c
              (countOrDefault count) k) as (l & Hgen & _ & _ & Hall).
  exists l. eexists. split; [rewrite Hrun; exact Hgen |].
  eapply Forall_impl; [| exact Hall].
  intros d (_ & _ & (s & Hs) & Hr & _).
  exists s. split; [exact Hs |].
  unfold getRadius. rewrite Hr, Hs. destruct s; reflexivity.
Qed.

End MapLayerExtras.

(* ================================================================== *)
(** ** Detection: ids, severities, geometry, reruns *)

Lemma sum_between (l : list Q) (a b : Q) :
  (forall x, In x l -> a <= x /\ x <= b) ->
  a * JS.length l <= fold_right Qplus 0 l /\
  fold_right Qplus 0 l <= b * JS.length l.
Proof.
  unfold JS.length.
  induction l as [| x l IH]; intro H.
  - cbn [fold_right List.length Z.of_nat]. change (inject_Z 0) with 0.
    split; lra.
  - destruct IH as [IH1 IH2]; [intros y Hy; apply H; now right |].
    destruct (H x (or_introl eq_refl)) as [Hx1 Hx2].
    cbn [fold_right List.length]. rewrite Nat2Z.inj_succ.
    unfold Z.succ. rewrite inject_Z_plus. change (inject_Z 1) with 1.
    set (n := inject_Z (Z.of_nat (List.length l))) in *. clearbody n.
    set (s := fold_right Qplus 0 l) in *. clearbody s.
    split; lra.
Qed.

(** The mean of a non-empty list lies between any bounds of its
    elements. *)
Lemma mean_between (l : list Q) (a b : Q) :
  l <> [] ->
  (forall x, In x l -> a <= x /\ x <= b) ->
  a <= fold_right Qplus 0 l / JS.length l /\
  fold_right Qplus 0 l / JS.length l <= b.
Proof.
  intros Hl H. pose proof (length_pos l Hl) as Hpos.
  destruct (sum_between l a b H) as [H1 H2].
  split.
  - apply Qle_shift_div_l; assumption.
  - apply Qle_shift_div_r; assumption.
Qed.

Section DetectionExtras.

Import VerificationStep.

(** The vertex mean of a non-empty polygon lies in its bounding box. *)
Lemma centroid_inside_box (P : Polygon) :
  P <> [] ->
  insideBox (getBoundingBox P)
    (JS.div (JS.Fin (fold_left (fun sum point => sum + fst point) P 0))
            (JS.Fin (JS.length P)),
     JS.div (JS.Fin (fold_left (fun sum point => sum + snd point) P 0))
            (JS.Fin (JS.length P))).
Proof.
  intro HP.
  destruct (getBoundingBox_nonempty P HP)
    as (a & b & c & d & Hbox & _ & _ & _ & _ & Hcover).
  rewrite Hbox, !centroid_division_finite by exact HP.
  unfold insideBox; cbn [minLon maxLon minLat maxLat fst snd JS.le].
  rewrite !fold_left_sum, !Qplus_0_l.
  assert (Hlen1 : JS.length P = JS.length (map fst P))
    by (unfold JS.length; rewrite length_map; reflexivity).
  assert (Hlen2 : JS.length P = JS.length (map snd P))
    by (unfold JS.length; rewrite length_map; reflexivity).
  destruct (mean_between (map fst P) a b) as [A1 A2].
  { destruct P; [congruence | discriminate]. }
  { intros x Hx. apply in_map_iff in Hx. destruct Hx as (pt & <- & Hpt).
    destruct (Hcover pt Hpt) as (? & ? & _). split; assumption. }
  destruct (mean_between (map snd P) c d) as [B1 B2].
  { destruct P; [congruence | discriminate]. }
  { intros x Hx. apply in_map_iff in Hx. destruct Hx as (pt & <- & Hpt).
    destruct (Hcover pt Hpt) as (_ & _ & ? & ?). split; assumption. }
  rewrite <- Hlen1 in A1, A2. rewrite <- Hlen2 in B1, B2.
  repeat split; assumption.
Qed.

(** The sides of the box of a non-empty polygon depend on the set of its
    vertices only. *)
Lemma box_sides_unique (P P' : Polygon) :
  P <> [] -> (forall pt, In pt P <-> In pt P') ->
  box_eqv (getBoundingBox P) (getBoundingBox P').
Proof.
  intros HP Hsame.
  assert (HP' : P' <> []).
  { destruct P as [| pt P]; [congruence |].
    intro E. subst P'. apply (Hsame pt). now left. }
  destruct (getBoundingBox_nonempty P HP)
    as (a & b & c & d & -> & Ha & Hb & Hc & Hd & Hcover).
  destruct (getBoundingBox_nonempty P' HP')
    as (a' & b' & c' & d' & -> & Ha' & Hb' & Hc' & Hd' & Hcover').
  apply in_map_iff in Ha, Hb, Hc, Hd, Ha', Hb', Hc', Hd'.
  destruct Ha as (pa & <- & Ia), Hb as (pb & <- & Ib),
           Hc as (pc & <- & Ic), Hd as (pd & <- & Id),
           Ha' as (pa' & <- & Ia'), Hb' as (pb' & <- & Ib'),
           Hc' as (pc' & <- & Ic'), Hd' as (pd' & <- & Id').
  unfold box_eqv; cbn [minLon maxLon minLat maxLat JS.eqv].
  repeat split; apply Qle_antisym;
    try (apply (Hcover' _ (proj1 (Hsame _) Ia)));
    try (apply (Hcover' _ (proj1 (Hsame _) Ib)));
    try (apply (Hcover' _ (proj1 (Hsame _) Ic)));
    try (apply (Hcover' _ (proj1 (Hsame _) Id)));
    try (apply (Hcover _ (proj2 (Hsame _) Ia')));
    try (apply (Hcover _ (proj2 (Hsame _) Ib')));
    try (apply (Hcover _ (proj2 (Hsame _) Ic')));
    try (apply (Hcover _ (proj2 (Hsame _) Id'))).
Qed.

(** X11.  [getBoundingBox] depends on the set of vertices only: two
    arrays with the same vertices, in any order and with any repeats,
    have numerically equal boxes (the sentinel box when both are
    empty). *)
Theorem getBoundingBox_ignores_order_and_repeats (P P' : Polygon) :
  (forall pt, In pt P <-> In pt P') ->
  box_eqv (getBoundingBox P) (getBoundingBox P').
Proof.
  intro Hsame.
  destruct P as [| pt P].
  - destruct P' as [| pt' P'].
    + repeat split.
    + exfalso. apply (Hsame pt'). now left.
  - apply box_sides_unique; [discriminate | exact Hsame].
Qed.

Variable rnd : nat -> Q.

(** X12.  Whatever the inputs and the draws, the ids of the stored
    anomalies are pairwise distinct and lie in 1..4, so the rows of the
    list have distinct keys, and no stored anomaly has severity low. *)
Theorem detected_ids_distinct_never_low (P : Polygon) (cm : CarbonMetrics)
    (hook : bool) (w : World) :
  let w' := detectAnomalies rnd (contextOf P cm) hook w in
  NoDup (map id (anomalies w')) /\
  NoDup (map VerificationView.key
           (VerificationView.listRows (anomalies w'))) /\
  Forall (fun a => (1 <= id a <= 4)%Z /\ severity a <> low) (anomalies w').
Proof.
  intro w'.
  assert (Hkeys : map VerificationView.key
                    (VerificationView.listRows (anomalies w'))
                  = map id (anomalies w')).
  { unfold VerificationView.listRows. rewrite map_map. reflexivity. }
  rewrite Hkeys.
  cut (NoDup (map id (anomalies w')) /\
       Forall (fun a => (1 <= id a <= 4)%Z /\ severity a <> low)
         (anomalies w')); [tauto |].
  destruct (detectAnomalies_present rnd P cm hook w) as (Hrecs & _).
  fold w' in Hrecs. rewrite Hrecs.
  destruct (detectedRecords_rules rnd P cm (randomPos w))
    as (growth & fixed & -> & -> & _ & Hnone & Hthree).
  destruct (truthy (area cm)).
  - destruct (Hthree eq_refl)
      as (b & l & d & -> & (Ib & Sb & _) & (Il & Sl & _) & (Id & Sd & _) & _).
    destruct (JS.Qltb 20 _); cbn [app map id severity];
      rewrite ?Ib, ?Il, ?Id; split.
    + repeat constructor; simpl; intuition discriminate.
    + repeat constructor; cbn [id severity]; try lia;
        rewrite ?Sb, ?Sl, ?Sd; discriminate.
    + repeat constructor; simpl; intuition discriminate.
    + repeat constructor; try lia; rewrite ?Sb, ?Sl, ?Sd; discriminate.
  - rewrite (Hnone eq_refl), app_nil_r.
    destruct (JS.Qltb 20 _); cbn [map id]; split; repeat constructor;
      simpl; try lia; try tauto; discriminate.
Qed.



Lemma hover_pointFeature (a : AnomalyInfo) :
  VerificationView.hoveredAnomaly (pointFeature a) = Some a.
Proof. destruct a; reflexivity. Qed.

(** X14.  Whenever a run stores anomalies, the second stored layer is the
    pickable points layer (the area layer is not pickable); its features
    are in the order of the anomaly list, each a point at the location of
    its anomaly, and hovering a feature selects a record equal to that
    anomaly in all five fields. *)
Theorem hover_selects_listed_anomaly (P : Polygon) (cm : CarbonMetrics)
    (hook : bool) (w : World) :
  let w' := detectAnomalies rnd (contextOf P cm) hook w in
  anomalies w' = [] \/
  exists areas points,
    anomalyLayersRef w' = [areas; points] /\
    layer_id points = "anomaly-points"%string /\
    pickable points = true /\ pickable areas = false /\
    Forall2 (fun a f =>
               geometry f = PointGeometry (location a) /\
               forall p,
                 VerificationView.onHover (Some f) p
                 = VerificationView.setSelectedAnomaly (Some a) p)
            (anomalies w') (features points).
Proof.
  intro w'.
  destruct (detectAnomalies_present rnd P cm hook w) as (Hrecs & _ & Hsome).
  fold w' in Hrecs, Hsome. rewrite Hrecs.
  destruct (fst (detectedRecords rnd P cm (randomPos w))) as [| r recs];
    [now left | right].
  destruct Hsome as [Hlayers _]; [discriminate |].
  eexists. eexists. split; [exact Hlayers |].
  repeat (split; [reflexivity |]).
  cbn [features anomalyPointsLayer].
  generalize (r :: recs). intro l.
  induction l as [| a l IH]; cbn [map]; constructor; [| exact IH].
  split; [reflexivity |].
  intro p. unfold VerificationView.onHover.
  rewrite hover_pointFeature. reflexivity.
Qed.

Lemma randomPos_after_run (P : Polygon) (cm : CarbonMetrics)
    (hook : bool) (w : World) :
  randomPos (detectAnomalies rnd (contextOf P cm) hook w)
  = (if truthy (area cm) then randomPos w + 6 else randomPos w)%nat.
Proof.
  unfold detectAnomalies, contextOf. cbn [carbonMetrics getDrawnArea].
  pose proof (detectedRecords_eq rnd P cm (randomPos w)) as E. cbv zeta in E.
  destruct (detectedRecords rnd P cm (randomPos w)) as [recs k].
  injection E as _ ->.
  destruct recs; [reflexivity |].
  cbn [List.length Nat.ltb Nat.leb]. destruct hook; reflexivity.
Qed.

Lemma rerun_succ (P : Polygon) (cm : CarbonMetrics) (hook : bool)
    (n : nat) (w : World) :
  rerun rnd (contextOf P cm) hook (S n) w
  = detectAnomalies rnd (contextOf P cm) hook
      (rerun rnd (contextOf P cm) hook n w).
Proof. unfold rerun. apply Nat.iter_succ. Qed.

(** What one more run with a truthy [area] stores. *)
Lemma run_with_area (P : Polygon) (cm : CarbonMetrics) (hook : bool)
    (w : World) :
  truthy (area cm) = true ->
  let w' := detectAnomalies rnd (contextOf P cm) hook w in
  map layer_id (anomalyLayersRef w')
  = ["anomaly-areas"%string; "anomaly-points"%string] /\
  List.length (registered w')
  = (List.length (registered w) + (if hook then 2 else 0))%nat.
Proof.
  intros Harea w'. subst w'.
  destruct (detectAnomalies_present rnd P cm hook w) as (_ & _ & Hsome).
  cbv zeta in Hsome.
  destruct Hsome as [Hlayers Hreg].
  { destruct (detectedRecords_rules rnd P cm (randomPos w))
      as (growth & fixed & -> & _ & _ & _ & Hthree).
    destruct (Hthree Harea) as (b & l & d & -> & _).
    intro H. apply app_eq_nil in H. destruct H as [_ H]. discriminate H. }
  split; [rewrite Hlayers; reflexivity |].
  rewrite Hreg, length_app. destruct hook; cbn [List.length]; lia.
Qed.

(** X15.  Runs in a row with a truthy [area] replace the stored layers
    but pile up registrations: after [n] runs the global layer control has
    received [2 * n] more calls (none when the hook is undefined), the
    stored layers are still just the area layer and the points layer, and
    [6 * n] draws have been taken. *)
Theorem reruns_accumulate_registrations (P : Polygon) (cm : CarbonMetrics)
    (hook : bool) (n : nat) (w : World) :
  truthy (area cm) = true ->
  let w' := rerun rnd (contextOf P cm) hook n w in
  List.length (registered w')
  = (List.length (registered w) + (if hook then 2 * n else 0))%nat /\
  ((0 < n)%nat ->
   map layer_id (anomalyLayersRef w')
   = ["anomaly-areas"%string; "anomaly-points"%string]) /\
  randomPos w' = (randomPos w + 6 * n)%nat.
Proof.
  intros Harea w'. subst w'.
  induction n as [| n (IHr & _ & IHk)].
  - cbn. split; [destruct hook; lia |]. split; [lia | lia].
  - rewrite rerun_succ.
    destruct (run_with_area P cm hook
                (rerun rnd (contextOf P cm) hook n w) Harea)
      as (Hlayers & Hreg).
    split; [| split].
    + rewrite Hreg, IHr. destruct hook; lia.
    + intros _. exact Hlayers.
    + rewrite randomPos_after_run, Harea, IHk. lia.
Qed.

(** X18.  A polygon of a single vertex has a box without extent: every
    stored anomaly is located at that vertex. *)
Theorem single_vertex_polygon_collapses (pt : Q * Q) (cm : CarbonMetrics)
    (hook : bool) (w : World) :
  unit_draws rnd ->
  Forall (fun a => exists x y, location a = (JS.Fin x, JS.Fin y) /\
                               x == fst pt /\ y == snd pt)
    (anomalies (detectAnomalies rnd (contextOf [pt] cm) hook w)).
Proof.
  intro Hrnd.
  assert (Hne : [pt] <> []) by discriminate.
  assert (Hpin : forall loc : JS.num * JS.num,
            insideBox (getBoundingBox [pt]) loc ->
            (exists x y, loc = (JS.Fin x, JS.Fin y)) ->
            exists x y, loc = (JS.Fin x, JS.Fin y) /\
                        x == fst pt /\ y == snd pt).
  { intros loc Hin (x & y & ->). exists x, y. split; [reflexivity |].
    destruct pt as [px py]. unfold insideBox in Hin.
    cbn [getBoundingBox fold_left minLon maxLon minLat maxLat fst snd
         JS.min JS.max JS.le] in Hin.
    destruct Hin as (A & B & C & D).
    split; apply Qle_antisym; assumption. }
  destruct (detectAnomalies_present rnd [pt] cm hook w) as (-> & _).
  destruct (detectedRecords_rules rnd [pt] cm (randomPos w))
    as (growth & fixed & -> & -> & _ & Hnone & Hthree).
  assert (Hrand : forall k,
            exists x y,
              fst (getRandomPointInPolygon rnd [pt] k)
                = (JS.Fin x, JS.Fin y) /\
              x == fst pt /\ y == snd pt).
  { intro k.
    destruct (getRandomPointInPolygon_inside rnd [pt] k Hrnd Hne)
      as (x & y & E & Hbox).
    rewrite E. apply Hpin; [exact Hbox | now exists x, y]. }
  apply Forall_app. split.
  - destruct (JS.Qltb 20 _); [| constructor].
    constructor; [| constructor]. cbn [location].
    apply Hpin; [apply centroid_inside_box; exact Hne |].
    rewrite !centroid_division_finite by exact Hne.
    eexists. eexists. reflexivity.
  - destruct (truthy (area cm)); [| rewrite Hnone by reflexivity; constructor].
    destruct (Hthree eq_refl) as (b & l & d & -> & _ & _ & _ & Lb & Ll & Ld).
    repeat constructor; rewrite ?Lb, ?Ll, ?Ld; apply Hrand.
Qed.

Lemma getRandomPointInPolygon_empty (k : nat) :
  unit_draws rnd ->
  fst (getRandomPointInPolygon rnd [] k) = (JS.NaN, JS.NaN).
Proof.
  intro Hrnd.
  destruct (Hrnd k) as [R0 _]. destruct (Hrnd (S k)) as [S0 _].
  unfold getRandomPointInPolygon.
  cbn [getBoundingBox fold_left minLon maxLon minLat maxLat fst
       JS.sub JS.neg JS.add JS.mul].
  unfold JS.scale_inf.
  apply Qle_bool_iff in R0, S0. rewrite R0, S0.
  destruct (Qeq_bool (rnd k) 0), (Qeq_bool (rnd (S k)) 0); reflexivity.
Qed.

(** X19.  On the empty array every stored anomaly is located at
    [(NaN, NaN)], whatever the metrics and the draws of the unit
    interval, and the modal opened on it prints its location as
    "NaN, NaN". *)
Theorem empty_polygon_locations_are_NaN (cm : CarbonMetrics)
    (hook : bool) (w : World) :
  unit_draws rnd ->
  let w' := detectAnomalies rnd (contextOf [] cm) hook w in
  Forall (fun a =>
            location a = (JS.NaN, JS.NaN) /\
            forall p,
              option_map VerificationView.locationLabel
                (VerificationView.AnomalyDetailsModal
                   (VerificationView.onView a p))
              = Some "NaN, NaN"%string)
    (anomalies w').
Proof.
  intros Hrnd w'. subst w'.
  destruct (detectAnomalies_present rnd [] cm hook w) as (-> & _).
  destruct (detectedRecords_rules rnd [] cm (randomPos w))
    as (growth & fixed & -> & -> & _ & Hnone & Hthree).
  assert (Hlabel : forall a, location a = (JS.NaN, JS.NaN) ->
            location a = (JS.NaN, JS.NaN) /\
            forall p,
              option_map VerificationView.locationLabel
                (VerificationView.AnomalyDetailsModal
                   (VerificationView.onView a p))
              = Some "NaN, NaN"%string).
  { intros a Ha. split; [exact Ha |]. intro p.
    unfold VerificationView.onView, VerificationView.AnomalyDetailsModal.
    cbn. rewrite Ha. reflexivity. }
  apply Forall_app. split.
  - destruct (JS.Qltb 20 _); [| constructor].
    constructor; [| constructor]. apply Hlabel. reflexivity.
  - destruct (truthy (area cm)); [| rewrite Hnone by reflexivity; constructor].
    destruct (Hthree eq_refl) as (b & l & d & -> & _ & _ & _ & Lb & Ll & Ld).
    rewrite getRandomPointInPolygon_empty in Lb, Ll, Ld by exact Hrnd.
    repeat constructor; apply Hlabel; assumption.
Qed.

End DetectionExtras.

(* ================================================================== *)
(** ** The panel of the verification step *)

Section PanelExtras.

Import VerificationStep.
Import VerificationView.

Lemma shownInModal_spec (p : Panel) :
  shownInModal p
  = if showAnomalyDetails p then selectedAnomaly p else None.
Proof.
  unfold shownInModal, AnomalyDetailsModal.
  destruct (selectedAnomaly p), (showAnomalyDetails p); reflexivity.
Qed.

(** X21.  The open flag outlives the selection.  Moving the pointer off
    the markers hides the modal and leaves the flag as it was; a hover
    over a marker followed by a click shows that marker's anomaly; and
    once a marker was clicked, a hover off and then over another marker
    shows the other anomaly without a further click. *)
Theorem modal_follows_hover_once_opened (p : Panel) (a b : AnomalyInfo) :
  shownInModal (panelStep p (Hover None)) = None /\
  showAnomalyDetails (panelStep p (Hover None)) = showAnomalyDetails p /\
  shownInModal
    (fold_left panelStep
       [Hover (Some (pointFeature a)); ClickMarker] p) = Some a /\
  shownInModal
    (fold_left panelStep
       [Hover (Some (pointFeature a)); ClickMarker; Hover None;
        Hover (Some (pointFeature b))] p) = Some b.
Proof.
  rewrite !shownInModal_spec. cbn [fold_left panelStep].
  unfold onHover. rewrite !hover_pointFeature.
  cbn. destruct (showAnomalyDetails p); repeat split.
Qed.

Lemma hovers_keep_flag (hs : list (option Feature)) :
  forall p,
  showAnomalyDetails (fold_left panelStep (map Hover hs) p)
  = showAnomalyDetails p.
Proof.
  induction hs as [| h hs IH]; intro p; [reflexivity |].
  cbn [map fold_left]. rewrite IH. cbn [panelStep]. unfold onHover.
  destruct h as [f |]; [destruct (hoveredAnomaly f) |]; reflexivity.
Qed.

(** X22.  The View button of a row opens the modal on the anomaly of the
    row; closing keeps the selection; and after a close no sequence of
    hovers, over markers or off them, brings the modal back. *)
Theorem closed_modal_stays_closed_under_hover (p : Panel)
    (hs : list (option Feature)) :
  shownInModal (fold_left panelStep (map Hover hs) (panelStep p Close))
    = None /\
  selectedAnomaly (panelStep p Close) = selectedAnomaly p /\
  forall a, shownInModal (panelStep p (View a)) = Some a.
Proof.
  rewrite shownInModal_spec, hovers_keep_flag.
  split; [reflexivity | split; [reflexivity |]].
  intro a. rewrite shownInModal_spec. reflexivity.
Qed.

End PanelExtras.

(* ================================================================== *)
(** ** The widget *)

Section WidgetExtras.

Import Widget.

Lemma handleBack_step (m : bool) (st : State) :
  step (handleBack m st)
  = match step st with
    | draw => draw | measurement => draw
    | report => measurement | verification => report
    end.
Proof. unfold handleBack. destruct m, st as [[] cs]; reflexivity. Qed.

(** X23.  Going forward and then back returns to the step left: back
    after completing the drawing returns to the draw step and clears the
    drawings, after ending the drawing mode if it was on; back after
    creating the report or after proceeding to verification returns to
    the measurement or the report step and clears nothing. *)
Theorem forward_then_back (m : bool) (st : State) :
  step (handleBack m (handleCompleteDraw st)) = draw /\
  calls (handleBack m (handleCompleteDraw st))
    = calls st ++ (if m then [EndDrawingMode] else []) ++ [ClearDrawings] /\
  step (handleBack m (handleCreateReport st)) = measurement /\
  step (handleBack m (handleProceedToVerification st)) = report /\
  count_occ DrawingCall_eq_dec
    (calls (handleBack m (handleCreateReport st))) ClearDrawings
    = count_occ DrawingCall_eq_dec (calls st) ClearDrawings /\
  count_occ DrawingCall_eq_dec
    (calls (handleBack m (handleProceedToVerification st))) ClearDrawings
    = count_occ DrawingCall_eq_dec (calls st) ClearDrawings.
Proof.
  destruct m, st as [s cs]; cbn; rewrite <- ?app_assoc;
    repeat split; rewrite ?count_occ_app; cbn; lia.
Qed.

Lemma pressBack_cons (m : bool) (modes : list bool) (st : State) :
  pressBack (m :: modes) st = pressBack modes (handleBack m st).
Proof. reflexivity. Qed.

(** X24.  Presses of the back button walk the steps down one at a time
    and stop at the draw step: after [n] presses the step is [n] places
    earlier, or the draw step.  Along the way the drawing mode is ended
    once for every press made while it was on, and the drawings are
    cleared exactly once if the walk goes from a later step down to the
    draw step, and not at all otherwise. *)
Theorem pressBack_walks_to_draw (modes : list bool) :
  forall st : State,
  rank (step (pressBack modes st))
  = (rank (step st) - List.length modes)%nat /\
  exists new,
    calls (pressBack modes st) = calls st ++ new /\
    count_occ DrawingCall_eq_dec new EndDrawingMode
      = count_occ bool_dec modes true /\
    count_occ DrawingCall_eq_dec new ClearDrawings
      = (if (1 <=? rank (step st))%nat
            && (rank (step st) <=? List.length modes)%nat
         then 1 else 0)%nat.
Proof.
  induction modes as [| m modes IH]; intro st.
  - cbn. split; [lia |]. exists []. rewrite app_nil_r.
    split; [reflexivity |]. split; [reflexivity |].
    destruct (step st); reflexivity.
  - rewrite pressBack_cons.
    destruct (IH (handleBack m st)) as (Hrank & new & Hcalls & Hend & Hclear).
    rewrite handleBack_step in Hrank, Hclear.
    split.
    + rewrite Hrank. cbn [List.length]. destruct (step st); cbn; lia.
    + destruct st as [s cs]. cbn [step calls] in *.
      exists ((if m then [EndDrawingMode] else [])
              ++ match s with measurement => [ClearDrawings] | _ => [] end
              ++ new).
      split; [| split].
      * rewrite Hcalls.
        destruct m, s; cbn; rewrite <- ?app_assoc; reflexivity.
      * rewrite !count_occ_app, Hend. destruct m, s; cbn; lia.
      * rewrite !count_occ_app, Hclear. cbn [List.length].
        destruct m, s, modes; cbn; try lia.
Qed.

(** X25.  [Content] renders exactly one step component, the one of the
    current step; the back button is rendered exactly when a press of it
    would change the step; the metric layers control exactly when the
    metrics are set and the drawing mode is off; the layer control and
    the legend always. *)
Theorem content_shows_one_step (st : State) (drawingMode hasMetrics : bool)
    (useGeoJSON : completion (option GeoJSONContext)) :
  let view := Content st drawingMode hasMetrics useGeoJSON in
  filter isStepComponent view = [componentOf (step st)] /\
  (In BackButton view <->
   forall m, step (handleBack m st) <> step st) /\
  (In MetricLayersControl view
   <-> hasMetrics = true /\ drawingMode = false) /\
  In LULCLegend view /\
  In (GeoJSONLayerControl (boundLayers (bindGeoJSON useGeoJSON))
        (toggleGeojsonLayer (bindGeoJSON useGeoJSON))
        (setAllGeojsonLayers (bindGeoJSON useGeoJSON))) view.
Proof.
  intro view. subst view. unfold Content.
  destruct st as [s cs]. cbn [step].
  split; [| split; [| split; [| split]]].
  - destruct s, hasMetrics, drawingMode; reflexivity.
  - destruct s; cbn [isStep negb when app];
      (split; [intros H m; destruct m; cbn; try discriminate |
               intro H; try (now left)]).
    + exfalso. destruct H as [H | H]; [discriminate H |].
      destruct hasMetrics, drawingMode; cbn in H;
        intuition discriminate.
    + exfalso. destruct H as [H | H]; [discriminate H |].
      destruct hasMetrics, drawingMode; cbn in H;
        intuition discriminate.
    + exfalso. apply (H false). reflexivity.
  - destruct s, hasMetrics, drawingMode; cbn; intuition discriminate.
  - destruct s, hasMetrics, drawingMode; cbn; tauto.
  - destruct s, hasMetrics, drawingMode; cbn; tauto.
Qed.

(** X26.  The guarded use of the GeoJSON context never fails: a hook that
    throws is answered by one console warning, no layers and do-nothing
    handlers; a hook that returns nothing by no layers and do-nothing
    handlers without a warning; a context binds its two handlers even
    when it has no layer list, which then counts as empty. *)
Theorem bindGeoJSON_degrades
    (useGeoJSON : completion (option GeoJSONContext)) :
  let geo := bindGeoJSON useGeoJSON in
  (warnings geo <> [] <-> exists e, useGeoJSON = Throw e) /\
  (toggleGeojsonLayer geo = FromContext <->
   exists ctx, useGeoJSON = Normal (Some ctx)) /\
  setAllGeojsonLayers geo = toggleGeojsonLayer geo /\
  (forall ctx, useGeoJSON = Normal (Some ctx) ->
     boundLayers geo
     = match geojsonLayers ctx with
       | Some layers => layers
       | None => []
       end) /\
  ((forall ctx, useGeoJSON <> Normal (Some ctx)) -> boundLayers geo = []).
Proof.
  destruct useGeoJSON as [[ctx |] | e]; cbn.
  - repeat split; try congruence.
    + intros (e & H). discriminate H.
    + intros _. now exists ctx.
    + intros c H. injection H as <-. reflexivity.
    + intro H. exfalso. exact (H ctx eq_refl).
  - repeat split; try congruence; try discriminate.
    + intros (e & H). discriminate H.
    + intros (c & H). discriminate H.
  - repeat split; try congruence; try discriminate.
    + intros _. now exists e.
    + intros (c & H). discriminate H.
Qed.

End WidgetExtras.

(* ================================================================== *)
(** ** Instances *)

Section ExtraInstances.

Import VerificationStep.

Lemma generate_nothing_for_nonpositive_count_witness :
  - (1) <= 0 /\
  AnomalyLayer.generateDummyAnomalies halfDraws (Some unitSquare)
    (Some (- (1))) 7%nat = (Normal [], 7%nat).
Proof.
  split; [unfold Qle; simpl; lia |].
  apply (generate_nothing_for_nonpositive_count halfDraws
           (Some unitSquare) (- (1)) 7%nat).
  unfold Qle; simpl; lia.
Defined.

Lemma generate_ids_and_draws_witness :
  unit_draws halfDraws /\
  exists l,
    AnomalyLayer.generateDummyAnomalies halfDraws None (Some 2.5) 0%nat
      = (Normal l, 12%nat) /\
    List.length l = 3%nat /\
    map AnomalyLayer.id l = [1; 2; 3]%Z.
Proof.
  assert (H : unit_draws halfDraws).
  { intro k. split; [unfold Qle | unfold Qlt]; simpl; lia. }
  split; [exact H |].
  exact (generate_ids_and_draws halfDraws H None (Some 2.5) 0%nat).
Defined.

Lemma description_follows_type_witness :
  unit_draws halfDraws /\
  exists l k',
    AnomalyLayer.generateDummyAnomalies halfDraws None None 0%nat
      = (Normal l, k') /\
    Forall (fun a =>
              In {| AnomalyLayer.type_name := AnomalyLayer.type a;
                    AnomalyLayer.type_description :=
                      AnomalyLayer.description a |}
                 AnomalyLayer.anomalyTypes) l /\
    (forall a b, In a l -> In b l ->
       AnomalyLayer.type a = AnomalyLayer.type b ->
       AnomalyLayer.description a = AnomalyLayer.description b).
Proof.
  assert (H : unit_draws halfDraws).
  { intro k. split; [unfold Qle | unfold Qlt]; simpl; lia. }
  split; [exact H |].
  exact (description_follows_type halfDraws H None None 0%nat).
Defined.

Lemma one_marker_highlighted_witness :
  unit_draws halfDraws /\
  exists l k',
    AnomalyLayer.generateDummyAnomalies halfDraws None None 0%nat
      = (Normal l, k') /\
    List.length
      (filter (fun d =>
                 (AnomalyDetectionLayer.getLineWidth
                    (AnomalyDetectionLayer.selectedOf
                       {| AnomalyDetectionLayer.anomalies := Some l;
                          AnomalyDetectionLayer.selectedId := Some 3%Z |})
                    d =? 2)%Z) l)
    = 1%nat.
Proof.
  assert (H : unit_draws halfDraws).
  { intro k. split; [unfold Qle | unfold Qlt]; simpl; lia. }
  split; [exact H |].
  exact (one_marker_highlighted halfDraws H None None 0%nat (Some 3%Z)).
Defined.

Lemma rendered_radius_is_lookup_witness :
  unit_draws halfDraws /\
  exists l k',
    AnomalyLayer.generateDummyAnomalies halfDraws None None 0%nat
      = (Normal l, k') /\
    Forall (fun d => exists s,
              AnomalyLayer.severity d = Some s /\
              AnomalyDetectionLayer.getRadius d = AnomalyLayer.radiusMap s) l.
Proof.
  assert (H : unit_draws halfDraws).
  { intro k. split; [unfold Qle | unfold Qlt]; simpl; lia. }
  split; [exact H |].
  exact (rendered_radius_is_lookup halfDraws H None None 0%nat).
Defined.

Lemma getBoundingBox_ignores_order_and_repeats_witness :
  (forall pt, In pt unitSquare <-> In pt ((2, 2) :: rev unitSquare)) /\
  box_eqv (getBoundingBox unitSquare)
          (getBoundingBox ((2, 2) :: rev unitSquare)).
Proof.
  assert (H : forall pt,
            In pt unitSquare <-> In pt ((2, 2) :: rev unitSquare)).
  { intro pt. simpl. tauto. }
  split; [exact H |].
  exact (getBoundingBox_ignores_order_and_repeats unitSquare
           ((2, 2) :: rev unitSquare) H).
Defined.

Lemma reruns_accumulate_registrations_witness :
  truthy (area sampleMetrics) = true /\
  let w' := rerun halfDraws (contextOf unitSquare sampleMetrics)
              true 3 mounted in
  List.length (registered w') = (List.length (registered mounted) + 6)%nat /\
  ((0 < 3)%nat ->
   map layer_id (anomalyLayersRef w')
   = ["anomaly-areas"%string; "anomaly-points"%string]) /\
  randomPos w' = (randomPos mounted + 18)%nat.
Proof.
  split; [reflexivity |].
  apply (reruns_accumulate_registrations halfDraws unitSquare sampleMetrics
           true 3 mounted).
  reflexivity.
Defined.

Lemma single_vertex_polygon_collapses_witness :
  unit_draws halfDraws /\
  Forall (fun a => exists x y, location a = (JS.Fin x, JS.Fin y) /\
                               x == 3 /\ y == 4)
    (anomalies (detectAnomalies halfDraws
                  (contextOf [(3, 4)] sampleMetrics) true mounted)).
Proof.
  assert (H : unit_draws halfDraws).
  { intro k. split; [unfold Qle | unfold Qlt]; simpl; lia. }
  split; [exact H |].
  exact (single_vertex_polygon_collapses halfDraws (3, 4) sampleMetrics
           true mounted H).
Defined.

Lemma empty_polygon_locations_are_NaN_witness :
  unit_draws halfDraws /\
  Forall (fun a =>
            location a = (JS.NaN, JS.NaN) /\
            forall p,
              option_map VerificationView.locationLabel
                (VerificationView.AnomalyDetailsModal
                   (VerificationView.onView a p))
              = Some "NaN, NaN"%string)
    (anomalies (detectAnomalies halfDraws (contextOf [] sampleMetrics)
                  true mounted)).
Proof.
  assert (H : unit_draws halfDraws).
  { intro k. split; [unfold Qle | unfold Qlt]; simpl; lia. }
  split; [exact H |].
  exact (empty_polygon_locations_are_NaN halfDraws sampleMetrics
           true mounted H).
Defined.

Lemma detectAnomalies_absent_witness :
  (getDrawnArea {| carbonMetrics := Some sampleMetrics;
                   getDrawnArea := Some None |} = None \/
   getDrawnArea {| carbonMetrics := Some sampleMetrics;
                   getDrawnArea := Some None |} = Some None \/
   carbonMetrics {| carbonMetrics := Some sampleMetrics;
                    getDrawnArea := Some None |} = None) /\
  let w := detectAnomalies halfDraws (contextOf unitSquare sampleMetrics)
             true mounted in
  detectAnomalies halfDraws
    {| carbonMetrics := Some sampleMetrics; getDrawnArea := Some None |}
    true w = w.
Proof.
  split; [right; left; reflexivity |].
  apply (detectAnomalies_absent halfDraws
           {| carbonMetrics := Some sampleMetrics;
              getDrawnArea := Some None |} true).
  right; left; reflexivity.
Defined.

(** The modal on the growth anomaly of the sample run. *)
Example modal_of_sample :
  let w := detectAnomalies halfDraws (contextOf unitSquare sampleMetrics)
             true mounted in
  option_map
    (fun m => (VerificationView.idLabel m, VerificationView.locationLabel m,
               VerificationView.dotClass m))
    (VerificationView.AnomalyDetailsModal
       (fold_left panelStep
          (map (fun a => View a) (firstn 1 (anomalies w)))
          VerificationView.initialPanel))
  = Some ("#1"%string, "1.00000, 1.00000"%string, "bg-red-500"%string).
Proof. vm_compute. reflexivity. Qed.

End ExtraInstances.

(* ================================================================== *)
(** ** Binary64: rounding *)

Section Rounding.

Import Binary64.

Lemma pow2_pos (e : Z) : 0 < pow2 e.
Proof. unfold pow2. apply Qpower_0_lt. reflexivity. Qed.

Lemma pow2_add (a b : Z) : pow2 (a + b) == pow2 a * pow2 b.
Proof. unfold pow2. apply Qpower_plus. discriminate. Qed.

Lemma pow2_succ (a : Z) : pow2 (a + 1) == 2 * pow2 a.
Proof. rewrite pow2_add. change (pow2 1) with 2. ring. Qed.

Lemma pow2_le (a b : Z) : (a <= b)%Z -> pow2 a <= pow2 b.
Proof.
  intro H. unfold pow2. apply Qpower_le_compat_l; [exact H | discriminate].
Qed.

Lemma pow2_Z (n : Z) : (0 <= n)%Z -> inject_Z (2 ^ n) == pow2 n.
Proof. intro H. unfold pow2. rewrite Zpower_Qpower by exact H. reflexivity. Qed.

(** [x] as the quotient of its numerator and denominator. *)
Lemma Qabs_quotient (x : Q) :
  Qabs x * inject_Z (Z.pos (Qden x)) == inject_Z (Z.abs (Qnum x)).
Proof.
  destruct x as [n d]. unfold Qabs, Qeq, Qmult, inject_Z; simpl. lia.
Qed.

Lemma log2_bounds (n : Z) :
  (0 < n)%Z ->
  pow2 (Z.log2 n) <= inject_Z n /\ inject_Z n < pow2 (Z.log2 n + 1).
Proof.
  intro Hn.
  pose proof (Z.log2_nonneg n) as H0.
  destruct (Z.log2_spec n Hn) as [Hlo Hhi].
  rewrite <- !pow2_Z by lia.
  rewrite <- Zle_Qle, <- Zlt_Qlt.
  replace (Z.succ (Z.log2 n)) with (Z.log2 n + 1)%Z in Hhi by lia.
  split; assumption.
Qed.

Lemma mag_spec (x : Q) :
  ~ x == 0 -> pow2 (mag x - 1) <= Qabs x /\ Qabs x < pow2 (mag x).
Proof.
  intro Hx.
  assert (Hn : (0 < Z.abs (Qnum x))%Z).
  { destruct x as [n d]. unfold Qeq in Hx; simpl in *. lia. }
  destruct (log2_bounds _ Hn) as [N1 N2].
  destruct (log2_bounds (Z.pos (Qden x)) eq_refl) as [D1 D2].
  pose proof (Qabs_quotient x) as Hq.
  set (n := inject_Z (Z.abs (Qnum x))) in *.
  set (d := inject_Z (Z.pos (Qden x))) in *.
  set (a := Z.log2 (Z.abs (Qnum x))) in *.
  set (b := Z.log2 (Z.pos (Qden x))) in *.
  assert (Hd : 0 < d) by (unfold d; reflexivity).
  unfold mag. fold a b.
  pose proof (pow2_pos (a - b)) as P0.
  pose proof (pow2_pos b) as Pb.
  assert (Ea : pow2 a == pow2 (a - b) * pow2 b).
  { rewrite <- pow2_add. replace (a - b + b)%Z with a by lia. reflexivity. }
  rewrite pow2_succ in D2, N2.
  destruct (Qle_bool (pow2 (a - b)) (Qabs x)) eqn:E.
  - apply Qle_bool_iff in E.
    replace (a - b + 1 - 1)%Z with (a - b)%Z by lia.
    split; [exact E |].
    rewrite pow2_succ.
    apply Qmult_lt_r with d; [exact Hd |]. rewrite Hq.
    apply Qlt_le_trans with (2 * pow2 a); [exact N2 |].
    rewrite Ea. nra.
  - assert (E' : Qabs x < pow2 (a - b)).
    { apply Qnot_le_lt. intro H. apply Qle_bool_iff in H. congruence. }
    split; [| exact E'].
    assert (E1 : pow2 (a - b) == 2 * pow2 (a - b - 1)).
    { rewrite <- pow2_succ. replace (a - b - 1 + 1)%Z with (a - b)%Z by lia.
      reflexivity. }
    pose proof (pow2_pos (a - b - 1)) as P1.
    apply Qmult_le_r with d; [exact Hd |]. rewrite Hq.
    apply Qle_trans with (pow2 a); [| exact N1].
    rewrite Ea, E1. nra.
Qed.

Lemma rne_error (y : Q) : Qabs (inject_Z (rne y) - y) <= 1 # 2.
Proof.
  unfold rne.
  pose proof (Qfloor_le y) as Hlo. pose proof (Qlt_floor y) as Hhi.
  rewrite inject_Z_plus in Hhi. change (inject_Z 1) with 1 in Hhi.
  set (f := Qfloor y) in *.
  destruct (Qcompare_spec (y - inject_Z f) (1 # 2)) as [E | E | E].
  - destruct (Z.even f);
      [| rewrite inject_Z_plus; change (inject_Z 1) with 1];
      apply Qabs_Qle_condition; split; lra.
  - apply Qabs_Qle_condition; split; lra.
  - rewrite inject_Z_plus; change (inject_Z 1) with 1.
    apply Qabs_Qle_condition; split; lra.
Qed.

Lemma rne_sign (y : Q) :
  (0 <= y -> (0 <= rne y)%Z) /\ (y <= 0 -> (rne y <= 0)%Z).
Proof.
  unfold rne.
  pose proof (Qfloor_le y) as Hlo. pose proof (Qlt_floor y) as Hhi.
  rewrite inject_Z_plus in Hhi. change (inject_Z 1) with 1 in Hhi.
  split; intro H.
  - assert (H0 : (0 <= Qfloor y)%Z).
    { change 0%Z with (Qfloor 0). apply Qfloor_resp_le. exact H. }
    destruct (Qcompare _ _); [destruct (Z.even _) | |]; lia.
  - destruct (Qcompare_spec (y - inject_Z (Qfloor y)) (1 # 2)) as [E | E | E].
    + assert (inject_Z (Qfloor y) < inject_Z 0)
        by (change (inject_Z 0) with 0; lra).
      rewrite <- Zlt_Qlt in H0. destruct (Z.even _); lia.
    + assert (inject_Z (Qfloor y) <= inject_Z 0)
        by (change (inject_Z 0) with 0; lra).
      rewrite <- Zle_Qle in H0. exact H0.
    + assert (inject_Z (Qfloor y) < inject_Z 0)
        by (change (inject_Z 0) with 0; lra).
      rewrite <- Zlt_Qlt in H0. lia.
Qed.

(** The value [round64] computes for a number other than zero. *)
Lemma round64_nonzero (x : Q) :
  ~ x == 0 ->
  round64 x
  == inject_Z (rne (x / pow2 (fexp (mag x)))) * pow2 (fexp (mag x)).
Proof.
  intro Hx. unfold round64.
  destruct (Qeq_bool x 0) eqn:E.
  - apply Qeq_bool_iff in E. contradiction.
  - cbv zeta. apply Qred_correct.
Qed.

Lemma round64_zero (x : Q) : x == 0 -> round64 x = 0.
Proof.
  intro Hx. unfold round64. apply Qeq_bool_iff in Hx. rewrite Hx. reflexivity.
Qed.

(** The result of a rounding is a binary64 datum, before overflow: a
    significand of at most 53 bits times a power of two from [2^-1074]
    on. *)
Lemma round64_format (x : Q) :
  exists m e : Z,
    round64 x == inject_Z m * pow2 e /\
    (-1074 <= e)%Z /\ (Z.abs m <= 2 ^ 53)%Z.
Proof.
  destruct (Qeq_dec x 0) as [Hx | Hx].
  - exists 0%Z, 0%Z. rewrite (round64_zero x Hx).
    split; [reflexivity | split; lia].
  - exists (rne (x / pow2 (fexp (mag x)))), (fexp (mag x)).
    split; [apply round64_nonzero; exact Hx |].
    split; [unfold fexp; lia |].
    destruct (mag_spec x Hx) as [_ Hhi].
    set (e := fexp (mag x)).
    assert (He : (mag x <= e + 53)%Z) by (unfold e, fexp; lia).
    pose proof (pow2_pos e) as Pe.
    assert (Hy : Qabs (x / pow2 e) < pow2 53).
    { unfold Qdiv. rewrite Qabs_Qmult.
      rewrite (Qabs_pos (/ pow2 e))
        by (apply Qlt_le_weak, Qinv_lt_0_compat; exact Pe).
      apply Qlt_shift_div_r; [exact Pe |].
      apply Qlt_le_trans with (pow2 (mag x)); [exact Hhi |].
      rewrite <- pow2_add. apply pow2_le. lia. }
    set (y := x / pow2 e) in *.
    assert (Hlo : - pow2 53 < y /\ y < pow2 53).
    { destruct (Qabs_Qle_condition y (pow2 53)) as [H _].
      split.
      - apply Qnot_le_lt. intro H1.
        assert (Qabs y == - y) by (apply Qabs_neg; pose proof (pow2_pos 53); lra).
        lra.
      - apply Qle_lt_trans with (Qabs y); [apply Qle_Qabs | exact Hy]. }
    destruct Hlo as [Hl Hh].
    rewrite <- pow2_Z in Hl, Hh by lia.
    pose proof (Qfloor_le y) as F1. pose proof (Qlt_floor y) as F2.
    assert (G1 : (- 2 ^ 53 <= Qfloor y)%Z).
    { apply Z.lt_succ_r. rewrite Zlt_Qlt.
      eapply Qlt_trans; [| exact F2].
      rewrite <- inject_Z_opp in Hl.
      replace (Z.succ (Qfloor y)) with (Qfloor y + 1)%Z by lia.
      exact Hl. }
    assert (G2 : (Qfloor y < 2 ^ 53)%Z).
    { rewrite Zlt_Qlt. eapply Qle_lt_trans; [exact F1 | exact Hh]. }
    unfold rne. fold y.
    destruct (Qcompare _ _); [destruct (Z.even _) | |]; lia.
Qed.

(** The rounding error is at most half a unit in the last place. *)
Lemma round64_ulp (x : Q) :
  ~ x == 0 ->
  Qabs (round64 x - x) <= (1 # 2) * pow2 (fexp (mag x)).
Proof.
  intro Hx. rewrite (round64_nonzero x Hx).
  set (p := pow2 (fexp (mag x))).
  assert (Hp : 0 < p) by apply pow2_pos.
  pose proof (rne_error (x / p)) as H.
  set (m := inject_Z (rne (x / p))) in *.
  assert (E : m * p - x == (m - x / p) * p) by (field; lra).
  rewrite E, Qabs_Qmult, (Qabs_pos p) by lra.
  apply Qmult_le_compat_r; [exact H | lra].
Qed.

(** The relative error of a rounding is at most [2^-53], up to half the
    least positive binary64 number. *)
Lemma round64_error (x : Q) :
  Qabs (round64 x - x) <= Qabs x * pow2 (-53) + pow2 (-1075).
Proof.
  pose proof (Qabs_nonneg x) as Hx0.
  pose proof (pow2_pos (-53)) as P53. pose proof (pow2_pos (-1075)) as Peta.
  destruct (Qeq_dec x 0) as [Hx | Hx].
  - rewrite (round64_zero x Hx).
    assert (E : 0 - x == 0) by lra. rewrite E. simpl Qabs. nra.
  - apply Qle_trans with ((1 # 2) * pow2 (fexp (mag x)));
      [apply round64_ulp; exact Hx |].
    destruct (mag_spec x Hx) as [Hlo _].
    unfold fexp.
    destruct (Z.max_spec (mag x - 53) (-1074)) as [[_ ->] | [_ ->]].
    + change ((1 # 2) * pow2 (-1074)) with (pow2 (-1075)).
      nra.
    + replace (mag x - 53)%Z with ((mag x - 1) + (-53) + 1)%Z by lia.
      rewrite pow2_succ, pow2_add.
      set (a := pow2 (mag x - 1)) in *. nra.
Qed.

Lemma round64_sign (x : Q) :
  (0 <= x -> 0 <= round64 x) /\ (x <= 0 -> round64 x <= 0).
Proof.
  destruct (Qeq_dec x 0) as [Hx | Hx].
  - rewrite (round64_zero x Hx). split; intros _; apply Qle_refl.
  - rewrite (round64_nonzero x Hx).
    set (p := pow2 (fexp (mag x))).
    assert (Hp : 0 < p) by apply pow2_pos.
    destruct (rne_sign (x / p)) as [Hpos Hneg].
    split; intro H.
    + assert (Hq : 0 <= x / p) by (apply Qle_shift_div_l; lra).
      specialize (Hpos Hq). rewrite Zle_Qle in Hpos.
      change (inject_Z 0) with 0 in Hpos. nra.
    + assert (Hq : x / p <= 0) by (apply Qle_shift_div_r; lra).
      specialize (Hneg Hq). rewrite Zle_Qle in Hneg.
      change (inject_Z 0) with 0 in Hneg. nra.
Qed.

End Rounding.

Section Rounding2.

Import Binary64.

Lemma eps_value : pow2 (-53) == 1 # 9007199254740992.
Proof. vm_compute. reflexivity. Qed.

Lemma eta_small : pow2 (-1075) <= 1 # 1606938044258990275541962092341162602522202993782792835301376.
Proof.
  apply Qle_trans with (pow2 (-200)); [apply pow2_le; lia |].
  vm_compute. discriminate.
Qed.

(** A bound on the argument bounds the rounding error and the result. *)
Lemma round64_bound (x B : Q) :
  Qabs x <= B ->
  Qabs (round64 x - x) <= B * pow2 (-53) + pow2 (-1075) /\
  Qabs (round64 x) <= B * (1 + pow2 (-53)) + pow2 (-1075).
Proof.
  intro HB.
  pose proof (round64_error x) as He.
  pose proof (pow2_pos (-53)) as P53.
  assert (H1 : Qabs (round64 x - x) <= B * pow2 (-53) + pow2 (-1075)).
  { eapply Qle_trans; [exact He |]. nra. }
  split; [exact H1 |].
  assert (E : round64 x == (round64 x - x) + x) by ring.
  rewrite E at 1.
  eapply Qle_trans; [apply Qabs_triangle |]. lra.
Qed.

(** Below [2^1023 + 1] in magnitude a rounding does not overflow. *)
Lemma fl_Fin (x : Q) :
  Qabs x <= pow2 1023 + 1 -> fl x = JS.Fin (round64 x).
Proof.
  intro Hx.
  destruct (round64_bound x _ Hx) as [_ Hb].
  pose proof eps_value as Ee. pose proof eta_small as Et.
  pose proof (pow2_succ 1023) as E24. change (1023 + 1)%Z with 1024%Z in E24.
  assert (HM : 1024 <= pow2 1023).
  { apply Qle_trans with (pow2 10); [vm_compute; discriminate |].
    apply pow2_le; lia. }
  apply Qabs_Qle_condition in Hb. destruct Hb as [Hlo Hhi].
  set (M := pow2 1023) in *. set (y := round64 x) in *.
  set (e := pow2 (-53)) in *. set (t := pow2 (-1075)) in *.
  unfold fl. fold y.
  assert (F1 : Qle_bool (pow2 1024) y = false).
  { destruct (Qle_bool (pow2 1024) y) eqn:E; [| reflexivity].
    apply Qle_bool_iff in E. rewrite E24 in E. fold M in E. nra. }
  assert (F2 : Qle_bool y (- pow2 1024) = false).
  { destruct (Qle_bool y (- pow2 1024)) eqn:E; [| reflexivity].
    apply Qle_bool_iff in E. rewrite E24 in E. fold M in E. nra. }
  rewrite F1, F2. reflexivity.
Qed.

(** [Binary64] against the specification of the Standard Library on the
    computations of the examples below: the literals 0.02, 0.005 and
    0.1, the differences [1 - 0.02], [1 - 0.005] and [0.5104 - 0.02],
    the mean [(0 + 0.1 + 0.1 + 0.1) / 3] and the percentage
    [268.6 / (1611.6 - 268.6) * 100]. *)
Example binary64_agrees_with_specification :
  Binary64.eqb (IEEE754.ofSpec (IEEE754.decimal 2 100))
    (Binary64.literal 0.02) = true /\
  Binary64.eqb (IEEE754.ofSpec (IEEE754.decimal 5 1000))
    (Binary64.literal 0.005) = true /\
  Binary64.eqb (IEEE754.ofSpec (IEEE754.decimal 1 10))
    (Binary64.literal 0.1) = true /\
  Binary64.eqb
    (IEEE754.ofSpec
       (IEEE754.sub (IEEE754.ofInt 1) (IEEE754.decimal 2 100)))
    (Binary64.sub (JS.Fin 1) (Binary64.literal 0.02)) = true /\
  Binary64.eqb
    (IEEE754.ofSpec
       (IEEE754.sub (IEEE754.ofInt 1) (IEEE754.decimal 5 1000)))
    (Binary64.sub (JS.Fin 1) (Binary64.literal 0.005)) = true /\
  Binary64.eqb
    (IEEE754.ofSpec
       (IEEE754.sub (IEEE754.decimal 5104 10000) (IEEE754.decimal 2 100)))
    (Binary64.sub (Binary64.literal 0.5104) (Binary64.literal 0.02))
  = true /\
  Binary64.eqb
    (IEEE754.ofSpec
       (IEEE754.div
          (IEEE754.add
             (IEEE754.add
                (IEEE754.add (IEEE754.ofInt 0) (IEEE754.decimal 1 10))
                (IEEE754.decimal 1 10))
             (IEEE754.decimal 1 10))
          (IEEE754.ofInt 3)))
    (Binary64.div
       (Binary64.add
          (Binary64.add
             (Binary64.add (JS.Fin 0) (Binary64.literal 0.1))
             (Binary64.literal 0.1))
          (Binary64.literal 0.1))
       (JS.Fin 3)) = true /\
  Binary64.eqb
    (IEEE754.ofSpec
       (IEEE754.mul
          (IEEE754.div (IEEE754.decimal 2686 10)
             (IEEE754.sub (IEEE754.decimal 16116 10)
                (IEEE754.decimal 2686 10)))
          (IEEE754.ofInt 100)))
    (Binary64.mul
       (Binary64.div (Binary64.literal 268.6)
          (Binary64.sub (Binary64.literal 1611.6) (Binary64.literal 268.6)))
       (JS.Fin 100)) = true.
Proof. vm_compute. repeat split. Qed.

End Rounding2.

Section Layer64.

Import Binary64.

Lemma big_enough : 1024 <= pow2 1023.
Proof.
  apply Qle_trans with (pow2 10); [vm_compute; discriminate |].
  apply pow2_le; lia.
Qed.

(** One rounded operation on an argument bounded by [B]. *)
Lemma round_Fin (x B : Q) :
  Qabs x <= B -> B <= pow2 1023 + 1 ->
  round (JS.Fin x) = JS.Fin (round64 x) /\
  Qabs (round64 x - x)
    <= B * (1 # 9007199254740992) + pow2 (-1075) /\
  Qabs (round64 x)
    <= B * (1 + (1 # 9007199254740992)) + pow2 (-1075).
Proof.
  intros HB HM. split.
  - apply fl_Fin. lra.
  - rewrite <- eps_value. apply round64_bound. exact HB.
Qed.

Lemma literal_half : literal 0.5 = JS.Fin (1 # 2).
Proof. vm_compute. reflexivity. Qed.

Lemma scale_value :
  AnomalyLayer64.scale = JS.Fin (5764607523034235 # 288230376151711744).
Proof. vm_compute. reflexivity. Qed.

(** The offset [(Math.random() - 0.5) * scale * 2] is finite and at most
    [0.02 + 2^-56] in magnitude. *)
Lemma offset_bound (r : Q) :
  0 <= r -> r <= 1 - pow2 (-53) ->
  exists o,
    mul (mul (sub (JS.Fin r) (literal 0.5)) AnomalyLayer64.scale) (JS.Fin 2)
    = JS.Fin o /\
    Qabs o <= 0.02 + (1 # 72057594037927936).
Proof.
  intros H0 H1.
  pose proof eps_value as Ee. pose proof eta_small as Et.
  pose proof big_enough as HM.
  pose proof (pow2_pos (-1075)) as Tpos.
  rewrite literal_half, scale_value.
  unfold sub, mul. cbn [JS.sub JS.neg JS.add].
  destruct (round_Fin (r + - (1 # 2)) (1 # 2)) as (-> & _ & B1);
    [rewrite eps_value in H1; apply Qabs_Qle_condition; split; lra | lra64 |].
  cbn [JS.mul].
  set (y1 := round64 (r + - (1 # 2))) in *.
  set (s := 5764607523034235 # 288230376151711744) in *.
  assert (Hs : s == 5764607523034235 # 288230376151711744) by reflexivity.
  assert (A1 : Qabs (y1 * s)
               <= ((1 # 2) * (1 + (1 # 9007199254740992)) + pow2 (-1075)) * s).
  { rewrite Qabs_Qmult. rewrite (Qabs_pos s) by (rewrite Hs; discriminate).
    apply Qmult_le_compat_r; [exact B1 | rewrite Hs; discriminate]. }
  destruct (round_Fin (y1 * s) _ A1) as (-> & _ & B2); [rewrite Hs; lra64 |].
  cbn [JS.mul].
  set (y2 := round64 (y1 * s)) in *.
  assert (A2 : Qabs (y2 * 2)
               <= ((((1 # 2) * (1 + (1 # 9007199254740992))
                     + pow2 (-1075)) * s)
                   * (1 + (1 # 9007199254740992)) + pow2 (-1075)) * 2).
  { rewrite Qabs_Qmult. change (Qabs 2) with 2.
    apply Qmult_le_compat_r; [exact B2 | discriminate]. }
  destruct (round_Fin (y2 * 2) _ A2) as (-> & _ & B3); [rewrite Hs; lra64 |].
  eexists. split; [reflexivity |].
  eapply Qle_trans; [exact B3 |]. rewrite Hs. lra64.
Qed.

(** A coordinate of the center plus an offset. *)
Lemma position_bound (c o : Q) :
  Qabs c <= pow2 1023 ->
  Qabs o <= 0.02 + (1 # 72057594037927936) ->
  exists x,
    add (JS.Fin c) (JS.Fin o) = JS.Fin x /\ rounded_within 0.02 c x.
Proof.
  intros Hc Ho.
  pose proof eta_small as Et.
  unfold add. cbn [JS.add].
  assert (A : Qabs (c + o) <= Qabs c + (0.02 + (1 # 72057594037927936))).
  { eapply Qle_trans; [apply Qabs_triangle |]. lra. }
  destruct (round_Fin (c + o) _ A) as (-> & E & _); [lra64 |].
  eexists. split; [reflexivity |].
  unfold rounded_within. rewrite eps_value.
  assert (Eq : round64 (c + o) - c == (round64 (c + o) - (c + o)) + o) by ring.
  rewrite Eq. eapply Qle_trans; [apply Qabs_triangle |].
  pose proof (Qabs_nonneg c). lra64.
Qed.

(** The index [Math.floor(Math.random() * arr.length)] is an integer in
    range, for an array of up to 1024 elements. *)
Lemma floor_index {A : Type} (l : list A) (r : Q) :
  l <> [] -> JS.length l <= 1024 ->
  0 <= r -> r <= 1 - pow2 (-53) ->
  exists i : Z,
    (0 <= i < Z.of_nat (List.length l))%Z /\
    item l (floor (mul (JS.Fin r) (JS.Fin (JS.length l)))) = JS.index l i.
Proof.
  intros Hl Hshort H0 H1. rewrite eps_value in H1.
  pose proof eta_small as Et.
  pose proof (length_pos l Hl) as Hn.
  assert (Hn1 : 1 <= JS.length l).
  { unfold JS.length in *. change 1 with (inject_Z 1).
    change 0 with (inject_Z 0) in Hn.
    rewrite <- Zle_Qle. rewrite <- Zlt_Qlt in Hn. lia. }
  unfold mul. cbn [JS.mul].
  assert (Hx : r * JS.length l
               <= (1 - (1 # 9007199254740992)) * JS.length l)
    by (apply Qmult_le_compat_r; lra).
  assert (Hrn : 0 <= r * JS.length l) by nra.
  destruct (round_Fin (r * JS.length l) 1024) as (-> & He & _);
    [rewrite Qabs_pos by exact Hrn; lra
    | pose proof big_enough; lra64 |].
  clear He. pose proof (round64_error (r * JS.length l)) as He.
  rewrite eps_value in He.
  destruct (round64_sign (r * JS.length l)) as [Hs _].
  specialize (Hs Hrn).
  rewrite (Qabs_pos (r * JS.length l)) in He by exact Hrn.
  apply Qabs_Qle_condition in He. destruct He as [_ He].
  set (y := round64 (r * JS.length l)) in *.
  assert (Hlt : y < JS.length l).
  { set (x := r * JS.length l) in *.
    set (n := JS.length l) in *. lra64. }
  exists (Qfloor y). split.
  - split.
    + change 0%Z with (Qfloor 0). apply Qfloor_resp_le. exact Hs.
    + rewrite Zlt_Qlt. fold (JS.length l).
      apply Qle_lt_trans with y; [apply Qfloor_le | exact Hlt].
  - unfold floor, item. rewrite Qfloor_Z.
    rewrite (proj2 (Qeq_bool_iff _ _) (Qeq_refl _)). reflexivity.
Qed.

End Layer64.

(* ================================================================== *)
(** ** Binary64: finite results *)

Section Finite64.

Import Binary64.

Lemma pow2_900_1023 :
  1 <= pow2 900 /\ pow2 1023 == 10633823966279326983230456482242756608 * pow2 900.
Proof.
  split.
  - change 1 with (pow2 0). apply pow2_le. lia.
  - change 1023%Z with (123 + 900)%Z. rewrite pow2_add.
    apply Qmult_comp; [vm_compute; reflexivity | reflexivity].
Qed.

(** The rounded sum of up to [2^50] numbers of magnitude at most [M] is
    finite, at most twice the number of terms times [M + 1]. *)
Lemma sum64_bound (l : list Q) (M : Q) :
  0 <= M -> M <= pow2 900 ->
  (forall x, In x l -> Qabs x <= M) ->
  forall (k : nat) (a : Q),
    (Z.of_nat (k + List.length l) <= 2 ^ 50)%Z ->
    Qabs a <= 2 * inject_Z (Z.of_nat k) * (M + 1) ->
    exists s,
      fold_left (fun sum x => add sum (JS.Fin x)) l (JS.Fin a) = JS.Fin s /\
      Qabs s <= 2 * inject_Z (Z.of_nat (k + List.length l)) * (M + 1).
Proof.
  intros HM0 HM Hl.
  destruct pow2_900_1023 as [P9 P1023].
  pose proof eta_small as Et. pose proof (pow2_pos (-1075)) as Tpos.
  induction l as [| x l IH]; intros k a Hk Ha.
  - exists a. split; [reflexivity |].
    cbn [List.length]. rewrite Nat.add_0_r. exact Ha.
  - cbn [fold_left]. unfold add at 2. cbn [JS.add].
    assert (Hx : Qabs x <= M) by (apply Hl; now left).
    cbn [List.length] in Hk.
    assert (HK : inject_Z (Z.of_nat k) <= 1125899906842624).
    { change 1125899906842624 with (inject_Z (2 ^ 50)).
      rewrite <- Zle_Qle. lia. }
    assert (HK0 : 0 <= inject_Z (Z.of_nat k)).
    { change 0 with (inject_Z 0). rewrite <- Zle_Qle. lia. }
    set (K := inject_Z (Z.of_nat k)) in *.
    assert (HP : K * (M + 1) <= 1125899906842624 * (M + 1))
      by (apply Qmult_le_compat_r; lra).
    assert (HP0 : 0 <= K * (M + 1)) by (apply Qmult_le_0_compat; lra).
    assert (A : Qabs (a + x) <= 2 * (K * (M + 1)) + M).
    { eapply Qle_trans; [apply Qabs_triangle |].
      assert (E : 2 * K * (M + 1) == 2 * (K * (M + 1))) by ring.
      rewrite E in Ha. lra. }
    destruct (round_Fin (a + x) _ A) as (-> & _ & B).
    { set (p := K * (M + 1)) in *. rewrite P1023. lra64. }
    destruct (IH (fun y Hy => Hl y (or_intror Hy)) (S k)
                (round64 (a + x))) as (s & Hs & Bs).
    + replace (S k + List.length l)%nat with (k + S (List.length l))%nat
        by lia.
      exact Hk.
    + eapply Qle_trans; [exact B |].
      rewrite Nat2Z.inj_succ. unfold Z.succ. rewrite inject_Z_plus.
      fold K. change (inject_Z 1) with 1.
      assert (E : 2 * (K + 1) * (M + 1) == 2 * (K * (M + 1)) + 2 * (M + 1))
        by ring.
      rewrite E. set (p := K * (M + 1)) in *. lra64.
    + exists s. split; [exact Hs |].
      cbn [List.length].
      replace (k + S (List.length l))%nat with (S k + List.length l)%nat
        by lia.
      exact Bs.
Qed.

(** The mean of the coordinates of a moderate polygon, as the two
    [reduce] calls and the division compute it, is finite. *)
Lemma mean64_finite {A : Type} (f : A -> Q) (l : list A) :
  l <> [] ->
  (Z.of_nat (List.length l) <= 2 ^ 50)%Z ->
  (forall pt, In pt l -> Qabs (f pt) <= pow2 900) ->
  exists c,
    div (fold_left (fun sum point => add sum (JS.Fin (f point))) l (JS.Fin 0))
      (JS.Fin (JS.length l)) = JS.Fin c /\
    Qabs c <= pow2 1023.
Proof.
  intros Hne Hlen Hb.
  destruct pow2_900_1023 as [P9 P1023].
  pose proof eta_small as Et. pose proof (pow2_pos (-1075)) as Tpos.
  assert (Hfold : forall (acc : JS.num),
            fold_left (fun sum point => add sum (JS.Fin (f point))) l acc
            = fold_left (fun sum x => add sum (JS.Fin x)) (map f l) acc).
  { clear. induction l as [| x l IH]; intro acc; [reflexivity |].
    cbn [fold_left map]. apply IH. }
  rewrite Hfold.
  destruct (sum64_bound (map f l) (pow2 900)) with (k := O) (a := 0)
    as (s & -> & Bs).
  - lra.
  - apply Qle_refl.
  - intros x Hx. apply in_map_iff in Hx. destruct Hx as (pt & <- & Hpt).
    apply Hb. exact Hpt.
  - rewrite length_map. exact Hlen.
  - cbn. discriminate.
  - rewrite length_map in Bs. cbn [Nat.add] in Bs.
    fold (JS.length l) in Bs.
    pose proof (length_pos l Hne) as Hn.
    unfold div. cbn [JS.div].
    assert (Hnz : Qeq_bool (JS.length l) 0 = false).
    { destruct (Qeq_bool (JS.length l) 0) eqn:E; [| reflexivity].
      apply Qeq_bool_iff in E. lra. }
    rewrite Hnz.
    assert (Hq : Qabs (s / JS.length l) <= 2 * (pow2 900 + 1)).
    { unfold Qdiv. rewrite Qabs_Qmult.
      rewrite (Qabs_pos (/ JS.length l))
        by (apply Qlt_le_weak, Qinv_lt_0_compat; exact Hn).
      apply Qle_shift_div_r; [exact Hn |].
      eapply Qle_trans; [exact Bs |].
      assert (E : 2 * JS.length l * (pow2 900 + 1)
                  == 2 * (pow2 900 + 1) * JS.length l) by ring.
      rewrite E. apply Qle_refl. }
    destruct (round_Fin (s / JS.length l) _ Hq) as (-> & _ & B);
      [rewrite P1023; lra64 |].
    eexists. split; [reflexivity |].
    eapply Qle_trans; [exact B |]. rewrite P1023. lra64.
Qed.

Lemma centroid64_finite (P : Polygon) :
  P <> [] -> moderate P -> finite_point (centroid64 P).
Proof.
  intros Hne [Hlen Hb].
  destruct (mean64_finite fst P Hne Hlen) as (cx & Hx & Bx);
    [intros pt Hpt; apply (Hb pt Hpt) |].
  destruct (mean64_finite snd P Hne Hlen) as (cy & Hy & By);
    [intros pt Hpt; apply (Hb pt Hpt) |].
  exists cx, cy. unfold centroid64. rewrite Hx, Hy.
  split; [reflexivity | split; assumption].
Qed.

Lemma unitSquare_moderate : moderate unitSquare.
Proof.
  split; [vm_compute; discriminate |].
  intros pt [<- | [<- | [<- | [<- | []]]]]; split; vm_compute; discriminate.
Qed.

End Finite64.

Section Finite64Detection.

Import VerificationStep.

(** One coordinate of a sampled point: finite for sides of the box of
    magnitude at most [2^900]. *)
Lemma sample_finite (r a b : Q) :
  0 <= r -> r <= 1 ->
  Qabs a <= Binary64.pow2 900 -> Qabs b <= Binary64.pow2 900 ->
  exists x,
    Binary64.add (JS.Fin a)
      (Binary64.mul (JS.Fin r) (Binary64.sub (JS.Fin b) (JS.Fin a)))
    = JS.Fin x /\
    Qabs x <= Binary64.pow2 1023.
Proof.
  intros R0 R1 Ha Hb.
  destruct pow2_900_1023 as [P9 P1023].
  pose proof eta_small as Et. pose proof (pow2_pos (-1075)) as Tpos.
  unfold Binary64.sub. cbn [JS.sub JS.neg JS.add].
  assert (A1 : Qabs (b + - a) <= 2 * Binary64.pow2 900).
  { eapply Qle_trans; [apply Qabs_triangle |]. rewrite Qabs_opp. lra. }
  destruct (round_Fin _ _ A1) as (-> & _ & B1); [rewrite P1023; lra64 |].
  unfold Binary64.mul. cbn [JS.mul].
  set (d := Binary64.round64 (b + - a)) in *.
  assert (A2 : Qabs (r * d)
               <= 2 * Binary64.pow2 900 * (1 + (1 # 9007199254740992))
                  + Binary64.pow2 (-1075)).
  { rewrite Qabs_Qmult, (Qabs_pos r) by exact R0.
    pose proof (Qabs_nonneg d).
    apply Qle_trans with (1 * Qabs d); [apply Qmult_le_compat_r; lra | lra]. }
  destruct (round_Fin _ _ A2) as (-> & _ & B2); [rewrite P1023; lra64 |].
  unfold Binary64.add. cbn [JS.add].
  set (t := Binary64.round64 (r * d)) in *.
  assert (A3 : Qabs (a + t)
               <= Binary64.pow2 900
                  + ((2 * Binary64.pow2 900 * (1 + (1 # 9007199254740992))
                      + Binary64.pow2 (-1075))
                     * (1 + (1 # 9007199254740992))
                     + Binary64.pow2 (-1075))).
  { eapply Qle_trans; [apply Qabs_triangle |]. lra. }
  destruct (round_Fin _ _ A3) as (-> & _ & B3); [rewrite P1023; lra64 |].
  eexists. split; [reflexivity |].
  eapply Qle_trans; [exact B3 |]. rewrite P1023. lra64.
Qed.

Variable rnd : nat -> Q.

Lemma getRandomPointInPolygon64_finite (P : Polygon) (k : nat) :
  Binary64.unit_draws rnd -> P <> [] -> moderate P ->
  finite_point (fst (VerificationStep64.getRandomPointInPolygon rnd P k)).
Proof.
  intros Hrnd Hne [_ Hb].
  destruct (getBoundingBox_nonempty P Hne)
    as (a & b & c & d & Hbox & Ia & Ib & Ic & Id & _).
  apply in_map_iff in Ia, Ib, Ic, Id.
  destruct Ia as (pa & <- & Ia), Ib as (pb & <- & Ib),
           Ic as (pc & <- & Ic), Id as (pd & <- & Id).
  pose proof (pow2_pos (-53)) as Pe.
  destruct (Hrnd k) as [R0 R1]. destruct (Hrnd (S k)) as [S0 S1].
  unfold VerificationStep64.getRandomPointInPolygon. rewrite Hbox.
  cbn [minLon maxLon minLat maxLat fst].
  destruct (sample_finite (rnd k) (fst pa) (fst pb)) as (x & -> & Bx);
    [lra | lra | apply (Hb pa Ia) | apply (Hb pb Ib) |].
  destruct (sample_finite (rnd (S k)) (snd pc) (snd pd)) as (y & -> & By);
    [lra | lra | apply (Hb pc Ic) | apply (Hb pd Id) |].
  exists x, y. split; [reflexivity | split; assumption].
Qed.

(** Where the records of a run are placed: at the centroid computed in
    binary64, or at a sampled point. *)
Lemma detectedRecords64_locations (P : Polygon) (cm : CarbonMetrics)
    (k : nat) :
  Forall (fun a =>
            location a = centroid64 P \/
            exists j,
              location a
              = fst (VerificationStep64.getRandomPointInPolygon rnd P j))
    (fst (VerificationStep64.detectedRecords rnd P cm k)).
Proof.
  unfold VerificationStep64.detectedRecords.
  destruct (Binary64.gtb _ _), (truthy (area cm)); cbn [fst app];
    repeat (apply Forall_cons || apply Forall_nil); cbn [location];
    solve [left; reflexivity | right; eexists; reflexivity].
Qed.

(** On a moderate polygon that is not empty every record of a run lies at
    a pair of finite coordinates. *)
Lemma detectedRecords64_finite (P : Polygon) (cm : CarbonMetrics)
    (k : nat) :
  Binary64.unit_draws rnd -> P <> [] -> moderate P ->
  Forall (fun a => finite_point (location a))
    (fst (VerificationStep64.detectedRecords rnd P cm k)).
Proof.
  intros Hrnd Hne Hmod.
  eapply Forall_impl; [| apply detectedRecords64_locations].
  intros a [-> | [j ->]].
  - apply centroid64_finite; assumption.
  - apply getRandomPointInPolygon64_finite; assumption.
Qed.

End Finite64Detection.

(* ================================================================== *)
(** ** Binary64: the layer module *)

Section LayerModule64.

Import AnomalyLayer64.

Variable rnd : nat -> Q.

(** More fuel than the trip count changes nothing, whatever the draws. *)
Lemma forLoop64_fuel (center : JS.num * JS.num) (count : Q) (extra : nat)
    (n : nat) :
  forall (i : Z) (acc : list AnomalyPoint) (k : nat),
  (Qceiling count <= i + Z.of_nat n)%Z ->
  forLoop rnd center count (n + extra) i acc k
  = forLoop rnd center count n i acc k.
Proof.
  induction n as [| n IH]; intros i acc k Hn.
  - assert (Hi : JS.Qltb (inject_Z i) count = false).
    { apply Qltb_false.
      apply Qle_trans with (inject_Z (Qceiling count));
        [apply Qle_ceiling | rewrite <- Zle_Qle; lia]. }
    destruct extra as [| extra]; [reflexivity |].
    cbn [Nat.add forLoop]. rewrite Hi. reflexivity.
  - cbn [Nat.add forLoop].
    destruct (JS.Qltb (inject_Z i) count); [| reflexivity].
    unfold bind.
    destruct (generateOne rnd center i k) as [[a | e] k'];
      [apply IH; lia | reflexivity].
Qed.

(** With three vertices or more the records are generated around the
    centroid computed in binary64. *)
Lemma generateDummyAnomalies64_center (p : Polygon) (count : option Q)
    (k : nat) :
  (3 <= List.length p)%nat ->
  generateDummyAnomalies rnd (Some p) count k
  = generateAnomaliesAroundPoint rnd (centroid64 p) (countOrDefault count) k.
Proof.
  intro Hp.
  assert (Hlong : JS.Qltb (JS.length p) 3 = false).
  { destruct (JS.Qltb (JS.length p) 3) eqn:E; [| reflexivity].
    apply short_polygon in E. lia. }
  unfold generateDummyAnomalies. rewrite Hlong. reflexivity.
Qed.

Hypothesis rnd_unit : Binary64.unit_draws rnd.

(** One trip of the loop: four draws, no error, the next id, and a
    position around a finite center. *)
Lemma generateOne64_unit (center : JS.num * JS.num) (i : Z) (k : nat) :
  exists a,
    generateOne rnd center i k = (Normal a, (k + 4)%nat) /\
    id a = (i + 1)%Z /\
    forall cx cy : Q,
      center = (JS.Fin cx, JS.Fin cy) ->
      Qabs cx <= Binary64.pow2 1023 -> Qabs cy <= Binary64.pow2 1023 ->
      rounded_around 0.02 (cx, cy) (position a).
Proof.
  destruct center as [centerLng centerLat].
  destruct (rnd_unit k) as [A0 A1].
  destruct (rnd_unit (S k)) as [B0 B1].
  destruct (rnd_unit (S (S k))) as [C0 C1].
  destruct (offset_bound (rnd k) A0 A1) as (o1 & E1 & O1).
  destruct (offset_bound (rnd (S k)) B0 B1) as (o2 & E2 & O2).
  destruct (floor_index AnomalyLayer.anomalyTypes (rnd (S (S k))))
    as (j & Hj & Ej); [discriminate | vm_compute; discriminate
                      | assumption | assumption |].
  destruct (index_in_range AnomalyLayer.anomalyTypes j Hj)
    as (entry & Hentry & _).
  unfold generateOne, bind, Math_random.
  rewrite E1, E2, Ej, Hentry. unfold ret.
  eexists. split; [f_equal; lia | split; [reflexivity |]].
  intros cx cy Hc Hx Hy. inversion Hc; subst. cbn [position].
  destruct (position_bound cx o1 Hx O1) as (x & -> & Wx).
  destruct (position_bound cy o2 Hy O2) as (y & -> & Wy).
  exists x, y. split; [reflexivity | split; assumption].
Qed.

Lemma forLoop64_unit (center : JS.num * JS.num) (count : Q) (n : nat) :
  forall (i : Z) (acc : list AnomalyPoint) (k : nat),
  (forall j, (0 <= j < Z.of_nat n)%Z -> inject_Z (i + j) < count) ->
  exists new,
    forLoop rnd center count n i acc k
      = (Normal (acc ++ new), (k + 4 * n)%nat) /\
    List.length new = n /\
    Forall (fun a =>
              forall cx cy : Q,
                center = (JS.Fin cx, JS.Fin cy) ->
                Qabs cx <= Binary64.pow2 1023 ->
                Qabs cy <= Binary64.pow2 1023 ->
                rounded_around 0.02 (cx, cy) (position a)) new.
Proof.
  induction n as [| n IH]; intros i acc k Htest.
  - exists []. simpl. unfold ret. rewrite app_nil_r.
    repeat split; [f_equal; lia | constructor].
  - assert (Hi : JS.Qltb (inject_Z i) count = true).
    { apply Qltb_true. rewrite <- (Z.add_0_r i). apply Htest. lia. }
    destruct (generateOne64_unit center i k) as (a & Ha & _ & Hok).
    destruct (IH (i + 1)%Z (acc ++ [a]) (k + 4)%nat)
      as (new & Hrun & Hlen & Hall).
    { intros j Hj. rewrite <- Z.add_assoc. apply Htest. lia. }
    exists (a :: new). cbn [forLoop]. rewrite Hi.
    unfold bind at 1. rewrite Ha, Hrun.
    repeat split.
    + rewrite <- app_assoc. simpl. f_equal. lia.
    + simpl. congruence.
    + constructor; assumption.
Qed.

(** C2, amended.  In binary64, with every draw of the random source a
    binary64 number in [[0, 1)]: for a polygon of at least three vertices
    and an integer count [N >= 0], [generateDummyAnomalies] returns
    exactly [N] records; when the centroid the code computes is a pair of
    finite numbers of magnitude at most [2^1023], the position of each
    record is a pair of finite numbers within 0.02 degrees of that
    centroid up to rounding: on each axis the distance is at most
    [0.02 + 2^-53 * (|c| + 1)] for the coordinate [c] of the centroid;
    and the computed centroid is such a pair for every polygon of at most
    [2^50] vertices with coordinates of magnitude at most [2^900]. *)
Theorem generate_count_and_rounded_spread (P : Polygon) (N : Z) (k : nat) :
  (3 <= List.length P)%nat -> (0 <= N)%Z ->
  exists l k',
    generateDummyAnomalies rnd (Some P) (Some (inject_Z N)) k
      = (Normal l, k') /\
    Z.of_nat (List.length l) = N /\
    (forall cx cy : Q,
       centroid64 P = (JS.Fin cx, JS.Fin cy) ->
       Qabs cx <= Binary64.pow2 1023 -> Qabs cy <= Binary64.pow2 1023 ->
       Forall (fun a => rounded_around 0.02 (cx, cy) (position a)) l) /\
    (moderate P -> finite_point (centroid64 P)).
Proof.
  intros HP HN.
  rewrite (generateDummyAnomalies64_center P _ k HP).
  unfold generateAnomaliesAroundPoint, countOrDefault.
  destruct (forLoop64_unit (centroid64 P) (inject_Z N)
              (AnomalyLayer.tripCount (inject_Z N)) 0%Z [] k)
    as (new & Hrun & Hlen & Hall).
  { intros j Hj. unfold AnomalyLayer.tripCount in Hj.
    rewrite Qceiling_Z in Hj. rewrite <- Zlt_Qlt. lia. }
  exists new. eexists. split; [exact Hrun |].
  split; [| split].
  - rewrite Hlen. unfold AnomalyLayer.tripCount. rewrite Qceiling_Z. lia.
  - intros cx cy Hc Hx Hy.
    eapply Forall_impl; [| exact Hall].
    intros a Ha. exact (Ha cx cy Hc Hx Hy).
  - apply centroid64_finite. destruct P; [simpl in HP; lia | discriminate].
Qed.

End LayerModule64.

Section LayerModule64Instances.

Import AnomalyLayer64.

(** C2, as stated, fails in binary64.  With a draw of 0 the record
    generated for the square [(0,0) (2,0) (2,2) (0,2)], whose centroid is
    [(1, 1)] in exact and in binary64 arithmetic alike, lies at
    [1 - 0.02], which rounds to a number more than 0.02 away from 1; and
    the record generated around the default center lies at
    [0.5104 - 0.02] in latitude, more than 0.02 away from the latitude of
    the center.  In both cases [Math.abs(position - center) > 0.02] is
    true in the arithmetic of the engine as well. *)
Lemma generate_spread_exceeds_bound :
  (exists a x y,
     generateDummyAnomalies zeroDraws (Some unitSquare) (Some 1) 0%nat
       = (Normal [a], 4%nat) /\
     position a = (JS.Fin x, JS.Fin y) /\
     centroid64 unitSquare = (JS.Fin 1, JS.Fin 1) /\
     fst (centroid unitSquare) == 1 /\ snd (centroid unitSquare) == 1 /\
     0.02 < Qabs (x - 1) /\ 0.02 < Qabs (y - 1) /\
     Binary64.gtb
       (Binary64.abs (Binary64.sub (JS.Fin x) (JS.Fin 1)))
       (Binary64.literal 0.02) = true) /\
  (exists a x y clat,
     generateDummyAnomalies zeroDraws None (Some 1) 0%nat
       = (Normal [a], 4%nat) /\
     position a = (JS.Fin x, JS.Fin y) /\
     snd defaultCenter = JS.Fin clat /\
     0.02 < Qabs (y - clat) /\
     0.02 < Qabs (y - 0.5104) /\
     Binary64.gtb
       (Binary64.abs (Binary64.sub (JS.Fin y) (JS.Fin clat)))
       (Binary64.literal 0.02) = true).
Proof.
  split.
  - eexists. eexists. eexists.
    split; [vm_compute; reflexivity |].
    split; [reflexivity |].
    split; [vm_compute; reflexivity |].
    repeat split; vm_compute; reflexivity.
  - eexists. eexists. eexists. eexists.
    split; [vm_compute; reflexivity |].
    split; [reflexivity |].
    split; [vm_compute; reflexivity |].
    repeat split; vm_compute; reflexivity.
Qed.

Lemma generate_count_and_rounded_spread_witness :
  Binary64.unit_draws zeroDraws /\
  (3 <= List.length unitSquare)%nat /\ (0 <= 3)%Z /\
  centroid64 unitSquare = (JS.Fin 1, JS.Fin 1) /\
  Qabs 1 <= Binary64.pow2 1023 /\
  moderate unitSquare /\
  exists l k',
    generateDummyAnomalies zeroDraws (Some unitSquare)
      (Some (inject_Z 3)) 0%nat = (Normal l, k') /\
    Z.of_nat (List.length l) = 3%Z /\
    Forall (fun a => rounded_around 0.02 (1, 1) (position a)) l /\
    finite_point (centroid64 unitSquare).
Proof.
  assert (H : Binary64.unit_draws zeroDraws)
    by (intro k; split; vm_compute; discriminate).
  assert (Hc : centroid64 unitSquare = (JS.Fin 1, JS.Fin 1))
    by (vm_compute; reflexivity).
  assert (Hb : Qabs 1 <= Binary64.pow2 1023)
    by (vm_compute; discriminate).
  split; [exact H |]. split; [simpl; lia |]. split; [lia |].
  split; [exact Hc |]. split; [exact Hb |].
  split; [exact unitSquare_moderate |].
  destruct (generate_count_and_rounded_spread zeroDraws H unitSquare 3 0%nat)
    as (l & k' & Hrun & Hlen & Hall & Hfin); [simpl; lia | lia |].
  exists l, k'. split; [exact Hrun |]. split; [exact Hlen |].
  split; [exact (Hall 1 1 Hc Hb Hb) | exact (Hfin unitSquare_moderate)].
Defined.

End LayerModule64Instances.

(* ================================================================== *)
(** ** Binary64: the area overlay *)

Section VerificationStep64Proofs.

Import VerificationStep.
Import VerificationStep64.

Lemma literal_offset :
  Binary64.literal 0.005
  = JS.Fin (5764607523034235 # 1152921504606846976).
Proof. vm_compute. reflexivity. Qed.

(** The two sides drawn around a coordinate. *)
Lemma sides_of_square (c : JS.num) :
  sides_around 0.005 c
    (Binary64.sub c (Binary64.literal 0.005))
    (Binary64.add c (Binary64.literal 0.005)).
Proof.
  rewrite literal_offset.
  destruct c as [x | | |]; try (split; reflexivity).
  unfold sides_around. intro Hx.
  pose proof eta_small as Et.
  pose proof (Qabs_nonneg x) as Hx0.
  set (h := 5764607523034235 # 1152921504606846976).
  assert (Hh : h == 5764607523034235 # 1152921504606846976) by reflexivity.
  unfold Binary64.sub, Binary64.add. cbn [JS.sub JS.neg JS.add].
  assert (A1 : Qabs (x + - h) <= Qabs x + h).
  { eapply Qle_trans; [apply Qabs_triangle |].
    rewrite Qabs_opp, (Qabs_pos h) by (rewrite Hh; discriminate).
    apply Qle_refl. }
  assert (A2 : Qabs (x + h) <= Qabs x + h).
  { eapply Qle_trans; [apply Qabs_triangle |].
    rewrite (Qabs_pos h) by (rewrite Hh; discriminate). apply Qle_refl. }
  destruct (round_Fin (x + - h) _ A1) as (-> & E1 & _);
    [rewrite Hh; lra64 |].
  destruct (round_Fin (x + h) _ A2) as (-> & E2 & _);
    [rewrite Hh; lra64 |].
  eexists. eexists. split; [reflexivity |]. split; [reflexivity |].
  unfold rounded_within. rewrite eps_value.
  split.
  - assert (Eq : Binary64.round64 (x + - h) - x
                 == (Binary64.round64 (x + - h) - (x + - h)) + - h) by ring.
    rewrite Eq. eapply Qle_trans; [apply Qabs_triangle |].
    rewrite Qabs_opp, (Qabs_pos h) by (rewrite Hh; discriminate).
    rewrite Hh in *. lra64.
  - assert (Eq : Binary64.round64 (x + h) - x
                 == (Binary64.round64 (x + h) - (x + h)) + h) by ring.
    rewrite Eq. eapply Qle_trans; [apply Qabs_triangle |].
    rewrite (Qabs_pos h) by (rewrite Hh; discriminate).
    rewrite Hh in *. lra64.
Qed.

Lemma areaFeature64_square (a : AnomalyInfo) :
  square_around64 a (areaFeature a).
Proof.
  unfold square_around64, areaFeature.
  destruct (location a) as [lon lat]. cbn [fst snd properties geometry].
  split; [reflexivity |].
  eexists. eexists. eexists. eexists.
  split; [reflexivity |].
  repeat (split; [reflexivity |]).
  split; apply sides_of_square.
Qed.

Lemma areaFeatures64_squares (l : list AnomalyInfo) :
  Forall2 square_around64 l (map areaFeature l).
Proof.
  induction l as [| a l IH]; cbn [map]; constructor.
  - apply areaFeature64_square.
  - exact IH.
Qed.

Variable rnd : nat -> Q.

(** What a run on present inputs leaves in the state. *)
Lemma detectAnomalies64_present (p : Polygon) (cm : CarbonMetrics)
    (hook : bool) (w : World) :
  let recs := fst (detectedRecords rnd p cm (randomPos w)) in
  let w' := detectAnomalies rnd (contextOf p cm) hook w in
  anomalies w' = recs /\
  (recs = [] -> anomalyLayersRef w' = anomalyLayersRef w) /\
  (recs <> [] ->
     anomalyLayersRef w'
       = [anomalyAreasLayer recs; anomalyPointsLayer recs]).
Proof.
  unfold detectAnomalies, contextOf.
  cbn [carbonMetrics getDrawnArea].
  destruct (detectedRecords rnd p cm (randomPos w)) as [recs k].
  cbn [fst].
  destruct recs as [| r recs].
  - cbn. repeat split; congruence.
  - cbn [List.length Nat.ltb Nat.leb].
    destruct hook; cbn;
      (split; [reflexivity |]);
      (split; [intro H; discriminate H | intros _; reflexivity]).
Qed.

(** C6, amended.  In binary64, whenever a run stores anomalies, the
    first stored layer is the area overlay and its features correspond
    one to one to the anomalies: each carries the id and severity of its
    anomaly, and its ring is a closed rectangle of five vertices, the
    first repeated last, with the sides [lon - 0.005], [lon + 0.005],
    [lat - 0.005] and [lat + 0.005] as the engine computes them.  For a
    finite coordinate of magnitude at most [2^1023] the two sides are
    finite and within 0.005 degrees of it up to rounding, at most
    [0.005 + 2^-53 * (|c| + 1)] away; for a coordinate that is not
    finite they are that coordinate.  With every draw a binary64 number
    in [[0, 1)], on a polygon that is not empty, of at most [2^50]
    vertices with coordinates of magnitude at most [2^900], every stored
    anomaly lies at a pair of such finite coordinates. *)
Theorem area_overlay_rounded_squares (P : Polygon) (cm : CarbonMetrics)
    (hook : bool) (w : World) :
  let w' := detectAnomalies rnd (contextOf P cm) hook w in
  (anomalies w' = [] \/
   exists areas points,
     anomalyLayersRef w' = [areas; points] /\
     layer_id areas = "anomaly-areas"%string /\
     Forall2 square_around64 (anomalies w') (features areas)) /\
  (Binary64.unit_draws rnd -> P <> [] -> moderate P ->
   Forall (fun a => finite_point (location a)) (anomalies w')).
Proof.
  intros w'.
  destruct (detectAnomalies64_present P cm hook w) as (Hrecs & _ & Hsome).
  fold w' in Hrecs, Hsome.
  rewrite Hrecs. split.
  - destruct (fst (detectedRecords rnd P cm (randomPos w)))
      as [| r recs] eqn:E; [now left | right].
    rewrite (Hsome ltac:(discriminate)).
    eexists. eexists. split; [reflexivity |]. split; [reflexivity |].
    cbn [features anomalyAreasLayer].
    apply areaFeatures64_squares.
  - intros Hrnd Hne Hmod.
    apply detectedRecords64_finite; assumption.
Qed.

End VerificationStep64Proofs.

Section VerificationStep64Instances.

Import VerificationStep.
Import VerificationStep64.

(** C6, as stated, fails in binary64.  In the run on the square
    [(0,0) (2,0) (2,2) (0,2)] with the sample metrics the growth anomaly
    sits at [(1, 1)], and the west and south sides of its square are the
    binary64 number [1 - 0.005] rounds to, which is more than 0.005 away
    from 1; [Math.abs(west - 1) > 0.005] is true in the arithmetic of the
    engine as well. *)
Lemma area_square_exceeds_half_width :
  let w' := detectAnomalies halfDraws (contextOf unitSquare sampleMetrics)
              true mounted in
  exists a rest areas points f others west east,
    anomalies w' = a :: rest /\
    location a = (JS.Fin 1, JS.Fin 1) /\
    anomalyLayersRef w' = [areas; points] /\
    features areas = f :: others /\
    geometry f
      = PolygonGeometry
          [[(JS.Fin west, JS.Fin west); (JS.Fin east, JS.Fin west);
            (JS.Fin east, JS.Fin east); (JS.Fin west, JS.Fin east);
            (JS.Fin west, JS.Fin west)]] /\
    0.005 < Qabs (west - 1) /\
    Binary64.gtb
      (Binary64.abs (Binary64.sub (JS.Fin west) (JS.Fin 1)))
      (Binary64.literal 0.005) = true.
Proof.
  cbv zeta. do 8 eexists.
  split; [vm_compute; reflexivity |].
  split; [reflexivity |].
  split; [vm_compute; reflexivity |].
  split; [reflexivity |].
  split; [reflexivity |].
  split; vm_compute; reflexivity.
Qed.

Lemma area_overlay_rounded_squares_witness :
  Binary64.unit_draws halfDraws /\ unitSquare <> [] /\
  moderate unitSquare /\
  Forall (fun a => finite_point (location a))
    (anomalies
       (detectAnomalies halfDraws (contextOf unitSquare sampleMetrics)
          true mounted)).
Proof.
  assert (H : Binary64.unit_draws halfDraws)
    by (intro k; split; vm_compute; discriminate).
  pose proof unitSquare_moderate as Hm.
  split; [exact H |]. split; [discriminate |]. split; [exact Hm |].
  apply (proj2 (area_overlay_rounded_squares halfDraws unitSquare
                  sampleMetrics true mounted));
    [exact H | discriminate | exact Hm].
Defined.

(** The run of the example: four anomalies at [(1, 1)], each with a
    square whose sides are finite and within 0.005 of 1 up to
    rounding. *)
Example area_overlay_of_sample :
  let w' := detectAnomalies halfDraws (contextOf unitSquare sampleMetrics)
              true mounted in
  map location (anomalies w')
    = repeat (JS.Fin 1, JS.Fin 1) 4 /\
  exists areas points,
    anomalyLayersRef w' = [areas; points] /\
    Forall (fun f =>
              exists west east,
                geometry f
                = PolygonGeometry
                    [[(JS.Fin west, JS.Fin west); (JS.Fin east, JS.Fin west);
                      (JS.Fin east, JS.Fin east); (JS.Fin west, JS.Fin east);
                      (JS.Fin west, JS.Fin west)]] /\
                rounded_within 0.005 1 west /\
                rounded_within 0.005 1 east)
      (features areas).
Proof.
  cbv zeta. split; [vm_compute; reflexivity |].
  eexists. eexists. split; [vm_compute; reflexivity |].
  cbn [features].
  repeat constructor;
    (eexists; eexists; split; [reflexivity |]);
    split; vm_compute; discriminate.
Qed.

End VerificationStep64Instances.

(* ================================================================== *)
(** ** Binary64: the growth rule and the vertex mean *)

Section Threshold64.

Import VerificationStep.

Lemma pow2_1024_pos : 0 < Binary64.pow2 1024.
Proof. apply pow2_pos. Qed.

Lemma fl_nonpos (x : Q) : x <= 0 -> nonpos (Binary64.fl x).
Proof.
  intro H. destruct (round64_sign x) as [_ Hs]. specialize (Hs H).
  pose proof pow2_1024_pos as HP.
  unfold Binary64.fl.
  destruct (Qle_bool (Binary64.pow2 1024) (Binary64.round64 x)) eqn:E1.
  - apply Qle_bool_iff in E1. lra64.
  - destruct (Qle_bool (Binary64.round64 x) (- Binary64.pow2 1024));
      [exact I | exact Hs].
Qed.

Lemma fl_nonneg (x : Q) : 0 <= x -> nonneg (Binary64.fl x).
Proof.
  intro H. destruct (round64_sign x) as [Hs _]. specialize (Hs H).
  pose proof pow2_1024_pos as HP.
  unfold Binary64.fl.
  destruct (Qle_bool (Binary64.pow2 1024) (Binary64.round64 x));
    [exact I |].
  destruct (Qle_bool (Binary64.round64 x) (- Binary64.pow2 1024)) eqn:E2.
  - apply Qle_bool_iff in E2. lra64.
  - exact Hs.
Qed.

Lemma nonpos_silent (p : JS.num) :
  nonpos p -> Binary64.gtb p (JS.Fin 20) = false.
Proof.
  destruct p as [q | | |]; cbn; try tauto.
  intro H. apply Qltb_false. lra.
Qed.

Lemma times_100_nonpos (q : JS.num) :
  nonpos q -> nonpos (Binary64.mul q (JS.Fin 100)).
Proof.
  destruct q as [q | | |]; cbn [nonpos]; try contradiction.
  - intro H. unfold Binary64.mul. cbn [JS.mul Binary64.round].
    apply fl_nonpos. lra.
  - intros _. exact I.
Qed.

(** A quotient whose numerator and denominator have opposite signs. *)
Lemma quotient_nonpos (g : Q) (b : JS.num) :
  Binary64.eqb b (JS.Fin 0) = false ->
  (g <= 0 /\ nonneg b) \/ (0 <= g /\ nonpos b) ->
  nonpos (Binary64.div (JS.Fin g) b).
Proof.
  intros Hz H. unfold Binary64.div.
  destruct b as [y | | |]; cbn [nonneg nonpos] in H.
  - cbn [Binary64.eqb] in Hz. cbn [JS.div]. rewrite Hz.
    apply Qeq_bool_neq in Hz. cbn [Binary64.round].
    apply fl_nonpos.
    destruct H as [[Hg Hy] | [Hg Hy]].
    + apply Qle_shift_div_r; lra.
    + assert (E : g / y == (- g) / (- y)) by (field; exact Hz).
      rewrite E. apply Qle_shift_div_r; lra.
  - cbn. apply Qle_refl.
  - cbn. apply Qle_refl.
  - destruct H as [[_ []] | [_ []]].
Qed.

(** Outside the open interval between zero and the stocks the rule is
    silent. *)
Lemma silent_outside (cm : CarbonMetrics) :
  0 <= carbonStocks cm ->
  forestGrowth cm <= 0 \/ carbonStocks cm <= forestGrowth cm ->
  Binary64.gtb (VerificationStep64.calculateForestGrowthPercentage (Some cm))
    (JS.Fin 20) = false.
Proof.
  intros Hs H.
  unfold VerificationStep64.calculateForestGrowthPercentage.
  set (b := Binary64.sub (JS.Fin (carbonStocks cm))
              (JS.Fin (forestGrowth cm))).
  destruct (Binary64.eqb b (JS.Fin 0)) eqn:Hz; [reflexivity |].
  apply nonpos_silent, times_100_nonpos, quotient_nonpos; [exact Hz |].
  unfold b, Binary64.sub. cbn [JS.sub JS.neg JS.add Binary64.round].
  destruct H as [H | H].
  - left. split; [exact H | apply fl_nonneg; lra].
  - right. split; [lra | apply fl_nonpos; lra].
Qed.

End Threshold64.

Section Threshold64b.

Import VerificationStep.

Lemma fl_cases (x : Q) :
  Binary64.fl x = JS.Fin (Binary64.round64 x) \/
  Binary64.fl x = JS.PInf \/ Binary64.fl x = JS.NInf.
Proof.
  unfold Binary64.fl.
  destruct (Qle_bool _ _); [auto |]. destruct (Qle_bool _ _); auto.
Qed.

Lemma delta_value : Binary64.pow2 (-50) == 1 # 1125899906842624.
Proof. vm_compute. reflexivity. Qed.

(** Half the least positive binary64 number against a baseline of at
    least [2^-1000]. *)
Lemma eta_relative (D : Q) :
  Binary64.pow2 (-1000) <= D ->
  Binary64.pow2 (-1075) <= (1 # 37778931862957161709568) * D.
Proof.
  intro H.
  assert (E : Binary64.pow2 (-1075)
              == (1 # 37778931862957161709568) * Binary64.pow2 (-1000)).
  { change (-1075)%Z with (-75 + -1000)%Z. rewrite pow2_add.
    apply Qmult_comp; [vm_compute; reflexivity | reflexivity]. }
  rewrite E. apply Qmult_le_l; [reflexivity | exact H].
Qed.

(** The baseline, the quotient and the percentage of metrics with a
    baseline between [2^-1000] and [2^1023] and a growth that is not
    negative. *)
Lemma percentage_steps (cm : CarbonMetrics) :
  let D := carbonStocks cm - forestGrowth cm in
  Binary64.pow2 (-1000) <= D ->
  carbonStocks cm <= Binary64.pow2 1023 ->
  0 <= forestGrowth cm ->
  exists b : Q,
    (1 - (1 # 9007199254740992) - (1 # 37778931862957161709568)) * D <= b /\
    b <= (1 + (1 # 9007199254740992) + (1 # 37778931862957161709568)) * D /\
    0 < b /\
    VerificationStep64.calculateForestGrowthPercentage (Some cm)
    = Binary64.mul (Binary64.fl (forestGrowth cm / b)) (JS.Fin 100).
Proof.
  intros D HD Hs Hg.
  pose proof (eta_relative D HD) as Het.
  pose proof (pow2_pos (-1000)) as P0.
  assert (HDpos : 0 < D) by lra64.
  assert (A : Qabs (carbonStocks cm + - forestGrowth cm) <= D).
  { rewrite Qabs_pos by (unfold D in HDpos; lra). unfold D. lra. }
  destruct (round_Fin _ _ A) as (Hb & Eb & _); [unfold D; lra64 |].
  apply Qabs_Qle_condition in Eb. destruct Eb as [Eb1 Eb2].
  set (b := Binary64.round64 (carbonStocks cm + - forestGrowth cm)) in *.
  assert (B1 : (1 - (1 # 9007199254740992)
                - (1 # 37778931862957161709568)) * D <= b)
    by (unfold D in *; lra64).
  assert (B2 : b <= (1 + (1 # 9007199254740992)
                     + (1 # 37778931862957161709568)) * D)
    by (unfold D in *; lra64).
  assert (Bpos : 0 < b) by lra.
  exists b. split; [exact B1 |]. split; [exact B2 |]. split; [exact Bpos |].
  unfold VerificationStep64.calculateForestGrowthPercentage.
  unfold Binary64.sub at 1 2. cbn [JS.sub JS.neg JS.add]. rewrite Hb.
  cbn [Binary64.eqb].
  assert (Hnz : Qeq_bool b 0 = false).
  { destruct (Qeq_bool b 0) eqn:E; [| reflexivity].
    apply Qeq_bool_iff in E. lra. }
  rewrite Hnz. unfold Binary64.div. cbn [JS.div]. rewrite Hnz.
  reflexivity.
Qed.

(** Above one sixth of the stocks by a relative [2^-50] the rule
    fires. *)
Lemma fires_above (cm : CarbonMetrics) :
  Binary64.pow2 (-1000) <= carbonStocks cm - forestGrowth cm ->
  carbonStocks cm <= Binary64.pow2 1023 ->
  0 <= forestGrowth cm ->
  carbonStocks cm / 6 * (1 + Binary64.pow2 (-50)) <= forestGrowth cm ->
  fires64 cm.
Proof.
  intros HD Hs Hg Hband. rewrite delta_value in Hband. unfold fires64.
  destruct (percentage_steps cm HD Hs Hg) as (b & B1 & B2 & Bpos & ->).
  pose proof (pow2_pos (-1000)) as P0.
  pose proof eta_small as Et.
  pose proof (pow2_pos (-1075)) as Tpos.
  set (g := forestGrowth cm) in *. set (s := carbonStocks cm) in *.
  assert (Hq0 : (1 + (1 # 1125899906842624))
                <= g / b * ((5 - (1 # 1125899906842624))
                            * (1 + (1 # 9007199254740992)
                               + (1 # 37778931862957161709568)))).
  { apply Qmult_le_r with b; [exact Bpos |].
    assert (E : g / b * ((5 - (1 # 1125899906842624))
                         * (1 + (1 # 9007199254740992)
                            + (1 # 37778931862957161709568))) * b
                == g * ((5 - (1 # 1125899906842624))
                        * (1 + (1 # 9007199254740992)
                           + (1 # 37778931862957161709568))))
      by (field; lra).
    rewrite E. unfold Qdiv in Hband. change (/ 6) with (1 # 6) in Hband.
    lra64. }
  set (q0 := g / b) in *.
  assert (Hq0pos : 0 <= q0) by lra.
  destruct (fl_cases q0) as [-> | [-> | E]]; [| reflexivity |].
  2:{ pose proof (fl_nonneg q0 Hq0pos) as N. rewrite E in N. destruct N. }
  pose proof (round64_error q0) as Eq. rewrite eps_value in Eq.
  rewrite (Qabs_pos q0) in Eq by exact Hq0pos.
  apply Qabs_Qle_condition in Eq. destruct Eq as [Eq _].
  set (q := Binary64.round64 q0) in *.
  unfold Binary64.mul. cbn [JS.mul Binary64.round].
  assert (Hp0 : 0 <= q * 100).
  { pose proof (proj1 (round64_sign q0) Hq0pos) as Hq. fold q in Hq. lra. }
  destruct (fl_cases (q * 100)) as [-> | [-> | E]]; [| reflexivity |].
  2:{ pose proof (fl_nonneg (q * 100) Hp0) as N. rewrite E in N.
      destruct N. }
  pose proof (round64_error (q * 100)) as Ep. rewrite eps_value in Ep.
  rewrite (Qabs_pos (q * 100)) in Ep by exact Hp0.
  apply Qabs_Qle_condition in Ep. destruct Ep as [Ep _].
  cbn [Binary64.gtb]. apply Qltb_true.
  set (p := Binary64.round64 (q * 100)) in *. lra64.
Qed.

(** Below one sixth of the stocks by a relative [2^-50] the rule is
    silent. *)
Lemma silent_below (cm : CarbonMetrics) :
  Binary64.pow2 (-1000) <= carbonStocks cm - forestGrowth cm ->
  carbonStocks cm <= Binary64.pow2 1023 ->
  0 <= forestGrowth cm ->
  forestGrowth cm <= carbonStocks cm / 6 * (1 - Binary64.pow2 (-50)) ->
  Binary64.gtb (VerificationStep64.calculateForestGrowthPercentage (Some cm))
    (JS.Fin 20) = false.
Proof.
  intros HD Hs Hg Hband. rewrite delta_value in Hband.
  destruct (percentage_steps cm HD Hs Hg) as (b & B1 & B2 & Bpos & ->).
  pose proof (pow2_pos (-1000)) as P0.
  pose proof eta_small as Et.
  pose proof (pow2_pos (-1075)) as Tpos.
  pose proof big_enough as HM.
  set (g := forestGrowth cm) in *. set (s := carbonStocks cm) in *.
  assert (Hq0 : g / b * ((5 + (1 # 1125899906842624))
                         * (1 - (1 # 9007199254740992)
                            - (1 # 37778931862957161709568)))
                <= 1 - (1 # 1125899906842624)).
  { apply Qmult_le_r with b; [exact Bpos |].
    assert (E : g / b * ((5 + (1 # 1125899906842624))
                         * (1 - (1 # 9007199254740992)
                            - (1 # 37778931862957161709568))) * b
                == g * ((5 + (1 # 1125899906842624))
                        * (1 - (1 # 9007199254740992)
                           - (1 # 37778931862957161709568))))
      by (field; lra).
    rewrite E. unfold Qdiv in Hband. change (/ 6) with (1 # 6) in Hband.
    lra64. }
  assert (Hq0pos : 0 <= g / b) by (apply Qle_shift_div_l; lra).
  set (q0 := g / b) in *.
  assert (A0 : Qabs q0 <= 1) by (rewrite Qabs_pos by exact Hq0pos; lra).
  destruct (round_Fin q0 1 A0) as (E0 & _ & _); [lra64 |].
  cbn [Binary64.round] in E0. rewrite E0.
  pose proof (round64_error q0) as Eq. rewrite eps_value in Eq.
  rewrite (Qabs_pos q0) in Eq by exact Hq0pos.
  apply Qabs_Qle_condition in Eq. destruct Eq as [Eq1 Eq2].
  set (q := Binary64.round64 q0) in *.
  unfold Binary64.mul. cbn [JS.mul].
  assert (A1 : Qabs (q * 100) <= 101).
  { apply Qabs_Qle_condition. split; lra64. }
  destruct (round_Fin (q * 100) 101 A1) as (-> & _ & _); [lra64 |].
  pose proof (round64_error (q * 100)) as Ep. rewrite eps_value in Ep.
  assert (Hp0 : 0 <= q * 100).
  { pose proof (proj1 (round64_sign q0) Hq0pos) as Hq. fold q in Hq. lra. }
  rewrite (Qabs_pos (q * 100)) in Ep by exact Hp0.
  apply Qabs_Qle_condition in Ep. destruct Ep as [_ Ep].
  cbn [Binary64.gtb]. apply Qltb_false.
  set (p := Binary64.round64 (q * 100)) in *. lra64.
Qed.

End Threshold64b.

Section Threshold64c.

Import VerificationStep.

(** X10.  The growth rule in binary64, for carbon stocks that are not
    negative.  The rule fires only for a forest growth strictly between
    zero and the stocks.  For a baseline between [2^-1000] and [2^1023]
    the threshold is one sixth of the stocks up to a relative [2^-50]:
    the rule fires for every growth from [stocks / 6 * (1 + 2^-50)] on,
    and only for a growth above [stocks / 6 * (1 - 2^-50)].  In between
    the rounding decides: for the stocks 1611.6 and the growth 268.6 the
    growth is strictly above one sixth of the stocks, the exact
    percentage is above 20, and the computed percentage is 20, so the
    rule is silent. *)
Theorem growth_rule_threshold_rounded (cm : CarbonMetrics) :
  0 <= carbonStocks cm ->
  (fires64 cm -> 0 < forestGrowth cm /\ forestGrowth cm < carbonStocks cm) /\
  (Binary64.pow2 (-1000) <= carbonStocks cm - forestGrowth cm ->
   carbonStocks cm <= Binary64.pow2 1023 ->
   (carbonStocks cm / 6 * (1 + Binary64.pow2 (-50)) <= forestGrowth cm ->
    fires64 cm) /\
   (fires64 cm ->
    carbonStocks cm / 6 * (1 - Binary64.pow2 (-50)) < forestGrowth cm)) /\
  (carbonStocks edgeMetrics / 6 < forestGrowth edgeMetrics /\
   forestGrowth edgeMetrics < carbonStocks edgeMetrics /\
   20 < calculateForestGrowthPercentage (Some edgeMetrics) /\
   VerificationStep64.calculateForestGrowthPercentage (Some edgeMetrics)
   = JS.Fin 20 /\
   ~ fires64 edgeMetrics).
Proof.
  intro Hs. split; [| split].
  - intro Hf. unfold fires64 in Hf.
    destruct (Qlt_le_dec 0 (forestGrowth cm)) as [Hg | Hg].
    + split; [exact Hg |].
      destruct (Qlt_le_dec (forestGrowth cm) (carbonStocks cm)) as [H | H];
        [exact H |].
      rewrite (silent_outside cm Hs (or_intror H)) in Hf. discriminate Hf.
    + rewrite (silent_outside cm Hs (or_introl Hg)) in Hf. discriminate Hf.
  - intros HD HM.
    pose proof (pow2_pos (-50)) as Pd. rewrite delta_value in Pd.
    split.
    + intro Hband. apply fires_above; try assumption.
      rewrite delta_value in Hband.
      unfold Qdiv in Hband. change (/ 6) with (1 # 6) in Hband. lra.
    + intro Hf. unfold fires64 in Hf.
      destruct (Qlt_le_dec
                  (carbonStocks cm / 6 * (1 - Binary64.pow2 (-50)))
                  (forestGrowth cm)) as [H | H]; [exact H |].
      destruct (Qlt_le_dec (forestGrowth cm) 0) as [Hg | Hg].
      * rewrite (silent_outside cm Hs (or_introl (Qlt_le_weak _ _ Hg))) in Hf.
        discriminate Hf.
      * rewrite (silent_below cm HD HM Hg H) in Hf. discriminate Hf.
  - split; [vm_compute; reflexivity |].
    split; [vm_compute; reflexivity |].
    split; [vm_compute; reflexivity |].
    split; [vm_compute; reflexivity |].
    unfold fires64. vm_compute. discriminate.
Qed.

(** X17.  In binary64 the growth anomaly can leave the bounding box.  For
    three vertices on one meridian, at the binary64 number nearest to
    0.1, the sum of the three longitudes divided by 3 is the next
    binary64 number above it, so the growth anomaly lies east of the
    eastern side of the box, while the three sampled anomalies of the
    run lie inside the box; in exact arithmetic the mean is inside the
    box as well. *)
Theorem growth_anomaly_can_leave_box :
  let box := getBoundingBox meridianPolygon in
  let w' := VerificationStep64.detectAnomalies halfDraws
              (contextOf meridianPolygon sampleMetrics) true mounted in
  exists a b l d x east,
    anomalies w' = [a; b; l; d] /\
    type a = "Unusual Carbon Growth"%string /\
    location a = (JS.Fin x, JS.Fin 1) /\
    maxLon box = JS.Fin east /\
    east < x /\
    x - east == Binary64.pow2 (-56) /\
    ~ insideBox box (location a) /\
    insideBox box (location b) /\
    insideBox box (location l) /\
    insideBox box (location d) /\
    insideBox box (centroidNum meridianPolygon).
Proof.
  cbv zeta. do 6 eexists.
  split; [vm_compute; reflexivity |].
  split; [reflexivity |].
  split; [reflexivity |].
  split; [vm_compute; reflexivity |].
  split; [vm_compute; reflexivity |].
  split; [vm_compute; reflexivity |].
  split.
  - intros (_ & H & _). vm_compute in H. apply H. reflexivity.
  - repeat split; vm_compute; discriminate.
Qed.

End Threshold64c.

Section Threshold64Instances.

Import VerificationStep.

Lemma growth_rule_threshold_rounded_witness :
  0 <= carbonStocks sampleMetrics /\
  Binary64.pow2 (-1000)
    <= carbonStocks sampleMetrics - forestGrowth sampleMetrics /\
  carbonStocks sampleMetrics <= Binary64.pow2 1023 /\
  carbonStocks sampleMetrics / 6 * (1 + Binary64.pow2 (-50))
    <= forestGrowth sampleMetrics /\
  fires64 sampleMetrics.
Proof.
  assert (H0 : 0 <= carbonStocks sampleMetrics) by (vm_compute; discriminate).
  assert (H1 : Binary64.pow2 (-1000)
               <= carbonStocks sampleMetrics - forestGrowth sampleMetrics)
    by (vm_compute; discriminate).
  assert (H2 : carbonStocks sampleMetrics <= Binary64.pow2 1023)
    by (vm_compute; discriminate).
  assert (H3 : carbonStocks sampleMetrics / 6 * (1 + Binary64.pow2 (-50))
               <= forestGrowth sampleMetrics)
    by (vm_compute; discriminate).
  split; [exact H0 |]. split; [exact H1 |]. split; [exact H2 |].
  split; [exact H3 |].
  exact (proj1 (proj1 (proj2 (growth_rule_threshold_rounded sampleMetrics H0))
                  H1 H2) H3).
Defined.

End Threshold64Instances.
